(** * The dbt artifact processor of OpenLineage, embedded in Rocq

    Source: [integration/common/openlineage/common/provider/dbt.py]
    (class [DbtArtifactProcessor]).

    The processor reads three JSON documents written by dbt (manifest,
    run results, catalog) and turns them into OpenLineage run events.
    The documents are dynamically typed, so the embedding works over a
    type of JSON values as [json.load] returns them, and every Python
    operation that can raise is a function into [result]. *)

From Stdlib Require Import ZArith String Ascii List Bool Lia.
From Stdlib Require Import Floats.SpecFloat.
From stdpp Require Import base option list strings gmap fin_maps pretty.

Import ListNotations.
Local Open Scope string_scope.
Local Open Scope Z_scope.
Local Open Scope list_scope.

Set Warnings "-register-all".

(** ** Python values *)

(** What [json.load] produces: [None], [bool], [int], [float], [str],
    [list] and [dict].  A [dict] keeps its insertion order, which is the
    order of [items()], [values()] and of iteration, so it is an
    association list (keys distinct, as the JSON decoder guarantees);
    a float is an IEEE value, NaN and the infinities included. *)
Inductive json : Type :=
| JNull
| JBool (b : bool)
| JInt (n : Z)
| JFloat (f : spec_float)
| JStr (s : string)
| JList (l : list json)
| JObj (d : list (string * json)).

(** Exceptions, by class.  The text of a message is not modelled: a
    [ValueError] raised by the processor carries a tag naming the place
    that raised it, and [ValueErrorOf e] is [ValueError(e)]. *)
Inductive exn : Type :=
| KeyError
| TypeError
| AttributeError
| IndexError
| OverflowError
| NotImplementedError
| ValueError (what : string)
| ValueErrorOf (e : exn).

(** The outcome of a Python expression: a value, an exception, or
    [Unmodelled] where the embedding does not determine the behaviour
    (the text [str()] gives for a float, a list or a dict).  [Unmodelled]
    is neither a value nor an exception: no handler catches it. *)
Inductive result (A : Type) : Type :=
| Ok (a : A)
| Raise (e : exn)
| Unmodelled.

Arguments Ok {A} a.
Arguments Raise {A} e.
Arguments Unmodelled {A}.

Definition bind {A B : Type} (c : result A) (k : A -> result B) : result B :=
  match c with
  | Ok a => k a
  | Raise e => Raise e
  | Unmodelled => Unmodelled
  end.

Notation "'let*' x ':=' c 'in' k" := (bind c (fun x => k))
  (at level 10, x pattern, c at level 100, k at level 200).

(** [[f(x) for x in xs]], stopping at the first element that raises. *)
Fixpoint traverse {A B : Type} (f : A -> result B) (xs : list A) : result (list B) :=
  match xs with
  | [] => Ok []
  | x :: xs' => let* y := f x in let* ys := traverse f xs' in Ok (y :: ys)
  end.

(** A loop [for x in xs: acc = body(acc, x)]. *)
Fixpoint for_each {A S : Type} (body : S -> A -> result S) (acc : S) (xs : list A) : result S :=
  match xs with
  | [] => Ok acc
  | x :: xs' => let* acc' := body acc x in for_each body acc' xs'
  end.

(** *** Dictionaries *)

Fixpoint dict_get {V : Type} (k : string) (d : list (string * V)) : option V :=
  match d with
  | [] => None
  | (k', v) :: d' => if String.eqb k k' then Some v else dict_get k d'
  end.

(** *** Truth value, [bool(v)] *)

Definition truthy (v : json) : bool :=
  match v with
  | JNull => false
  | JBool b => b
  | JInt n => negb (n =? 0)
  | JFloat (S754_zero _) => false
  | JFloat _ => true
  | JStr s => negb (String.eqb s "")
  | JList l => match l with [] => false | _ => true end
  | JObj d => match d with [] => false | _ => true end
  end.

Definition is_none (v : json) : bool :=
  match v with JNull => true | _ => false end.

(** [v == s] for a string literal [s]. *)
Definition eq_str (v : json) (s : string) : bool :=
  match v with JStr t => String.eqb t s | _ => false end.

(** *** Subscription *)

(** [seq[i]] for an integer index, counted from the end when negative. *)
Definition index_seq {A : Type} (l : list A) (i : Z) : result A :=
  let n := Z.of_nat (length l) in
  let j := if i <? 0 then i + n else i in
  if (j <? 0) || (n <=? j) then Raise IndexError
  else match nth_error l (Z.to_nat j) with
       | Some a => Ok a
       | None => Raise IndexError
       end.

Fixpoint chars (s : string) : list json :=
  match s with
  | EmptyString => []
  | String c s' => JStr (String c EmptyString) :: chars s'
  end.

(** [v[k]].  The keys of a decoded dict are strings, so no other key is
    found in it; lists and dicts are unhashable. *)
Definition subscript (v k : json) : result json :=
  match v with
  | JObj d =>
      match k with
      | JStr s => match dict_get s d with Some x => Ok x | None => Raise KeyError end
      | JList _ | JObj _ => Raise TypeError
      | _ => Raise KeyError
      end
  | JList l =>
      match k with
      | JInt i => index_seq l i
      | JBool b => index_seq l (if b then 1 else 0)
      | _ => Raise TypeError
      end
  | JStr s =>
      match k with
      | JInt i => index_seq (chars s) i
      | JBool b => index_seq (chars s) (if b then 1 else 0)
      | _ => Raise TypeError
      end
  | _ => Raise TypeError
  end.

(** [v['k']] for a string literal. *)
Definition getitem (v : json) (k : string) : result json := subscript v (JStr k).

(** [iter(v)]: the elements of a list, the keys of a dict, the
    characters of a string. *)
Definition py_iter (v : json) : result (list json) :=
  match v with
  | JList l => Ok l
  | JObj d => Ok (map (fun kv => JStr (fst kv)) d)
  | JStr s => Ok (chars s)
  | _ => Raise TypeError
  end.

(** [v.values()] and [v.items()]: only a dict has them. *)
Definition py_values (v : json) : result (list json) :=
  match v with
  | JObj d => Ok (map snd d)
  | _ => Raise AttributeError
  end.

Definition py_items (v : json) : result (list (string * json)) :=
  match v with
  | JObj d => Ok d
  | _ => Raise AttributeError
  end.

(** ['k' in v] for a string literal ['k']. *)
Definition py_in (k : string) (v : json) : result bool :=
  match v with
  | JObj d => Ok (match dict_get k d with Some _ => true | None => false end)
  | JList l => Ok (existsb (fun x => eq_str x k) l)
  | JStr s => Ok (match String.index 0 k s with Some _ => true | None => false end)
  | _ => Raise TypeError
  end.

(** [v.startswith(p)]: only a string has the method. *)
Definition startswith (v : json) (p : string) : result bool :=
  match v with
  | JStr s => Ok (String.prefix p s)
  | _ => Raise AttributeError
  end.

(** [removeprefix] of the processor (a static method). *)
Definition removeprefix (v : json) (p : string) : result string :=
  let* b := startswith v p in
  match v with
  | JStr s => Ok (if b then String.substring (String.length p) (String.length s - String.length p) s else s)
  | _ => Raise AttributeError
  end.

(** *** [str(v)], as an f-string applies it *)
Definition py_str (v : json) : result string :=
  match v with
  | JStr s => Ok s
  | JNull => Ok "None"
  | JBool b => Ok (if b then "True" else "False")
  | JInt n => Ok (pretty n)
  | JFloat _ | JList _ | JObj _ => Unmodelled
  end.

(** *** [int(v)] *)

(** The whitespace [int] strips from an ASCII string: tab to carriage
    return, and the space. *)
Definition is_space (c : ascii) : bool :=
  let n := nat_of_ascii c in
  ((9 <=? n) && (n <=? 13) || (n =? 32))%nat.

Definition digit_of (c : ascii) : option Z :=
  let n := nat_of_ascii c in
  if ((48 <=? n) && (n <=? 57))%nat then Some (Z.of_nat (n - 48)) else None.

Fixpoint lstrip (s : string) : string :=
  match s with
  | String c s' => if is_space c then lstrip s' else s
  | EmptyString => EmptyString
  end.

(** The digits of a decimal literal after the first one: single
    underscores are allowed between digits, whitespace only at the end. *)
Fixpoint more_digits (acc : Z) (s : string) : option Z :=
  match s with
  | EmptyString => Some acc
  | String c s' =>
      match digit_of c with
      | Some d => more_digits (10 * acc + d) s'
      | None =>
          if Ascii.eqb c "_" then
            match s' with
            | String c' s'' =>
                match digit_of c' with
                | Some d => more_digits (10 * acc + d) s''
                | None => None
                end
            | EmptyString => None
            end
          else if is_space c then
            match lstrip s' with EmptyString => Some acc | _ => None end
          else None
      end
  end.

Definition unsigned_literal (s : string) : option Z :=
  match s with
  | String c s' => match digit_of c with Some d => more_digits d s' | None => None end
  | EmptyString => None
  end.

Fixpoint all_ascii (s : string) : bool :=
  match s with
  | EmptyString => true
  | String c s' => (nat_of_ascii c <? 128)%nat && all_ascii s'
  end.

(** [int(s)] in base 10 for a string of ASCII characters. *)
Definition int_of_string (s : string) : option Z :=
  match lstrip s with
  | String "-" s' => option_map Z.opp (unsigned_literal s')
  | String "+" s' => unsigned_literal s'
  | s' => unsigned_literal s'
  end.

(** [int(f)] truncates towards zero. *)
Definition int_of_float (f : spec_float) : result Z :=
  match f with
  | S754_zero _ => Ok 0
  | S754_infinity _ => Raise OverflowError
  | S754_nan => Raise (ValueError "int")
  | S754_finite s m e =>
      let a := if 0 <=? e then Z.pos m * 2 ^ e else Z.pos m / 2 ^ (- e) in
      Ok (if s then - a else a)
  end.

(** [int(v)].  For a string the embedding covers ASCII text of at most
    4300 characters: outside ASCII Python knows further decimal digits
    and spaces, and a longer literal may run into the interpreter's limit
    on the digits of a conversion. *)
Definition py_int (v : json) : result Z :=
  match v with
  | JInt n => Ok n
  | JBool b => Ok (if b then 1 else 0)
  | JFloat f => int_of_float f
  | JStr s =>
      if all_ascii s && (String.length s <=? 4300)%nat then
        match int_of_string s with Some n => Ok n | None => Raise (ValueError "int") end
      else Unmodelled
  | JNull | JList _ | JObj _ => Raise TypeError
  end.


(** ** Helpers of [openlineage.common.utils] *)

(** Modelled from the spec: [get_from_nullable_chain] lives in
    [openlineage/common/utils.py], which is not among the sources.  The
    spec describes it as an optional-path lookup "returning an absent
    value rather than failing, composed left-to-right over a fixed key
    sequence": each key is looked up in the current value, and a value
    that is not a dict, or a key that is missing, gives [None]. *)
Fixpoint get_from_nullable_chain (source : json) (chain : list json) : json :=
  match chain with
  | [] => source
  | k :: chain' =>
      match source, k with
      | JObj d, JStr s =>
          match dict_get s d with
          | Some v => get_from_nullable_chain v chain'
          | None => JNull
          end
      | _, _ => JNull
      end
  end.

(** Modelled from the spec: [get_from_multiple_chains], from the same
    absent module.  The spec has the alternate key paths "tried in fixed
    priority order": the first chain whose lookup gives a value that
    counts as true is the result, and [None] is the result when none
    does.  The processor tests the result for truth again, so a variant
    that stops at the first value that is not [None] would give it the
    same counts whenever only one of the two layouts is present. *)
Fixpoint get_from_multiple_chains (source : json) (chains : list (list json)) : json :=
  match chains with
  | [] => JNull
  | chain :: chains' =>
      let r := get_from_nullable_chain source chain in
      if truthy r then r else get_from_multiple_chains source chains'
  end.

(** ** The OpenLineage client's data classes *)

(** [RunState], [Run], [Job], [Dataset], [OutputDataset], [RunEvent] and
    the facets are plain attribute classes of [openlineage.client]; the
    processor only constructs them.  A facet map is a Python dict from
    facet name to facet. *)

Inductive RunState : Type := START | COMPLETE | FAIL.

Record SchemaField : Type := mkSchemaField {
  field_name : json;
  field_type : json;
  field_description : json
}.

Record Assertion : Type := mkAssertion {
  assertion : json;
  success : bool;
  column : json
}.

Inductive facet : Type :=
| DataSourceDatasetFacet (name uri : string)
| SchemaDatasetFacet (fields : list SchemaField)
| SqlJobFacet (query : json)
| OutputStatisticsOutputDatasetFacet (rowCount : Z) (size : json)
| DataQualityAssertionsDatasetFacet (assertions : list Assertion).

(** [str(uuid.uuid4())]: the [n]-th identifier the generator hands out
    during a parse.  Two draws differ. *)
Inductive run_id : Type := Uuid4 (n : nat).

(** An event time: a value copied from the run results, or the [n]-th
    reading of the wall clock ([datetime.now(...).isoformat()]). *)
Inductive timestamp : Type :=
| FromArtifact (v : json)
| WallClock (n : nat).

Record Job : Type := mkJob {
  job_namespace_of : string;
  job_name_of : string;
  job_facets : gmap string facet
}.

Record Dataset : Type := mkDataset {
  ds_namespace : string;
  ds_name : string;
  ds_facets : gmap string facet
}.

Record OutputDataset : Type := mkOutputDataset {
  out_namespace : string;
  out_name : string;
  out_facets : gmap string facet;
  out_outputFacets : gmap string facet
}.

Record RunEvent : Type := mkRunEvent {
  eventType : RunState;
  eventTime : timestamp;
  runId : run_id;
  job : Job;
  event_producer : string;
  inputs : list Dataset;
  outputs : list OutputDataset
}.

(** ** The processor's own data classes *)

Record ModelNode : Type := mkModelNode {
  metadata_node : json;
  catalog_node : json   (* [None] is [JNull] *)
}.

Record DbtRun : Type := mkDbtRun {
  started_at : timestamp;
  completed_at : timestamp;
  status : json;
  run_inputs : list ModelNode;
  output : option ModelNode;
  job_name : string;
  namespace : string;
  run_run_id : run_id
}.

Record DbtEvents : Type := mkDbtEvents {
  starts : list RunEvent;
  completes : list RunEvent;
  fails : list RunEvent
}.

Definition events (e : DbtEvents) : list RunEvent :=
  starts e ++ completes e ++ fails e.

Record DbtRunResult : Type := mkDbtRunResult {
  start : RunEvent;
  complete : option RunEvent;
  fail : option RunEvent
}.

(** The attributes of a [DbtArtifactProcessor] the translation reads. *)
Record Processor : Type := mkProcessor {
  producer : string;
  job_namespace : string;
  dataset_namespace : string;
  skip_errors : bool
}.

(** [__init__]: both namespaces start empty; [skip_errors] is a keyword
    argument with default [False]. *)
Definition __init__ (producer : string) (skip_errors : option bool) : Processor :=
  mkProcessor producer "" "" (default false skip_errors).

(** The two sources of fresh values a parse draws from. *)
Record world : Type := mkWorld {
  clock_reads : nat;
  uuids_drawn : nat
}.

Definition now (w : world) : timestamp * world :=
  (WallClock (clock_reads w), mkWorld (S (clock_reads w)) (uuids_drawn w)).

Definition uuid4 (w : world) : run_id * world :=
  (Uuid4 (uuids_drawn w), mkWorld (clock_reads w) (S (uuids_drawn w))).

(** ** Schema fields *)

Section Translation.

Variable self : Processor.

(** [extract_metadata_fields]: the declared columns of a manifest node. *)
Definition metadata_field (field : json) : result SchemaField :=
  let* present := py_in "data_type" field in
  let* type :=
    (if present then
       let* t := getitem field "data_type" in
       Ok (if negb (is_none t) then t else JNull)
     else Ok JNull) in
  let* name := getitem field "name" in
  Ok (mkSchemaField name type JNull).

Definition extract_metadata_fields (columns : list json) : result (list SchemaField) :=
  traverse metadata_field columns.

(** [extract_catalog_fields]: the observed columns of a catalog node;
    the description is read under the key ['column']. *)
Definition catalog_field (field : json) : result SchemaField :=
  let* has_type := py_in "type" field in
  let* type :=
    (if has_type then
       let* t := getitem field "type" in
       Ok (if negb (is_none t) then t else JNull)
     else Ok JNull) in
  let* has_column := py_in "column" field in
  let* description :=
    (if has_column then
       let* c := getitem field "column" in
       Ok (if negb (is_none c) then c else JNull)
     else Ok JNull) in
  let* name := getitem field "name" in
  Ok (mkSchemaField name type description).

Definition extract_catalog_fields (columns : list json) : result (list SchemaField) :=
  traverse catalog_field columns.

(** ** Datasets *)

(** [f"{a}.{b}.{c}"] *)
Definition dotted (a b c : string) : string :=
  (a ++ "." ++ b ++ "." ++ c)%string.

Definition extract_dataset_data (node : ModelNode) (has_facets : bool)
  : result (string * string * gmap string facet) :=
  let* facets :=
    (if has_facets then
       let* columns := getitem (metadata_node node) "columns" in
       let* values := py_values columns in
       let* fields := extract_metadata_fields values in
       let facets : gmap string facet :=
         <["schema" := SchemaDatasetFacet fields]>
           (<["dataSource" := DataSourceDatasetFacet (dataset_namespace self) (dataset_namespace self)]> ∅) in
       if truthy (catalog_node node) then
         let* columns := getitem (catalog_node node) "columns" in
         let* values := py_values columns in
         let* fields := extract_catalog_fields values in
         Ok (<["schema" := SchemaDatasetFacet fields]> facets)
       else Ok facets
     else Ok ∅) in
  let* database := getitem (metadata_node node) "database" in
  let* database := py_str database in
  let* schema := getitem (metadata_node node) "schema" in
  let* schema := py_str schema in
  let* name := getitem (metadata_node node) "name" in
  let* name := py_str name in
  Ok (dataset_namespace self, dotted database schema name, facets).

Definition node_to_dataset (node : ModelNode) (has_facets : bool) : result Dataset :=
  let* (namespace, name, facets) := extract_dataset_data node has_facets in
  Ok (mkDataset namespace name facets).

Definition bytes_chains : list (list json) :=
  [ [JStr "stats"; JStr "num_bytes"; JStr "value"];    (* bigquery *)
    [JStr "stats"; JStr "bytes"; JStr "value"] ].      (* snowflake *)

Definition rows_chains : list (list json) :=
  [ [JStr "stats"; JStr "num_rows"; JStr "value"];     (* bigquery *)
    [JStr "stats"; JStr "row_count"; JStr "value"] ].  (* snowflake *)

(** [if v: v = int(v)]: a count that is not true stays as it is. *)
Definition coerce_count (v : json) : result json :=
  if truthy v then let* n := py_int v in Ok (JInt n) else Ok v.

(** The source binds the triple of [extract_dataset_data] to the names
    [name, namespace, facets] and passes them on in that order, so the
    namespace still comes first in the dataset. *)
Definition node_to_output_dataset (node : ModelNode) (has_facets : bool) : result OutputDataset :=
  let* (name, namespace, facets) := extract_dataset_data node has_facets in
  let* output_facets :=
    (if has_facets && truthy (catalog_node node) then
       let bytes := get_from_multiple_chains (catalog_node node) bytes_chains in
       let rows := get_from_multiple_chains (catalog_node node) rows_chains in
       let* bytes := coerce_count bytes in
       if truthy rows then
         let* rows := py_int rows in
         Ok (<["outputStatistics" := OutputStatisticsOutputDatasetFacet rows bytes]> (∅ : gmap string facet))
       else Ok ∅
     else Ok ∅) in
  Ok (mkOutputDataset name namespace facets output_facets).

(** ** The event builder *)

(** [o.attr] on an optional node: [None] has no attributes. *)
Definition deref (o : option ModelNode) : result ModelNode :=
  match o with
  | Some node => Ok node
  | None => Raise AttributeError
  end.

Definition _to_openlineage_events (run : DbtRun) : result (option DbtRunResult) :=
  if eq_str (status run) "skipped" then Ok None
  else
    let* start_inputs := traverse (fun node => node_to_dataset node false) (run_inputs run) in
    let* start_outputs :=
      match output run with
      | Some out => let* o := node_to_output_dataset out false in Ok [o]
      | None => Ok []
      end in
    let start :=
      mkRunEvent START (started_at run) (run_run_id run)
        (mkJob (job_namespace self) (job_name run) ∅)
        (producer self) start_inputs start_outputs in
    if eq_str (status run) "success" then
      let* out := deref (output run) in
      let* sql := getitem (metadata_node out) "compiled_sql" in
      let* complete_inputs := traverse (fun node => node_to_dataset node true) (run_inputs run) in
      let* out := deref (output run) in
      let* complete_output := node_to_output_dataset out true in
      Ok (Some (mkDbtRunResult start
        (Some (mkRunEvent COMPLETE (completed_at run) (run_run_id run)
                 (mkJob (job_namespace self) (job_name run) {["sql" := SqlJobFacet sql]})
                 (producer self) complete_inputs [complete_output]))
        None))
    else if eq_str (status run) "error" then
      let* out := deref (output run) in
      let* sql := getitem (metadata_node out) "compiled_sql" in
      let* fail_inputs := traverse (fun node => node_to_dataset node true) (run_inputs run) in
      Ok (Some (mkDbtRunResult start None
        (Some (mkRunEvent FAIL (completed_at run) (run_run_id run)
                 (mkJob (job_namespace self) (job_name run) {["sql" := SqlJobFacet sql]})
                 (producer self) fail_inputs []))))
    else Raise (ValueError "run status").

(** [try: ... except Exception as e]: with [skip_errors] the run is
    given up, otherwise the exception is wrapped in a [ValueError]. *)
Definition to_openlineage_events (run : DbtRun) : result (option DbtRunResult) :=
  match _to_openlineage_events run with
  | Ok r => Ok r
  | Raise e => if skip_errors self then Ok None else Raise (ValueErrorOf e)
  | Unmodelled => Unmodelled
  end.

(** ** Run assembly *)

(** [list(filter(pred, xs))]: the predicate is applied to every element. *)
Fixpoint filter_list {A : Type} (pred : A -> result bool) (xs : list A) : result (list A) :=
  match xs with
  | [] => Ok []
  | x :: xs' =>
      let* keep := pred x in
      let* rest := filter_list pred xs' in
      Ok (if keep then x :: rest else rest)
  end.

(** [get_timings]: the entry named ['execute'], or the wall clock when
    there is none (the only [IndexError] the [try] can see is the one of
    [[0]] on an empty list). *)
Definition get_timings (timings : json) (w : world) : result (timestamp * timestamp * world) :=
  let* entries := py_iter timings in
  let* executes :=
    filter_list (fun x => let* n := getitem x "name" in Ok (eq_str n "execute")) entries in
  match executes with
  | timing :: _ =>
      let* s := getitem timing "started_at" in
      let* c := getitem timing "completed_at" in
      Ok (FromArtifact s, FromArtifact c, w)
  | [] =>
      let (timing, w') := now w in
      Ok (timing, timing, w')
  end.

(** One turn of the loop that collects the inputs of a run. *)
Definition add_input (manifest catalog : json) (nodes : list (string * json))
    (inputs : list ModelNode) (node : json) : result (list ModelNode) :=
  let* is_model := startswith node "model." in
  if is_model then
    let* meta := subscript (JObj nodes) node in
    Ok (inputs ++ [mkModelNode meta (get_from_nullable_chain catalog [JStr "nodes"; node])])
  else
    let* is_source := startswith node "source." in
    if is_source then
      let* sources := getitem manifest "sources" in
      let* meta := subscript sources node in
      Ok (inputs ++ [mkModelNode meta (get_from_nullable_chain catalog [JStr "sources"; node])])
    else Ok inputs.

(** The body of the first loop of [parse_run]: one [DbtRun] per
    execution record. *)
Definition assemble_run (manifest catalog : json) (nodes : list (string * json))
    (run : json) (w : world) : result (DbtRun * world) :=
  let* timing := getitem run "timing" in
  let* (started_at, completed_at, w) := get_timings timing w in
  let* parent_map := getitem manifest "parent_map" in
  let* unique_id := getitem run "unique_id" in
  let* parents := subscript parent_map unique_id in
  let* parents := py_iter parents in
  let* inputs := for_each (add_input manifest catalog nodes) [] parents in
  let* output_node := subscript (JObj nodes) unique_id in
  let* status := getitem run "status" in
  let output := mkModelNode output_node (get_from_nullable_chain catalog [JStr "nodes"; unique_id]) in
  let* database := getitem output_node "database" in
  let* database := py_str database in
  let* schema := getitem output_node "schema" in
  let* schema := py_str schema in
  let* local_name := removeprefix unique_id "model." in
  let (run_id, w) := uuid4 w in
  Ok (mkDbtRun started_at completed_at status inputs (Some output)
        (dotted database schema local_name) (dataset_namespace self) run_id, w).

Definition assemble_runs (manifest catalog : json) (nodes : list (string * json))
    (records : list json) (w : world) : result (list DbtRun * world) :=
  for_each (fun '(runs, w) run =>
              let* (r, w) := assemble_run manifest catalog nodes run w in
              Ok (runs ++ [r], w))
           ([], w) records.

(** One turn of the second loop of [parse_run]. *)
Definition collect (acc : DbtEvents) (run : DbtRun) : result DbtEvents :=
  let* results := to_openlineage_events run in
  match results with
  | None => Ok acc
  | Some results =>
      let start_events := starts acc ++ [start results] in
      match complete results, fail results with
      | Some c, _ => Ok (mkDbtEvents start_events (completes acc ++ [c]) (fails acc))
      | None, Some f => Ok (mkDbtEvents start_events (completes acc) (fails acc ++ [f]))
      | None, None => Ok (mkDbtEvents start_events (completes acc) (fails acc))
      end
  end.

Definition parse_run (manifest run_results catalog : json) (nodes : list (string * json))
    (w : world) : result (DbtEvents * world) :=
  let* records := getitem run_results "results" in
  let* records := py_iter records in
  let* (runs, w) := assemble_runs manifest catalog nodes records w in
  let* events := for_each collect (mkDbtEvents [] [] []) runs in
  Ok (events, w).

(** ** Test aggregation *)

(** One turn of the loop over the parents of a test: a parent whose id
    has one of the two prefixes becomes the [model_node]. *)
Definition note_parent (model_node : option string) (node : json) : result (option string) :=
  let* is_model := startswith node "model." in
  let* hit := (if is_model then Ok true else startswith node "source.") in
  match node with
  | JStr s => Ok (if hit then Some s else model_node)
  | _ => Raise AttributeError
  end.

(** [assertions[k]] of the [defaultdict(list)]. *)
Definition grouped (assertions : gmap (option string) (list Assertion)) (k : option string)
  : list Assertion :=
  default [] (assertions !! k).

(** The body of the first loop of [parse_test].  The assertion is stored
    before the check for a missing parent, under [None] in that case.  A
    parent id that matched a prefix is not the empty string, so
    [not model_node] is the test for [None]. *)
Definition record_test (manifest : json) (nodes : list (string * json))
    (assertions : gmap (option string) (list Assertion)) (run : json)
  : result (gmap (option string) (list Assertion)) :=
  let* unique_id := getitem run "unique_id" in
  let* test_node := subscript (JObj nodes) unique_id in
  let* parent_map := getitem manifest "parent_map" in
  let* parents := subscript parent_map unique_id in
  let* parents := py_iter parents in
  let* model_node := for_each note_parent None parents in
  let* test_metadata := getitem test_node "test_metadata" in
  let* name := getitem test_metadata "name" in
  let* status := getitem run "status" in
  let a := mkAssertion name (if eq_str status "pass" then true else false)
             (get_from_nullable_chain test_metadata [JStr "kwargs"; JStr "column_name"]) in
  let assertions := <[model_node := grouped assertions model_node ++ [a]]> assertions in
  match model_node with
  | None => Raise (ValueError "model node not found")
  | Some _ => Ok assertions
  end.

(** The body of the second loop of [parse_test], over the items of
    [manifest['nodes']].  (Reading a missing key of the [defaultdict]
    stores an empty list under it, which no later read tells apart from
    a missing key.) *)
Definition test_events (started_at completed_at : timestamp)
    (assertions : gmap (option string) (list Assertion))
    (acc : list RunEvent * list RunEvent * world) (item : string * json)
  : result (list RunEvent * list RunEvent * world) :=
  let '(starts, completes, w) := acc in
  let (name, node) := item in
  if negb (String.prefix "model." name) && negb (String.prefix "source." name) then Ok acc
  else if (length (grouped assertions (Some name)) =? 0)%nat then Ok acc
  else
    let assertion_facet := DataQualityAssertionsDatasetFacet (grouped assertions (Some name)) in
    let* (namespace, name, _) := extract_dataset_data (mkModelNode node JNull) false in
    let* database := getitem node "database" in
    let* database := py_str database in
    let* schema := getitem node "schema" in
    let* schema := py_str schema in
    let* unique_id := getitem node "unique_id" in
    let* local_name := removeprefix unique_id "test." in
    let job_name := dotted database schema local_name in
    let (run_id, w) := uuid4 w in
    Ok (starts ++ [mkRunEvent START started_at run_id
                     (mkJob (job_namespace self) job_name ∅) (producer self)
                     [mkDataset namespace name ∅] []],
        completes ++ [mkRunEvent COMPLETE completed_at run_id
                        (mkJob (job_namespace self) job_name ∅) (producer self)
                        [mkDataset namespace name {["dataQualityAssertions" := assertion_facet]}] []],
        w).

Definition parse_test (manifest run_results catalog : json) (nodes : list (string * json))
    (w : world) : result (DbtEvents * world) :=
  let (started_at, w) := now w in
  let (completed_at, w) := now w in
  let* records := getitem run_results "results" in
  let* records := py_iter records in
  let* assertions := for_each (record_test manifest nodes) ∅ records in
  let* manifest_nodes := getitem manifest "nodes" in
  let* items := py_items manifest_nodes in
  let* (starts, completes, w) :=
    for_each (test_events started_at completed_at assertions) ([], [], w) items in
  Ok (mkDbtEvents starts completes [], w).

(** ** Namespaces *)

(** [extract_namespace]: the namespace a profile stands for. *)
Definition extract_namespace (profile : json) : result string :=
  let* type := getitem profile "type" in
  if eq_str type "snowflake" then
    let* account := getitem profile "account" in
    let* account := py_str account in
    Ok ("snowflake://" ++ account)%string
  else if eq_str type "bigquery" then Ok "bigquery"
  else Raise NotImplementedError.

Definition extract_dataset_namespace (profile : json) : result Processor :=
  let* ns := extract_namespace profile in
  Ok (mkProcessor (producer self) (job_namespace self) ns (skip_errors self)).

(** [os.environ.get('OPENLINEAGE_NAMESPACE', self.extract_namespace(profile))]:
    the default is an argument of the call, so the profile is resolved
    whether or not the variable is set. *)
Definition extract_job_namespace (environ : gmap string string) (profile : json)
  : result Processor :=
  let* fallback := extract_namespace profile in
  Ok (mkProcessor (producer self)
        (default fallback (environ !! "OPENLINEAGE_NAMESPACE"))
        (dataset_namespace self) (skip_errors self)).

End Translation.


(** * Statements and scenarios *)

(** ** Vocabulary of the specification *)

(** An id with the prefix of a transformation node or of an external
    source. *)
Definition is_dataset_id (s : string) : bool :=
  String.prefix "model." s || String.prefix "source." s.

(** The specification's reading of the validated parent of a test: the
    first parent id with one of the two prefixes. *)
Definition first_parent (ids : list string) : option string :=
  head (List.filter is_dataset_id ids).

(** The last such parent id. *)
Definition last_parent (ids : list string) : option string :=
  last (List.filter is_dataset_id ids).

(** The parents the graph lists for an execution record, as the loops
    of [parse_run] and [parse_test] walk them:
    [manifest['parent_map'][run['unique_id']]]. *)
Definition parents_of (manifest run : json) : result (list json) :=
  let* unique_id := getitem run "unique_id" in
  let* parent_map := getitem manifest "parent_map" in
  let* parents := subscript parent_map unique_id in
  py_iter parents.

(** ** Scenarios *)

Definition acme : Processor :=
  mkProcessor "https://github.com/OpenLineage" "analytics" "snowflake://acme" false.

Definition w0 : world := mkWorld 0 0.

Definition a_column (name type_key type : string) : string * json :=
  (name, JObj [("name", JStr name); (type_key, JStr type)]).

Definition model_metadata (unique_id name : string) : json :=
  JObj [("unique_id", JStr unique_id); ("database", JStr "db"); ("schema", JStr "public");
        ("name", JStr name); ("columns", JObj [a_column "id" "data_type" "int"]);
        ("compiled_sql", JStr "select id from raw")].

Definition customers_metadata : json := model_metadata "model.proj.customers" "customers".

(** A snowflake catalog entry that carries a row count and no byte
    count. *)
Definition rows_only_catalog : json :=
  JObj [("columns", JObj [a_column "id" "type" "NUMBER"]);
        ("stats", JObj [("row_count", JObj [("value", JInt 5)])])].

Definition rows_only_node : ModelNode := mkModelNode customers_metadata rows_only_catalog.

Definition test_node (unique_id name column_name : string) : json :=
  JObj [("unique_id", JStr unique_id);
        ("test_metadata",
         JObj [("name", JStr name); ("kwargs", JObj [("column_name", JStr column_name)])])].

Definition test_record (unique_id status : string) : json :=
  JObj [("unique_id", JStr unique_id); ("status", JStr status); ("timing", JList [])].

Definition test_results (records : list json) : json :=
  JObj [("args", JObj [("which", JStr "test")]); ("results", JList records)].

(** A relationships test between two models: both are its parents. *)
Definition relationships_nodes : list (string * json) :=
  [("model.proj.a", model_metadata "model.proj.a" "a");
   ("model.proj.b", model_metadata "model.proj.b" "b");
   ("test.proj.rel", test_node "test.proj.rel" "relationships" "a_id")].

Definition relationships_manifest : json :=
  JObj [("nodes", JObj relationships_nodes);
        ("sources", JObj []);
        ("parent_map",
         JObj [("test.proj.rel", JList [JStr "model.proj.a"; JStr "model.proj.b"])])].

Definition relationships_results : json := test_results [test_record "test.proj.rel" "pass"].

(** A test on a seed: its only parent has neither prefix. *)
Definition seed_test_nodes : list (string * json) :=
  [("test.proj.seeded", test_node "test.proj.seeded" "not_null" "id")].

Definition seed_test_manifest : json :=
  JObj [("nodes", JObj seed_test_nodes);
        ("sources", JObj []);
        ("parent_map", JObj [("test.proj.seeded", JList [JStr "seed.proj.countries"])])].

Definition seed_test_record : json := test_record "test.proj.seeded" "pass".

Definition seed_test_results : json := test_results [seed_test_record].

(** Two tests of one model, one passing and one failing. *)
Definition customers_tests_nodes : list (string * json) :=
  [("model.proj.customers", customers_metadata);
   ("test.proj.not_null_customers_id", test_node "test.proj.not_null_customers_id" "not_null" "id");
   ("test.proj.unique_customers_id", test_node "test.proj.unique_customers_id" "unique" "id")].

Definition customers_tests_manifest : json :=
  JObj [("nodes", JObj customers_tests_nodes);
        ("sources", JObj []);
        ("parent_map",
         JObj [("test.proj.not_null_customers_id", JList [JStr "model.proj.customers"]);
               ("test.proj.unique_customers_id", JList [JStr "model.proj.customers"])])].

Definition customers_tests_results : json :=
  test_results [test_record "test.proj.not_null_customers_id" "pass";
                test_record "test.proj.unique_customers_id" "fail"].

(** A test of an external source.  The source is described in the
    manifest's table of sources, where [parse_run] looks sources up. *)
Definition orders_source : json :=
  JObj [("unique_id", JStr "source.proj.raw.orders"); ("database", JStr "db");
        ("schema", JStr "raw"); ("name", JStr "orders");
        ("columns", JObj [a_column "id" "data_type" "int"])].

Definition source_test_nodes : list (string * json) :=
  [("test.proj.source_not_null_raw_orders_id",
    test_node "test.proj.source_not_null_raw_orders_id" "not_null" "id")].

Definition source_test_manifest : json :=
  JObj [("nodes", JObj source_test_nodes);
        ("sources", JObj [("source.proj.raw.orders", orders_source)]);
        ("parent_map",
         JObj [("test.proj.source_not_null_raw_orders_id", JList [JStr "source.proj.raw.orders"])])].

Definition source_test_results : json :=
  test_results [test_record "test.proj.source_not_null_raw_orders_id" "pass"].

(** ** Facet richness *)

(** An event without facets: none on the job, none on any dataset. *)
Definition facet_free (e : RunEvent) : Prop :=
  job_facets (job e) = ∅ /\
  Forall (fun d => ds_facets d = ∅) (inputs e) /\
  Forall (fun o => out_facets o = ∅ /\ out_outputFacets o = ∅) (outputs e).

(** A facet map with the data-source facet of a namespace and a schema
    facet. *)
Definition described (namespace : string) (facets : gmap string facet) : Prop :=
  facets !! "dataSource" = Some (DataSourceDatasetFacet namespace namespace) /\
  exists fields, facets !! "schema" = Some (SchemaDatasetFacet fields).

(** An event with the SQL text on its job and full facets on each of
    its input datasets. *)
Definition full_facets (namespace : string) (sql : json) (e : RunEvent) : Prop :=
  job_facets (job e) !! "sql" = Some (SqlJobFacet sql) /\
  Forall (fun d => described namespace (ds_facets d)) (inputs e).

(** ** Node data that exists *)

(** A node document that names its table: [database], [schema] and
    [name] are there and are strings (or other values whose text the
    embedding gives). *)
Definition has_text (m : json) (k : string) : bool :=
  match getitem m k with
  | Ok v => match py_str v with Ok _ => true | _ => false end
  | _ => false
  end.

Definition identified (m : json) : bool :=
  has_text m "database" && has_text m "schema" && has_text m "name".

(** A document whose [columns] is a dict of column dicts, each with a
    [name]. *)
Definition named_column (field : json) : bool :=
  match field with
  | JObj d => match dict_get "name" d with Some _ => true | None => false end
  | _ => false
  end.

Definition has_columns (m : json) : bool :=
  match getitem m "columns" with
  | Ok (JObj columns) => forallb named_column (map snd columns)
  | _ => false
  end.

(** A node whose full facets can be built: the manifest entry names
    the table and lists its columns, and so does the catalog entry when
    there is one. *)
Definition node_described (node : ModelNode) : bool :=
  identified (metadata_node node) && has_columns (metadata_node node) &&
  (negb (truthy (catalog_node node)) || has_columns (catalog_node node)).

(** A run that failed with its data in place: described inputs, and an
    output node that names its table and has its compiled SQL. *)
Definition error_run_data (run : DbtRun) : bool :=
  forallb node_described (run_inputs run) &&
  match output run with
  | Some out =>
      identified (metadata_node out) &&
      match getitem (metadata_node out) "compiled_sql" with Ok _ => true | _ => false end
  | None => false
  end.

Definition with_status (run : DbtRun) (s : string) : DbtRun :=
  mkDbtRun (started_at run) (completed_at run) (JStr s) (run_inputs run) (output run)
    (job_name run) (namespace run) (run_run_id run).

(** ** Runs *)

(** The run of the model [customers], which reads the source [orders],
    with a given status. *)
Definition customers_run (status : json) (output : option ModelNode) : DbtRun :=
  mkDbtRun (FromArtifact (JStr "2021-01-01T00:00:00Z")) (FromArtifact (JStr "2021-01-01T00:01:00Z"))
    status [mkModelNode orders_source JNull] output
    "db.public.customers" "snowflake://acme" (Uuid4 0).

(** The documents of a run of [customers], which reads the source
    [orders]: no catalog, one timing entry named [execute]. *)
Definition customers_manifest : json :=
  JObj [("nodes", JObj [("model.proj.customers", customers_metadata)]);
        ("sources", JObj [("source.proj.raw.orders", orders_source)]);
        ("parent_map", JObj [("model.proj.customers", JList [JStr "source.proj.raw.orders"])])].

Definition customers_results (status : string) : json :=
  JObj [("args", JObj [("which", JStr "run")]);
        ("results",
         JList [JObj [("unique_id", JStr "model.proj.customers"); ("status", JStr status);
                      ("timing",
                       JList [JObj [("name", JStr "compile");
                                    ("started_at", JStr "2021-01-01T00:00:00Z");
                                    ("completed_at", JStr "2021-01-01T00:00:01Z")];
                              JObj [("name", JStr "execute");
                                    ("started_at", JStr "2021-01-01T00:00:01Z");
                                    ("completed_at", JStr "2021-01-01T00:01:00Z")]])]])].

(** ** Profiles *)

Definition snowflake_profile : json :=
  JObj [("type", JStr "snowflake"); ("account", JStr "acme.eu-west-1"); ("user", JStr "dbt")].

Definition bigquery_profile : json :=
  JObj [("type", JStr "bigquery"); ("project", JStr "acme-warehouse")].

Definition mysql_profile : json := JObj [("type", JStr "mysql"); ("host", JStr "localhost")].

(** * Loading the documents and dispatching *)

(** ** Files *)

(** A file system, as far as the processor sees it: the document a
    file holds, for the path of a file that exists.  The text of a file
    and its decoding by [json.load] or [yaml.load] are not modelled: a
    file that exists holds a document. *)
Definition files : Type := string -> option json.

(** The outcome of an operation that opens a file: what the rest of the
    operation gives, or [FileNotFoundError] when there is no file at the
    path. *)
Inductive opened (A : Type) : Type :=
| Read (r : result A)
| FileNotFoundError.

Arguments Read {A} r.
Arguments FileNotFoundError {A}.

Definition bind_opened {A B : Type} (c : opened A) (k : A -> opened B) : opened B :=
  match c with
  | Read (Ok a) => k a
  | Read (Raise e) => Read (Raise e)
  | Read Unmodelled => Read Unmodelled
  | FileNotFoundError => FileNotFoundError
  end.

Notation "'let+' x ':=' c 'in' k" := (bind_opened c (fun x => k))
  (at level 10, x pattern, c at level 100, k at level 200).

Fixpoint ends_with_slash (s : string) : bool :=
  match s with
  | EmptyString => false
  | String c EmptyString => Ascii.eqb c "/"
  | String _ s' => ends_with_slash s'
  end.

(** [os.path.join(a, b)] on a POSIX system: an absolute [b] replaces
    [a]; otherwise [b] is appended, after a separator unless [a] is
    empty or ends with one.  With three arguments the same step is taken
    twice. *)
Definition path_join (a b : string) : string :=
  if String.prefix "/" b then b
  else if String.eqb a "" || ends_with_slash a then (a ++ b)%string
  else (a ++ "/" ++ b)%string.

(** A component of a path has to be a string. *)
Definition as_path (v : json) : result string :=
  match v with
  | JStr s => Ok s
  | _ => Raise TypeError
  end.

(** [load_metadata]: the document of the file, if it declares the
    desired schema version. *)
Definition load_metadata (fs : files) (path : string) (desired_schema_version : string)
  : opened json :=
  match fs path with
  | None => FileNotFoundError
  | Some metadata =>
      let schema_version :=
        get_from_nullable_chain metadata [JStr "metadata"; JStr "dbt_schema_version"] in
      if negb (eq_str schema_version desired_schema_version)
      then Read (Raise (ValueError "wrong version of dbt metadata"))
      else Read (Ok metadata)
  end.

Definition load_manifest (fs : files) (path : string) : opened json :=
  load_metadata fs path "https://schemas.getdbt.com/dbt/manifest/v2.json".

Definition load_run_results (fs : files) (path : string) : opened json :=
  load_metadata fs path "https://schemas.getdbt.com/dbt/run-results/v2.json".

(** [load_catalog]: a catalog that is not there is [None]. *)
Definition load_catalog (fs : files) (path : string) : opened json :=
  match load_metadata fs path "https://schemas.getdbt.com/dbt/catalog/v1.json" with
  | FileNotFoundError => Read (Ok JNull)
  | r => r
  end.

Definition load_yaml (fs : files) (path : string) : opened json :=
  match fs path with
  | None => FileNotFoundError
  | Some document => Read (Ok document)
  end.

(** ** The entry point *)

(** The attributes of the processor that [parse] reads besides those of
    [Processor]: the absolute project directory, the document of
    [dbt_project.yml], and the profile name and target given to the
    constructor ([None] when they were left out). *)
Record Project : Type := mkProject {
  dir : string;
  project : json;
  profile_name : json;
  target : json
}.

(** The nodes [parse] keeps: models and tests. *)
Definition is_model_or_test (item : string * json) : bool :=
  String.prefix "model." (fst item) || String.prefix "test." (fst item).

(** [parse].  It leaves the resolved profile name, target and
    namespaces in the attributes of the processor, which are returned
    with the events. *)
Definition parse (self : Processor) (attrs : Project) (environ : gmap string string)
    (fs : files) (w : world) : opened (DbtEvents * Processor * Project * world) :=
  let+ target_path := Read (getitem (project attrs) "target-path") in
  let+ target_path := Read (as_path target_path) in
  let+ manifest := load_manifest fs (path_join (path_join (dir attrs) target_path) "manifest.json") in
  let+ run_result :=
    load_run_results fs (path_join (path_join (dir attrs) target_path) "run_results.json") in
  let+ catalog := load_catalog fs (path_join (path_join (dir attrs) target_path) "catalog.json") in
  let+ args := Read (getitem run_result "args") in
  let+ profile_dir := Read (getitem args "profiles_dir") in
  let+ profile_name :=
    Read (if negb (truthy (profile_name attrs)) then getitem (project attrs) "profile"
          else Ok (profile_name attrs)) in
  let+ profile_dir := Read (as_path profile_dir) in
  let+ profiles := load_yaml fs (path_join profile_dir "profiles.yml") in
  let+ profile := Read (subscript profiles profile_name) in
  let+ target :=
    Read (if negb (truthy (target attrs)) then getitem profile "target" else Ok (target attrs)) in
  let attrs := mkProject (dir attrs) (project attrs) profile_name target in
  let+ outputs := Read (getitem profile "outputs") in
  let+ profile := Read (subscript outputs target) in
  let+ self := Read (extract_dataset_namespace self profile) in
  let+ self := Read (extract_job_namespace self environ profile) in
  let+ manifest_nodes := Read (getitem manifest "nodes") in
  let+ items := Read (py_items manifest_nodes) in
  let nodes := List.filter is_model_or_test items in
  let+ which := Read (let* args := getitem run_result "args" in getitem args "which") in
  if eq_str which "run" then
    let+ (events, w) := Read (parse_run self manifest run_result catalog nodes w) in
    Read (Ok (events, self, attrs, w))
  else if eq_str which "test" then
    let+ (events, w) := Read (parse_test self manifest run_result catalog nodes w) in
    Read (Ok (events, self, attrs, w))
  else Read (Raise (ValueError "not recognized run command")).

(** ** Vocabulary for the further properties *)

(** Does the event builder give events for the run? *)
Definition translates (self : Processor) (run : DbtRun) : bool :=
  match _to_openlineage_events self run with
  | Ok (Some _) => true
  | _ => false
  end.

(** An event that carries the identity of the processor: its producer,
    its job namespace on the job, its dataset namespace on every
    dataset. *)
Definition stamped (self : Processor) (e : RunEvent) : Prop :=
  event_producer e = producer self /\
  job_namespace_of (job e) = job_namespace self /\
  Forall (fun d => ds_namespace d = dataset_namespace self) (inputs e) /\
  Forall (fun o => out_namespace o = dataset_namespace self) (outputs e).

(** The start and the complete event of one validated dataset of a test
    run, read at the clock readings [t] and [t + 1]. *)
Definition test_pair (t : nat) (s c : RunEvent) : Prop :=
  eventType s = START /\ eventType c = COMPLETE /\
  eventTime s = WallClock t /\ eventTime c = WallClock (S t) /\
  runId s = runId c /\ job s = job c /\ job_facets (job s) = ∅ /\
  outputs s = [] /\ outputs c = [] /\
  exists namespace name assertions,
    assertions <> [] /\
    inputs s = [mkDataset namespace name ∅] /\
    inputs c = [mkDataset namespace name
                  {["dataQualityAssertions" := DataQualityAssertionsDatasetFacet assertions]}].

(** ** A project on disk *)

(** A document with the schema version dbt writes into it. *)
Definition versioned (version : string) (document : list (string * json)) : json :=
  JObj (("metadata", JObj [("dbt_schema_version", JStr version)]) :: document).

Definition project_manifest : json :=
  versioned "https://schemas.getdbt.com/dbt/manifest/v2.json"
    [("nodes", JObj [("model.proj.customers", customers_metadata);
                     ("seed.proj.countries", model_metadata "seed.proj.countries" "countries")]);
     ("sources", JObj [("source.proj.raw.orders", orders_source)]);
     ("parent_map",
      JObj [("model.proj.customers",
             JList [JStr "source.proj.raw.orders"; JStr "seed.proj.countries"])])].

Definition project_run_results (which : string) : json :=
  versioned "https://schemas.getdbt.com/dbt/run-results/v2.json"
    [("args", JObj [("which", JStr which); ("profiles_dir", JStr "/home/dbt/.dbt")]);
     ("results",
      JList [JObj [("unique_id", JStr "model.proj.customers"); ("status", JStr "success");
                   ("timing", JList [])]])].

Definition project_profiles : json :=
  JObj [("acme",
         JObj [("target", JStr "dev");
               ("outputs", JObj [("dev", snowflake_profile); ("legacy", mysql_profile)])])].

(** The files of the project in [/proj]: a manifest, run results of
    [dbt run], no catalog, and the profiles in the home directory. *)
Definition project_files : files :=
  fun path =>
    if String.eqb path "/proj/target/manifest.json" then Some project_manifest
    else if String.eqb path "/proj/target/run_results.json" then Some (project_run_results "run")
    else if String.eqb path "/home/dbt/.dbt/profiles.yml" then Some project_profiles
    else None.

Definition project_attrs : Project :=
  mkProject "/proj"
    (JObj [("name", JStr "proj"); ("profile", JStr "acme"); ("target-path", JStr "target")])
    JNull JNull.

(** ** Successful runs with their data in place *)

Definition succeeds {A : Type} (r : result A) : bool :=
  match r with Ok _ => true | _ => false end.

(** The counts of a catalog entry can be coerced: the byte count, and
    the row count when there is one. *)
Definition counts_coercible (catalog : json) : bool :=
  succeeds (coerce_count (get_from_multiple_chains catalog bytes_chains)) &&
  (negb (truthy (get_from_multiple_chains catalog rows_chains)) ||
   succeeds (py_int (get_from_multiple_chains catalog rows_chains))).

(** A run that succeeded with its data in place: described inputs, and
    a described output node with its compiled SQL and, when it has a
    catalog entry, counts that can be coerced. *)
Definition success_run_data (run : DbtRun) : bool :=
  forallb node_described (run_inputs run) &&
  match output run with
  | Some out =>
      node_described out &&
      succeeds (getitem (metadata_node out) "compiled_sql") &&
      (negb (truthy (catalog_node out)) || counts_coercible (catalog_node out))
  | None => false
  end.
(** * Properties *)

(** ** The Python primitives on examples *)

Example int_of_string_examples :
  int_of_string "  -1_024 " = Some (-1024) /\ int_of_string "007" = Some 7 /\
  int_of_string "1__0" = None /\ int_of_string "12a" = None /\ int_of_string "" = None /\
  py_str (JInt (-12)) = Ok "-12".
Proof. repeat split; reflexivity. Qed.

(** The unit separator is not whitespace for [int], and text outside
    ASCII is left to Python. *)
Example py_int_examples :
  py_int (JStr (String (ascii_of_nat 31) "7")) = Raise (ValueError "int") /\
  py_int (JStr (String (ascii_of_nat 9) "7 ")) = Ok 7 /\
  py_int (JStr (String (ascii_of_nat 217) (String (ascii_of_nat 163) ""))) = Unmodelled /\
  py_int (JStr "12.5") = Raise (ValueError "int") /\ py_int (JBool true) = Ok 1.
Proof. repeat split; reflexivity. Qed.

(** ** Reasoning about [result] *)

Lemma bind_Ok {A B : Type} (c : result A) (k : A -> result B) (b : B) :
  bind c k = Ok b -> exists a, c = Ok a /\ k a = Ok b.
Proof. destruct c as [a | e |]; simpl; intros H; [eauto | discriminate..]. Qed.

Lemma bind_not_Ok {A B : Type} (c : result A) (k : A -> result B) :
  (forall a, c <> Ok a) -> forall b, bind c k <> Ok b.
Proof. intros Hc b H. apply bind_Ok in H as (a & Ha & _). exact (Hc a Ha). Qed.

(** Split a hypothesis [bind c k = Ok b] into its two steps. *)
Ltac bind_inv H :=
  let a := fresh "a" in
  let Ha := fresh "E" in
  apply bind_Ok in H as (a & Ha & H).

Lemma traverse_Ok {A B : Type} (f : A -> result B) (xs : list A) (ys : list B) :
  traverse f xs = Ok ys -> Forall2 (fun x y => f x = Ok y) xs ys.
Proof.
  revert ys. induction xs as [| x xs IH]; simpl; intros ys H.
  - injection H as <-. constructor.
  - bind_inv H. bind_inv H. injection H as <-. constructor; auto.
Qed.

Lemma traverse_total {A B : Type} (f : A -> result B) (xs : list A) :
  Forall (fun x => exists y, f x = Ok y) xs -> exists ys, traverse f xs = Ok ys.
Proof.
  induction 1 as [| x xs [y Hy] _ [ys Hys]]; simpl.
  - eauto.
  - rewrite Hy, Hys. simpl. eauto.
Qed.

Lemma for_each_invariant {A S : Type} (P : S -> Prop) (body : S -> A -> result S)
    (xs : list A) (acc r : S) :
  (forall s x s', In x xs -> P s -> body s x = Ok s' -> P s') ->
  P acc -> for_each body acc xs = Ok r -> P r.
Proof.
  revert acc. induction xs as [| x xs IH]; simpl; intros acc Hstep Hacc H.
  - injection H as <-. exact Hacc.
  - bind_inv H. apply (IH a); eauto.
Qed.

Lemma for_each_app {A S : Type} (body : S -> A -> result S) (xs ys : list A) (acc : S) :
  for_each body acc (xs ++ ys) = let* s := for_each body acc xs in for_each body s ys.
Proof.
  revert acc. induction xs as [| x xs IH]; simpl; intros acc; [reflexivity |].
  destruct (body acc x); simpl; auto.
Qed.

(** A loop with an element on which the body never succeeds does not
    complete. *)
Lemma for_each_stuck {A S : Type} (body : S -> A -> result S) (xs : list A) (x : A) :
  In x xs -> (forall s s', body s x <> Ok s') ->
  forall acc r, for_each body acc xs <> Ok r.
Proof.
  intros Hin Hx. induction xs as [| y xs IH]; simpl in *; [tauto |].
  intros acc r H. bind_inv H. destruct Hin as [-> | Hin].
  - exact (Hx _ _ E).
  - exact (IH Hin _ _ H).
Qed.

(** ** Output statistics *)

(** C1 (as amended).  On an output dataset translated with full facets,
    the outputStatistics facet is present exactly when the catalog entry
    is there (a true value) and the row count found in it is a true
    value.  The facet then holds the row count coerced to an integer and
    the byte count, coerced when it is a true value and passed on as it
    is otherwise: a byte count that is absent does not keep the facet
    away. *)
Theorem output_statistics_attached (self : Processor) (node : ModelNode) (o : OutputDataset) :
  node_to_output_dataset self node true = Ok o ->
  (is_Some (out_outputFacets o !! "outputStatistics")
     <-> truthy (catalog_node node) = true /\
         truthy (get_from_multiple_chains (catalog_node node) rows_chains) = true) /\
  (forall f, out_outputFacets o !! "outputStatistics" = Some f ->
     exists n size,
       py_int (get_from_multiple_chains (catalog_node node) rows_chains) = Ok n /\
       coerce_count (get_from_multiple_chains (catalog_node node) bytes_chains) = Ok size /\
       f = OutputStatisticsOutputDatasetFacet n size).
Proof.
  unfold node_to_output_dataset. intros H.
  set (rows := get_from_multiple_chains (catalog_node node) rows_chains) in *.
  set (bytes := get_from_multiple_chains (catalog_node node) bytes_chains) in *.
  bind_inv H. destruct a as [[name ns] facets]. bind_inv H.
  injection H as <-. simpl.
  destruct (truthy (catalog_node node)); simpl in E0.
  - bind_inv E0. destruct (truthy rows).
    + bind_inv E0. injection E0 as <-. split.
      * split; [auto |]. intros _. rewrite lookup_insert_eq. eauto.
      * intros f Hf. rewrite lookup_insert_eq in Hf. injection Hf as <-. eauto.
    + injection E0 as <-. split.
      * rewrite lookup_empty. split; [intros [? ?]; discriminate | intros [_ ?]; discriminate].
      * intros f Hf. rewrite lookup_empty in Hf. discriminate.
  - injection E0 as <-. split.
    + rewrite lookup_empty. split; [intros [? ?]; discriminate | intros [? _]; discriminate].
    + intros f Hf. rewrite lookup_empty in Hf. discriminate.
Qed.

(** A catalog entry with a row count of 5 and no byte count: the facet
    is attached, with no size. *)
Lemma output_statistics_attached_witness :
  exists o, node_to_output_dataset acme rows_only_node true = Ok o /\
    out_outputFacets o !! "outputStatistics" = Some (OutputStatisticsOutputDatasetFacet 5 JNull).
Proof.
  destruct (node_to_output_dataset acme rows_only_node true) as [o | e |] eqn:E;
    [| vm_compute in E; discriminate..].
  exists o. split; [reflexivity |].
  destruct (output_statistics_attached acme rows_only_node o E) as [[_ Hsome] Hf].
  destruct (Hsome (conj eq_refl eq_refl)) as [f Hl].
  destruct (Hf f Hl) as (n & size & Hn & Hs & ->).
  vm_compute in Hn, Hs. injection Hn as <-. injection Hs as <-. exact Hl.
Defined.

(** C1 as the specification has it fails on the same entry: the byte
    count is absent and the facet is attached all the same. *)
Lemma output_statistics_without_bytes :
  ~ (forall o, node_to_output_dataset acme rows_only_node true = Ok o ->
       get_from_multiple_chains (catalog_node rows_only_node) bytes_chains = JNull \/
       get_from_multiple_chains (catalog_node rows_only_node) rows_chains = JNull ->
       out_outputFacets o !! "outputStatistics" = None).
Proof.
  intros H.
  destruct (node_to_output_dataset acme rows_only_node true) as [o | e |] eqn:E;
    [| vm_compute in E; discriminate..].
  specialize (H o eq_refl (or_introl eq_refl)).
  vm_compute in E. injection E as <-. vm_compute in H. discriminate.
Qed.

(** ** The validated parent of a test *)

Lemma note_parent_string (m : option string) (s : string) :
  note_parent m (JStr s) = Ok (if is_dataset_id s then Some s else m).
Proof.
  unfold note_parent, is_dataset_id. simpl.
  destruct (String.prefix "model." s); reflexivity.
Qed.

Lemma last_cons_some {A : Type} (x : A) (l : list A) :
  last (x :: l) = Some (default x (last l)).
Proof.
  revert x. induction l as [| y l IH]; intros x; [reflexivity |].
  change (last (x :: y :: l)) with (last (y :: l)). rewrite IH.
  simpl. destruct l; reflexivity.
Qed.

Lemma note_parents (ids : list string) (m : option string) :
  for_each note_parent m (map JStr ids)
  = Ok (match last_parent ids with Some s => Some s | None => m end).
Proof.
  unfold last_parent. revert m. induction ids as [| s ids IH]; intros m; [reflexivity |].
  cbn [map for_each]. rewrite note_parent_string. cbn [bind]. rewrite IH.
  cbn [List.filter]. destruct (is_dataset_id s); [| reflexivity].
  rewrite last_cons_some. destruct (last (List.filter is_dataset_id ids)); reflexivity.
Qed.

Lemma last_parent_is_dataset_id (ids : list string) (s : string) :
  last_parent ids = Some s -> In s ids /\ is_dataset_id s = true.
Proof.
  unfold last_parent. intros H.
  assert (Hin : In s (List.filter is_dataset_id ids)).
  { apply list_elem_of_In. apply last_Some_elem_of. exact H. }
  apply filter_In in Hin. exact Hin.
Qed.

(** The first loop of [parse_test] on a record without a matching
    parent: whatever was grouped so far, the record is not passed. *)
Lemma record_test_orphan (manifest : json) (nodes : list (string * json))
    (acc : gmap (option string) (list Assertion)) (run : json) (ids : list string) :
  parents_of manifest run = Ok (map JStr ids) -> last_parent ids = None ->
  (forall acc', record_test manifest nodes acc run <> Ok acc') /\
  (forall unique_id node metadata name status,
     getitem run "unique_id" = Ok unique_id ->
     subscript (JObj nodes) unique_id = Ok node ->
     getitem node "test_metadata" = Ok metadata ->
     getitem metadata "name" = Ok name ->
     getitem run "status" = Ok status ->
     record_test manifest nodes acc run = Raise (ValueError "model node not found")).
Proof.
  unfold parents_of. intros Hp Hlast.
  bind_inv Hp. bind_inv Hp. bind_inv Hp.
  split.
  - intros acc' H. unfold record_test in H.
    rewrite E in H. cbn [bind] in H. bind_inv H.
    rewrite E0 in H. cbn [bind] in H. rewrite E1 in H. cbn [bind] in H.
    rewrite Hp in H. cbn [bind] in H. rewrite note_parents, Hlast in H. cbn [bind] in H.
    bind_inv H. bind_inv H. bind_inv H. discriminate.
  - intros unique_id node metadata name status Hu Hn Hm Hname Hs.
    unfold record_test. rewrite Hu. cbn [bind]. rewrite Hn. cbn [bind].
    rewrite E in Hu. injection Hu as <-.
    rewrite E0. cbn [bind]. rewrite E1. cbn [bind]. rewrite Hp. cbn [bind].
    rewrite note_parents, Hlast. cbn [bind]. rewrite Hm. cbn [bind].
    rewrite Hname. cbn [bind]. rewrite Hs. reflexivity.
Qed.

Lemma bind_modelled {A B : Type} (c : result A) (k : A -> result B) :
  c <> Unmodelled -> (forall a, k a <> Unmodelled) -> bind c k <> Unmodelled.
Proof. destruct c; simpl; auto; discriminate. Qed.

Lemma for_each_modelled {A S : Type} (body : S -> A -> result S) (xs : list A) (acc : S) :
  (forall s x, body s x <> Unmodelled) -> for_each body acc xs <> Unmodelled.
Proof.
  intros Hbody. revert acc. induction xs as [| x xs IH]; intros acc; simpl; [discriminate |].
  apply bind_modelled; auto.
Qed.

Lemma index_seq_modelled {A : Type} (l : list A) (i : Z) : index_seq l i <> Unmodelled.
Proof.
  unfold index_seq. destruct (_ || _); [discriminate |].
  destruct (nth_error _ _); discriminate.
Qed.

Lemma subscript_modelled (v k : json) : subscript v k <> Unmodelled.
Proof.
  destruct v, k; simpl; try discriminate; try apply index_seq_modelled;
    try (destruct (dict_get _ _); discriminate).
Qed.

Lemma py_iter_modelled (v : json) : py_iter v <> Unmodelled.
Proof. destruct v; discriminate. Qed.

Lemma startswith_modelled (v : json) (p : string) : startswith v p <> Unmodelled.
Proof. destruct v; discriminate. Qed.

Lemma note_parent_modelled (m : option string) (node : json) : note_parent m node <> Unmodelled.
Proof.
  unfold note_parent. apply bind_modelled; [apply startswith_modelled |].
  intros b. apply bind_modelled.
  - destruct b; [discriminate | apply startswith_modelled].
  - intros hit. destruct node; discriminate.
Qed.

(** The first loop of [parse_test] stays within the embedding: it ends
    with the grouped assertions or with an exception. *)
Lemma record_test_modelled (manifest : json) (nodes : list (string * json))
    (acc : gmap (option string) (list Assertion)) (run : json) :
  record_test manifest nodes acc run <> Unmodelled.
Proof.
  unfold record_test, getitem.
  repeat (apply bind_modelled;
          [first [apply subscript_modelled | apply py_iter_modelled
                 | apply for_each_modelled; apply note_parent_modelled] | intros ?]).
  cbv zeta. match goal with |- (match ?m with _ => _ end) <> _ => destruct m end; discriminate.
Qed.

(** C2 (as amended).  The validated parent of a test record is the last
    parent id of its dependency list that has the prefix of a
    transformation node or of an external source, and the record's
    assertion is grouped under it.  When no parent has either prefix,
    test aggregation ends with an exception and produces no events; the
    exception is the orphan-test error once the records before it were
    grouped and the record's own test node, check name and status are
    found. *)
Theorem validated_parent_is_last (self : Processor) (manifest run_results catalog : json)
    (nodes : list (string * json)) (w : world) (results : json) (records : list json)
    (run : json) (ids : list string) :
  getitem run_results "results" = Ok results ->
  py_iter results = Ok records ->
  In run records ->
  parents_of manifest run = Ok (map JStr ids) ->
  for_each note_parent None (map JStr ids) = Ok (last_parent ids) /\
  (forall acc acc', record_test manifest nodes acc run = Ok acc' ->
     exists m a, last_parent ids = Some m /\
                 acc' = <[Some m := grouped acc (Some m) ++ [a]]> acc) /\
  (last_parent ids = None ->
     (exists e, parse_test self manifest run_results catalog nodes w = Raise e) /\
     (forall good rest acc unique_id node metadata name status,
        records = good ++ run :: rest ->
        for_each (record_test manifest nodes) ∅ good = Ok acc ->
        getitem run "unique_id" = Ok unique_id ->
        subscript (JObj nodes) unique_id = Ok node ->
        getitem node "test_metadata" = Ok metadata ->
        getitem metadata "name" = Ok name ->
        getitem run "status" = Ok status ->
        parse_test self manifest run_results catalog nodes w
        = Raise (ValueError "model node not found"))).
Proof.
  intros Hres Hiter Hin Hparents. split; [| split].
  - rewrite note_parents. destruct (last_parent ids); reflexivity.
  - intros acc acc' H. unfold parents_of in Hparents.
    bind_inv Hparents. bind_inv Hparents. bind_inv Hparents.
    unfold record_test in H. rewrite E in H. cbn [bind] in H. bind_inv H.
    rewrite E0 in H. cbn [bind] in H. rewrite E1 in H. cbn [bind] in H.
    rewrite Hparents in H. cbn [bind] in H. rewrite note_parents in H. cbn [bind] in H.
    bind_inv H. bind_inv H. bind_inv H.
    destruct (last_parent ids) as [m |]; [| discriminate].
    injection H as <-. eauto.
  - intros Hlast.
    destruct (record_test_orphan manifest nodes ∅ run ids Hparents Hlast) as [Hstuck _].
    split.
    + unfold parse_test. cbn [now]. rewrite Hres. cbn [bind]. rewrite Hiter. cbn [bind].
      destruct (for_each (record_test manifest nodes) ∅ records) as [acc | e |] eqn:E.
      * exfalso.
        eapply (for_each_stuck (record_test manifest nodes) records run Hin); [| exact E].
        intros s s'.
        exact (proj1 (record_test_orphan manifest nodes s run ids Hparents Hlast) s').
      * exists e. reflexivity.
      * exfalso. revert E. apply for_each_modelled. intros s x. apply record_test_modelled.
    + intros good rest acc unique_id node metadata name status -> Hgood Hu Hn Hm Hname Hs.
      unfold parse_test. cbn [now].
      rewrite Hres. cbn [bind]. rewrite Hiter. cbn [bind].
      rewrite for_each_app, Hgood. cbn [bind for_each].
      rewrite (proj2 (record_test_orphan manifest nodes acc run ids Hparents Hlast)
                 unique_id node metadata name status Hu Hn Hm Hname Hs).
      reflexivity.
Qed.

(** A test whose only parent is a seed: aggregation stops with the
    orphan-test error. *)
Lemma validated_parent_is_last_witness :
  parse_test acme seed_test_manifest seed_test_results JNull seed_test_nodes w0
  = Raise (ValueError "model node not found").
Proof.
  refine (proj2 (proj2 (proj2
    (validated_parent_is_last acme seed_test_manifest seed_test_results JNull seed_test_nodes w0
       (JList [seed_test_record]) [seed_test_record] seed_test_record ["seed.proj.countries"]
       _ _ _ _)) _) [] [] ∅ (JStr "test.proj.seeded")
       (test_node "test.proj.seeded" "not_null" "id")
       (JObj [("name", JStr "not_null"); ("kwargs", JObj [("column_name", JStr "id")])])
       (JStr "not_null") (JStr "pass") _ _ _ _ _ _ _);
    try reflexivity.
  simpl. left. reflexivity.
Defined.

(** C2 as the specification has it fails on a relationships test, which
    has two models for parents: the first one is [model.proj.a], the loop
    ends on [model.proj.b], and the events are those of [b]. *)
Lemma validated_parent_not_first :
  parents_of relationships_manifest (test_record "test.proj.rel" "pass")
    = Ok (map JStr ["model.proj.a"; "model.proj.b"]) /\
  first_parent ["model.proj.a"; "model.proj.b"] = Some "model.proj.a" /\
  for_each note_parent None (map JStr ["model.proj.a"; "model.proj.b"])
    <> Ok (first_parent ["model.proj.a"; "model.proj.b"]) /\
  exists ev w,
    parse_test acme relationships_manifest relationships_results JNull relationships_nodes w0
      = Ok (ev, w) /\
    map (fun e => map ds_name (inputs e)) (completes ev) = [["db.public.b"]].
Proof.
  split; [reflexivity |]. split; [reflexivity |]. split; [vm_compute; discriminate |].
  destruct (parse_test acme relationships_manifest relationships_results JNull
              relationships_nodes w0) as [[ev w] | e |] eqn:E;
    [| vm_compute in E; discriminate..].
  exists ev, w. split; [reflexivity |].
  vm_compute in E. injection E as <- <-. reflexivity.
Qed.

(** ** Events of a test run *)

(** Two tests of one model, one passing and one failing, give one start
    event and one complete event with the same run id; the dataset of
    the start event has no facet and the one of the complete event
    lists both checks. *)
Example customers_tests_events :
  exists s c w,
    parse_test acme customers_tests_manifest customers_tests_results JNull
      customers_tests_nodes w0 = Ok (mkDbtEvents [s] [c] [], w) /\
    eventType s = START /\ eventType c = COMPLETE /\ runId s = runId c /\
    inputs s = [mkDataset "snowflake://acme" "db.public.customers" ∅] /\
    map (fun d => ds_facets d !! "dataQualityAssertions") (inputs c)
    = [Some (DataQualityAssertionsDatasetFacet
               [mkAssertion (JStr "not_null") true (JStr "id");
                mkAssertion (JStr "unique") false (JStr "id")])].
Proof.
  destruct (parse_test acme customers_tests_manifest customers_tests_results JNull
              customers_tests_nodes w0) as [[[ss cs fs] w] | e |] eqn:E;
    [| vm_compute in E; discriminate..].
  vm_compute in E. injection E as <- <- <- <-.
  do 3 eexists. repeat split; reflexivity.
Qed.

(** One turn of the second loop of [parse_test]: a node of
    [manifest['nodes']] with a dataset prefix and at least one grouped
    assertion adds one start and one complete event, which share the
    run id drawn for them; any other node adds nothing. *)
Lemma test_events_step (self : Processor) (s c : timestamp)
    (assertions : gmap (option string) (list Assertion))
    (starts completes : list RunEvent) (w : world) (name : string) (node : json)
    (acc' : list RunEvent * list RunEvent * world) :
  test_events self s c assertions (starts, completes, w) (name, node) = Ok acc' ->
  (is_dataset_id name = true /\ grouped assertions (Some name) <> [] /\
   exists st co,
     acc' = (starts ++ [st], completes ++ [co], mkWorld (clock_reads w) (S (uuids_drawn w))) /\
     eventType st = START /\ eventType co = COMPLETE /\
     runId st = Uuid4 (uuids_drawn w) /\ runId co = Uuid4 (uuids_drawn w) /\
     outputs st = [] /\ outputs co = [] /\
     map ds_facets (inputs st) = [∅] /\
     map ds_facets (inputs co)
     = [{["dataQualityAssertions" :=
           DataQualityAssertionsDatasetFacet (grouped assertions (Some name))]}]) \/
  ((is_dataset_id name = false \/ grouped assertions (Some name) = []) /\
   acc' = (starts, completes, w)).
Proof.
  unfold test_events, is_dataset_id. intros H.
  destruct (String.prefix "model." name) eqn:Hm; cbn [negb andb orb] in *.
  2: destruct (String.prefix "source." name) eqn:Hs; cbn [negb] in *.
  3: { right. injection H as <-. auto. }
  all: destruct (grouped assertions (Some name)) as [| a l] eqn:Hg; cbn [length Nat.eqb] in H;
    [right; injection H as <-; auto |].
  all: left; split; [reflexivity |]; split; [discriminate |].
  all: bind_inv H; destruct a0 as [[ns nm] fs]; repeat bind_inv H.
  all: cbn [uuid4] in H; injection H as <-.
  all: eexists _, _; repeat split; reflexivity.
Qed.

(** The run ids of a test run: the events of the [k]-th dataset carry
    the [k]-th identifier drawn, so the start and the complete event of
    a dataset share an id that no other dataset has. *)
Lemma test_events_run_ids (self : Processor) (s c : timestamp)
    (assertions : gmap (option string) (list Assertion)) (items : list (string * json))
    (w w' : world) (starts completes : list RunEvent) :
  for_each (test_events self s c assertions) ([], [], w) items = Ok (starts, completes, w') ->
  map runId starts = map Uuid4 (seq (uuids_drawn w) (length starts)) /\
  map runId completes = map runId starts /\
  NoDup (map runId starts).
Proof.
  intros H.
  assert (Hinv : map runId starts = map Uuid4 (seq (uuids_drawn w) (length starts)) /\
                 map runId completes = map runId starts /\
                 uuids_drawn w' = (uuids_drawn w + length starts)%nat).
  { refine (for_each_invariant
              (fun acc => let '(ss, cs, w1) := acc in
                 map runId ss = map Uuid4 (seq (uuids_drawn w) (length ss)) /\
                 map runId cs = map runId ss /\
                 uuids_drawn w1 = (uuids_drawn w + length ss)%nat)
              _ items ([], [], w) (starts, completes, w') _ _ H).
    - intros [[ss cs] w1] [name node] acc' _ (H1 & H2 & H3) Hstep.
      apply test_events_step in Hstep
        as [(_ & _ & st & co & -> & _ & _ & Hst & Hco & _) | [_ ->]]; [| auto].
      rewrite !map_app, !length_app, seq_app, map_app. cbn [map length seq].
      rewrite H1, H2, H1, Hst, Hco, H3. cbn. repeat split; lia.
    - cbn. repeat split; lia. }
  destruct Hinv as (H1 & H2 & _). repeat split; auto.
  rewrite H1. apply NoDup_fmap_2; [| apply NoDup_seq].
  intros x y Hxy. injection Hxy as ->. reflexivity.
Qed.

(** C3 at a test of an external source.  The first loop groups the
    assertion under the source, [source.proj.raw.orders]; the second loop
    walks [manifest['nodes']], where no source is listed, and emits no
    event for it. *)
Theorem source_test_emits_nothing :
  (exists assertions,
     for_each (record_test source_test_manifest source_test_nodes) ∅
       [test_record "test.proj.source_not_null_raw_orders_id" "pass"] = Ok assertions /\
     grouped assertions (Some "source.proj.raw.orders")
     = [mkAssertion (JStr "not_null") true (JStr "id")]) /\
  parse_test acme source_test_manifest source_test_results JNull source_test_nodes w0
  = Ok (mkDbtEvents [] [] [], mkWorld 2 0).
Proof.
  split.
  - destruct (for_each (record_test source_test_manifest source_test_nodes) ∅
                [test_record "test.proj.source_not_null_raw_orders_id" "pass"])
      as [assertions | e |] eqn:E; [| vm_compute in E; discriminate..].
    exists assertions. split; [reflexivity |].
    vm_compute in E. injection E as <-. reflexivity.
  - vm_compute. reflexivity.
Qed.

(** ** Datasets with and without facets *)

Lemma extract_dataset_data_plain (self : Processor) (node : ModelNode) ns name facets :
  extract_dataset_data self node false = Ok (ns, name, facets) ->
  ns = dataset_namespace self /\ facets = ∅.
Proof.
  unfold extract_dataset_data. intros H.
  bind_inv H. injection E as <-.
  repeat bind_inv H. injection H as <- _ <-. auto.
Qed.

Lemma extract_dataset_data_full (self : Processor) (node : ModelNode) ns name facets :
  extract_dataset_data self node true = Ok (ns, name, facets) ->
  ns = dataset_namespace self /\ described (dataset_namespace self) facets.
Proof.
  unfold extract_dataset_data, described. intros H.
  bind_inv H. repeat bind_inv E.
  repeat bind_inv H. injection H as <- _ <-. split; [reflexivity |].
  destruct (truthy (catalog_node node)).
  - repeat bind_inv E. injection E as <-.
    rewrite lookup_insert_ne by discriminate.
    rewrite lookup_insert_ne by discriminate.
    rewrite !lookup_insert_eq. eauto.
  - injection E as <-.
    rewrite lookup_insert_ne by discriminate.
    rewrite !lookup_insert_eq. eauto.
Qed.

Lemma node_to_dataset_plain (self : Processor) (node : ModelNode) (d : Dataset) :
  node_to_dataset self node false = Ok d -> ds_facets d = ∅.
Proof.
  unfold node_to_dataset. intros H. bind_inv H. destruct a as [[ns name] facets].
  injection H as <-. apply extract_dataset_data_plain in E. tauto.
Qed.

Lemma node_to_dataset_full (self : Processor) (node : ModelNode) (d : Dataset) :
  node_to_dataset self node true = Ok d -> described (dataset_namespace self) (ds_facets d).
Proof.
  unfold node_to_dataset. intros H. bind_inv H. destruct a as [[ns name] facets].
  injection H as <-. apply extract_dataset_data_full in E. tauto.
Qed.

Lemma node_to_output_dataset_plain (self : Processor) (node : ModelNode) (o : OutputDataset) :
  node_to_output_dataset self node false = Ok o ->
  out_facets o = ∅ /\ out_outputFacets o = ∅.
Proof.
  unfold node_to_output_dataset. intros H. bind_inv H. destruct a as [[ns name] facets].
  cbn [andb] in H. cbn [bind] in H.
  injection H as <-. apply extract_dataset_data_plain in E. tauto.
Qed.

Lemma traverse_Forall {A B : Type} (f : A -> result B) (P : B -> Prop) (xs : list A) (ys : list B) :
  (forall x y, f x = Ok y -> P y) -> traverse f xs = Ok ys -> Forall P ys.
Proof.
  intros HP H. apply traverse_Ok in H.
  induction H; constructor; eauto.
Qed.

Lemma traverse_length {A B : Type} (f : A -> result B) (xs : list A) (ys : list B) :
  traverse f xs = Ok ys -> length ys = length xs.
Proof. intros H. apply traverse_Ok in H. symmetry. exact (Forall2_length _ _ _ H). Qed.

Lemma deref_Ok (o : option ModelNode) (node : ModelNode) :
  deref o = Ok node -> o = Some node.
Proof. destruct o; simpl; intros H; [injection H as <-; reflexivity | discriminate]. Qed.

(** ** The event builder, case by case *)

(** The start event of a run, from its translated datasets. *)
Lemma start_event_facet_free (self : Processor) (run : DbtRun)
    (ins : list Dataset) (outs : list OutputDataset) :
  traverse (fun node => node_to_dataset self node false) (run_inputs run) = Ok ins ->
  match output run with
  | Some out => let* o := node_to_output_dataset self out false in Ok [o]
  | None => Ok []
  end = Ok outs ->
  facet_free (mkRunEvent START (started_at run) (run_run_id run)
                (mkJob (job_namespace self) (job_name run) ∅) (producer self) ins outs) /\
  (outs <> [] <-> output run <> None) /\ (output run <> None -> length outs = 1%nat).
Proof.
  intros Hins Houts. unfold facet_free. cbn.
  split; [split; [reflexivity | split] |].
  - eapply traverse_Forall; [| exact Hins]. intros x y. apply node_to_dataset_plain.
  - destruct (output run) as [out |].
    + bind_inv Houts. injection Houts as <-. constructor; [| constructor].
      exact (node_to_output_dataset_plain _ _ _ E).
    + injection Houts as <-. constructor.
  - destruct (output run) as [out |].
    + bind_inv Houts. injection Houts as <-. split; [split; discriminate | reflexivity].
    + injection Houts as <-. split; [split; intros H; contradiction | intros H; contradiction].
Qed.

(** C4.  A start event of the event builder has no facet at all: none
    on its job (so no SQL facet) and none on its input and output
    datasets (so no schema and no data-source facet).  A complete or fail
    event has the SQL facet on its job, holding the compiled SQL of the
    output node, and the data-source and schema facets on each of its
    input datasets, one per input node of the run. *)
Theorem facet_richness (self : Processor) (run : DbtRun) (r : DbtRunResult) :
  _to_openlineage_events self run = Ok (Some r) ->
  eventType (start r) = START /\ facet_free (start r) /\
  (forall e, complete r = Some e \/ fail r = Some e ->
     eventType e <> START /\
     exists out sql,
       output run = Some out /\
       getitem (metadata_node out) "compiled_sql" = Ok sql /\
       full_facets (dataset_namespace self) sql e /\
       length (inputs e) = length (run_inputs run)).
Proof.
  unfold _to_openlineage_events. intros H.
  destruct (eq_str (status run) "skipped"); [discriminate |].
  bind_inv H. rename a into ins, E into Hins.
  bind_inv H. rename a into outs, E into Houts.
  destruct (start_event_facet_free self run ins outs Hins Houts) as [Hfree _].
  destruct (eq_str (status run) "success"); [| destruct (eq_str (status run) "error")].
  - bind_inv H. apply deref_Ok in E. bind_inv H. bind_inv H. bind_inv H. bind_inv H.
    injection H as <-. cbn. split; [reflexivity |]. split; [exact Hfree |].
    intros e [He | He]; [| discriminate]. injection He as <-. cbn.
    split; [discriminate |]. exists a, a0. repeat split; auto.
    + eapply traverse_Forall; [| exact E1]. intros x y. apply node_to_dataset_full.
    + exact (traverse_length _ _ _ E1).
  - bind_inv H. apply deref_Ok in E. bind_inv H. bind_inv H.
    injection H as <-. cbn. split; [reflexivity |]. split; [exact Hfree |].
    intros e [He | He]; [discriminate |]. injection He as <-. cbn.
    split; [discriminate |]. exists a, a0. repeat split; auto.
    + eapply traverse_Forall; [| exact E1]. intros x y. apply node_to_dataset_full.
    + exact (traverse_length _ _ _ E1).
  - discriminate.
Qed.

(** The successful run of [customers]: a start event without facets, a
    complete event with the SQL text and a described input. *)
Lemma facet_richness_witness :
  exists r c,
    _to_openlineage_events acme (customers_run (JStr "success") (Some rows_only_node)) = Ok (Some r) /\
    complete r = Some c /\ facet_free (start r) /\
    full_facets "snowflake://acme" (JStr "select id from raw") c.
Proof.
  destruct (_to_openlineage_events acme (customers_run (JStr "success") (Some rows_only_node)))
    as [[r |] | e |] eqn:E; [| vm_compute in E; discriminate..].
  destruct (facet_richness acme _ r E) as (_ & Hfree & Hfull).
  destruct (complete r) as [c |] eqn:Hc;
    [| vm_compute in E; injection E as <-; discriminate].
  destruct (Hfull c (or_introl eq_refl)) as (_ & out & sql & Hout & Hsql & Hc' & _).
  injection Hout as <-. vm_compute in Hsql. injection Hsql as <-.
  exists r, c. auto.
Defined.


(** ** Node data that exists is translated *)

Lemma has_text_Ok (m : json) (k : string) :
  has_text m k = true -> exists v s, getitem m k = Ok v /\ py_str v = Ok s.
Proof.
  unfold has_text. destruct (getitem m k) as [v | |]; [| discriminate..].
  destruct (py_str v) as [s | |] eqn:Hs; [intros _; exists v, s; auto | discriminate..].
Qed.

Lemma identified_plain (self : Processor) (node : ModelNode) :
  identified (metadata_node node) = true ->
  exists name, extract_dataset_data self node false = Ok (dataset_namespace self, name, ∅).
Proof.
  unfold identified. intros H.
  apply andb_prop in H as [H Hn]. apply andb_prop in H as [Hd Hs].
  apply has_text_Ok in Hd as (vd & sd & Hd & Hsd).
  apply has_text_Ok in Hs as (vs & ss & Hs & Hss).
  apply has_text_Ok in Hn as (vn & sn & Hn & Hsn).
  unfold extract_dataset_data. cbn [bind].
  rewrite Hd. cbn [bind]. rewrite Hsd. cbn [bind].
  rewrite Hs. cbn [bind]. rewrite Hss. cbn [bind].
  rewrite Hn. cbn [bind]. rewrite Hsn. cbn [bind]. eauto.
Qed.

Lemma named_column_fields (field : json) :
  named_column field = true ->
  (exists f, metadata_field field = Ok f) /\ (exists f, catalog_field field = Ok f).
Proof.
  destruct field as [| | | | | | d]; try discriminate. cbn [named_column].
  destruct (dict_get "name" d) as [v |] eqn:Hname; [| discriminate]. intros _.
  unfold metadata_field, catalog_field, getitem, py_in, subscript. rewrite Hname.
  split.
  - destruct (dict_get "data_type" d); cbn; eauto.
  - destruct (dict_get "type" d), (dict_get "column" d); cbn; eauto.
Qed.

Lemma has_columns_fields (m : json) :
  has_columns m = true ->
  exists columns values,
    getitem m "columns" = Ok columns /\ py_values columns = Ok values /\
    (exists fs, extract_metadata_fields values = Ok fs) /\
    (exists fs, extract_catalog_fields values = Ok fs).
Proof.
  unfold has_columns. destruct (getitem m "columns") as [[| | | | | | d] | |]; try discriminate.
  intros H. exists (JObj d), (map snd d). split; [reflexivity |]. split; [reflexivity |].
  rewrite forallb_forall in H.
  split; apply traverse_total; apply Forall_forall; intros x Hx;
    apply list_elem_of_In in Hx; apply H in Hx; apply named_column_fields in Hx; tauto.
Qed.

Lemma node_described_full (self : Processor) (node : ModelNode) :
  node_described node = true ->
  (exists d, node_to_dataset self node false = Ok d) /\
  (exists d, node_to_dataset self node true = Ok d).
Proof.
  unfold node_described. intros H.
  apply andb_prop in H as [H Hcat]. apply andb_prop in H as [Hid Hcols].
  destruct (identified_plain self node Hid) as [name Hplain].
  split.
  - unfold node_to_dataset. rewrite Hplain. cbn. eauto.
  - unfold identified in Hid.
    apply andb_prop in Hid as [Hid Hn]. apply andb_prop in Hid as [Hd Hs].
    apply has_text_Ok in Hd as (vd & sd & Hd & Hsd).
    apply has_text_Ok in Hs as (vs & ss & Hs & Hss).
    apply has_text_Ok in Hn as (vn & sn & Hn & Hsn).
    apply has_columns_fields in Hcols as (cols & vals & Hc & Hv & [fs Hfs] & _).
    unfold node_to_dataset, extract_dataset_data.
    rewrite Hc. cbn [bind]. rewrite Hv. cbn [bind]. rewrite Hfs. cbn [bind].
    destruct (truthy (catalog_node node)).
    + cbn in Hcat.
      apply has_columns_fields in Hcat as (ccols & cvals & Hcc & Hcv & _ & [cfs Hcfs]).
      rewrite Hcc. cbn [bind]. rewrite Hcv. cbn [bind]. rewrite Hcfs. cbn [bind].
      rewrite Hd. cbn [bind]. rewrite Hsd. cbn [bind].
      rewrite Hs. cbn [bind]. rewrite Hss. cbn [bind].
      rewrite Hn. cbn [bind]. rewrite Hsn. cbn [bind]. eauto.
    + cbn [bind].
      rewrite Hd. cbn [bind]. rewrite Hsd. cbn [bind].
      rewrite Hs. cbn [bind]. rewrite Hss. cbn [bind].
      rewrite Hn. cbn [bind]. rewrite Hsn. cbn [bind]. eauto.
Qed.

Lemma described_inputs (self : Processor) (nodes : list ModelNode) :
  forallb node_described nodes = true ->
  (exists ds, traverse (fun node => node_to_dataset self node false) nodes = Ok ds) /\
  (exists ds, traverse (fun node => node_to_dataset self node true) nodes = Ok ds).
Proof.
  intros H. rewrite forallb_forall in H.
  split; apply traverse_total; apply Forall_forall; intros x Hx;
    apply list_elem_of_In in Hx; apply H in Hx;
    apply (node_described_full self) in Hx; tauto.
Qed.

Lemma eq_str_true (v : json) (s : string) : eq_str v s = true <-> v = JStr s.
Proof.
  destruct v; simpl; split; try discriminate.
  - intros H. apply String.eqb_eq in H. congruence.
  - intros H. injection H as ->. apply String.eqb_refl.
Qed.

(** ** Failed runs *)

(** C6.  For a run with status "error", the event builder gives a start
    event and a fail event and no complete event; both events carry the
    run id of the run; the fail event has no output dataset; its job has
    the SQL facet and its input datasets the full facets, and they are
    the job and the input datasets the complete event has when the same
    run is a success.  The events are produced whenever the data of the
    run exists: described input nodes and an output node that names its
    table and has its compiled SQL. *)
Theorem error_run_events (self : Processor) (run : DbtRun) :
  status run = JStr "error" ->
  (forall o, _to_openlineage_events self run = Ok o ->
     exists r fl out sql,
       o = Some r /\ complete r = None /\ fail r = Some fl /\
       eventType (start r) = START /\ eventType fl = FAIL /\
       runId (start r) = run_run_id run /\ runId fl = run_run_id run /\
       outputs fl = [] /\
       output run = Some out /\ getitem (metadata_node out) "compiled_sql" = Ok sql /\
       full_facets (dataset_namespace self) sql fl /\
       (forall r', _to_openlineage_events self (with_status run "success") = Ok (Some r') ->
          exists c, complete r' = Some c /\ job c = job fl /\ inputs c = inputs fl)) /\
  (error_run_data run = true ->
     exists r, _to_openlineage_events self run = Ok (Some r) /\
               to_openlineage_events self run = Ok (Some r)).
Proof.
  intros Hstatus. split.
  - intros o H.
    pose proof H as Horig.
    unfold _to_openlineage_events in H. rewrite Hstatus in H. cbn [eq_str] in H.
    change (String.eqb "error" "skipped") with false in H.
    change (String.eqb "error" "success") with false in H.
    change (String.eqb "error" "error") with true in H. cbv iota in H.
    bind_inv H. rename a into ins, E into Hins.
    bind_inv H. rename a into outs, E into Houts.
    bind_inv H. rename a into out. apply deref_Ok in E.
    bind_inv H. rename a into sql, E0 into Hsql.
    bind_inv H. rename a into fins, E0 into Hfins.
    injection H as <-.
    eexists _, _, out, sql. cbn.
    split; [reflexivity |]. split; [reflexivity |]. split; [reflexivity |].
    repeat (split; [reflexivity |]). split; [exact E |]. split; [exact Hsql |]. split.
    + split; [reflexivity |]. cbn.
      eapply traverse_Forall; [| exact Hfins]. intros x y. apply node_to_dataset_full.
    + intros r' H'. unfold _to_openlineage_events, with_status in H'. cbn in H'.
      rewrite Hins in H'. cbn [bind] in H'. rewrite Houts in H'. cbn [bind] in H'.
      rewrite E in H'. cbn [deref bind] in H'. rewrite Hsql in H'. cbn [bind] in H'.
      rewrite Hfins in H'. cbn [bind] in H'. bind_inv H'.
      injection H' as <-. cbn. eauto.
  - intros Hdata. unfold error_run_data in Hdata.
    apply andb_prop in Hdata as [Hins Hout].
    destruct (output run) as [out |] eqn:Houtput; [| discriminate].
    apply andb_prop in Hout as [Hid Hsql].
    destruct (getitem (metadata_node out) "compiled_sql") as [sql | |] eqn:Esql; [| discriminate..].
    destruct (described_inputs self _ Hins) as [[ins Eins] [fins Efins]].
    destruct (identified_plain self out Hid) as [name Hname].
    assert (Hr : exists r, _to_openlineage_events self run = Ok (Some r)).
    { unfold _to_openlineage_events. rewrite Hstatus. cbn [eq_str].
      change (String.eqb "error" "skipped") with false.
      change (String.eqb "error" "success") with false.
      change (String.eqb "error" "error") with true. cbv iota.
      rewrite Eins. cbn [bind]. rewrite Houtput.
      unfold node_to_output_dataset. rewrite Hname. cbn [bind andb deref].
      rewrite Esql. cbn [bind]. rewrite Efins. cbn [bind]. eauto. }
    destruct Hr as [r Hr]. exists r. split; [exact Hr |].
    unfold to_openlineage_events. rewrite Hr. reflexivity.
Qed.

(** The failed run of [customers]. *)
Lemma error_run_events_witness :
  exists r fl,
    _to_openlineage_events acme (customers_run (JStr "error") (Some rows_only_node)) = Ok (Some r) /\
    complete r = None /\ fail r = Some fl /\ runId (start r) = runId fl /\ outputs fl = [].
Proof.
  destruct (error_run_events acme (customers_run (JStr "error") (Some rows_only_node)) eq_refl)
    as [Hshape Htotal].
  destruct (Htotal eq_refl) as (r & Hr & _).
  destruct (Hshape _ Hr) as (r0 & fl & out & sql & Heq & Hc & Hf & _ & _ & Hs & Hfl & Ho & _).
  injection Heq as <-.
  exists r, fl. rewrite Hs, Hfl. auto.
Defined.

(** ** Successful runs *)

(** What the event builder gives for a run with status "success" when
    it gives anything: a start and a complete event with the run id of
    the run, each with one output dataset; the run has an output node. *)
Lemma success_run_events (self : Processor) (run : DbtRun) (o : option DbtRunResult) :
  status run = JStr "success" ->
  _to_openlineage_events self run = Ok o ->
  exists r c out,
    o = Some r /\ complete r = Some c /\ fail r = None /\
    eventType (start r) = START /\ eventType c = COMPLETE /\
    runId (start r) = run_run_id run /\ runId c = run_run_id run /\
    output run = Some out /\
    length (outputs (start r)) = 1%nat /\ length (outputs c) = 1%nat.
Proof.
  intros Hstatus H.
  unfold _to_openlineage_events in H. rewrite Hstatus in H. cbn [eq_str] in H.
  change (String.eqb "success" "skipped") with false in H.
  change (String.eqb "success" "success") with true in H. cbv iota in H.
  bind_inv H. rename a into ins, E into Hins.
  bind_inv H. rename a into outs, E into Houts.
  bind_inv H. rename a into out. apply deref_Ok in E.
  bind_inv H. bind_inv H. bind_inv H. bind_inv H. injection H as <-.
  eexists _, _, out. cbn. repeat (split; [reflexivity |]).
  split; [exact E |]. split; [| reflexivity].
  rewrite E in Houts. bind_inv Houts. injection Houts as <-. reflexivity.
Qed.

(** A successful run without an output node, which [parse_run] never
    assembles.  The start event is built (its output list is guarded by
    [if run.output]), the complete event is not: reading
    [run.output.metadata_node] raises, and the run yields no event.  With
    another status the same run gets as far as the check of the
    status. *)
Lemma success_run_without_output :
  status (customers_run (JStr "success") None) = JStr "success" /\
  output (customers_run (JStr "success") None) = None /\
  _to_openlineage_events acme (customers_run (JStr "success") None) = Raise AttributeError /\
  to_openlineage_events acme (customers_run (JStr "success") None)
    = Raise (ValueErrorOf AttributeError) /\
  _to_openlineage_events acme (customers_run (JStr "running") None)
    = Raise (ValueError "run status").
Proof. repeat split; vm_compute; reflexivity. Qed.

(** ** Skipped runs *)

Lemma assemble_run_status (self : Processor) (manifest catalog : json)
    (nodes : list (string * json)) (record : json) (w w' : world) (run : DbtRun) :
  assemble_run self manifest catalog nodes record w = Ok (run, w') ->
  getitem record "status" = Ok (status run) /\ exists node, output run = Some node.
Proof.
  unfold assemble_run. intros H.
  bind_inv H. bind_inv H. destruct a0 as [[s c] w1].
  repeat bind_inv H.
  injection H as <- _. cbn. split; [assumption | eauto].
Qed.

(** C7.  A run with status "skipped" gives no event: the event builder
    returns no result for it, with or without the error handler around
    it, and the loop of [parse_run] that fills the lists of start,
    complete and fail events leaves all three as they are.  The status
    of a run is the status of its execution record. *)
Theorem skipped_run_no_events (self : Processor) (run : DbtRun) :
  status run = JStr "skipped" ->
  _to_openlineage_events self run = Ok None /\
  to_openlineage_events self run = Ok None /\
  (forall acc, collect self acc run = Ok acc) /\
  (forall acc before after,
     for_each (collect self) acc (before ++ run :: after)
     = for_each (collect self) acc (before ++ after)) /\
  (forall manifest catalog nodes record w w',
     assemble_run self manifest catalog nodes record w = Ok (run, w') ->
     getitem record "status" = Ok (JStr "skipped")).
Proof.
  intros Hstatus.
  assert (H1 : _to_openlineage_events self run = Ok None).
  { unfold _to_openlineage_events. rewrite Hstatus. reflexivity. }
  assert (H2 : to_openlineage_events self run = Ok None).
  { unfold to_openlineage_events. rewrite H1. reflexivity. }
  assert (H3 : forall acc, collect self acc run = Ok acc).
  { intros acc. unfold collect. rewrite H2. reflexivity. }
  repeat split; auto.
  - intros acc before after. rewrite !for_each_app.
    destruct (for_each (collect self) acc before); cbn [bind for_each]; auto.
    rewrite H3. reflexivity.
  - intros manifest catalog nodes record w w' H.
    apply assemble_run_status in H as [H _]. rewrite Hstatus in H. exact H.
Qed.

Lemma skipped_run_no_events_witness :
  _to_openlineage_events acme (customers_run (JStr "skipped") (Some rows_only_node)) = Ok None /\
  collect acme (mkDbtEvents [] [] []) (customers_run (JStr "skipped") (Some rows_only_node))
  = Ok (mkDbtEvents [] [] []).
Proof.
  destruct (skipped_run_no_events acme (customers_run (JStr "skipped") (Some rows_only_node))
              eq_refl) as (H1 & _ & H3 & _).
  split; [exact H1 | exact (H3 _)].
Defined.

(** ** Runs with another status *)

Lemma parse_run_loops (self : Processor) (manifest run_results catalog : json)
    (nodes : list (string * json)) (w w' : world) (results : json) (records : list json)
    (runs : list DbtRun) :
  getitem run_results "results" = Ok results ->
  py_iter results = Ok records ->
  assemble_runs self manifest catalog nodes records w = Ok (runs, w') ->
  parse_run self manifest run_results catalog nodes w
  = let* events := for_each (collect self) (mkDbtEvents [] [] []) runs in Ok (events, w').
Proof.
  intros H1 H2 H3. unfold parse_run. rewrite H1. cbn [bind]. rewrite H2. cbn [bind].
  rewrite H3. reflexivity.
Qed.

(** C9.  A run whose status is none of "success", "error" and "skipped"
    is never translated: once its start event is built, the event
    builder raises the error of the unrecognized status.  Without
    [skip_errors], which is the default, the error is wrapped in a new
    [ValueError] and [parse_run] ends with it; with [skip_errors] the run
    gives no result, adds nothing to the lists of events, and the runs
    after it are translated as if it were not there. *)
Theorem unrecognized_status (self : Processor) (run : DbtRun) :
  status run <> JStr "skipped" -> status run <> JStr "success" -> status run <> JStr "error" ->
  (forall o, _to_openlineage_events self run <> Ok o) /\
  (forall ins outs,
     traverse (fun node => node_to_dataset self node false) (run_inputs run) = Ok ins ->
     match output run with
     | Some out => let* o := node_to_output_dataset self out false in Ok [o]
     | None => Ok []
     end = Ok outs ->
     _to_openlineage_events self run = Raise (ValueError "run status")) /\
  (forall e, _to_openlineage_events self run = Raise e ->
     (skip_errors self = false ->
        to_openlineage_events self run = Raise (ValueErrorOf e) /\
        forall manifest run_results catalog nodes w w' results records before after events,
          getitem run_results "results" = Ok results ->
          py_iter results = Ok records ->
          assemble_runs self manifest catalog nodes records w = Ok (before ++ run :: after, w') ->
          for_each (collect self) (mkDbtEvents [] [] []) before = Ok events ->
          parse_run self manifest run_results catalog nodes w = Raise (ValueErrorOf e)) /\
     (skip_errors self = true ->
        to_openlineage_events self run = Ok None /\
        (forall acc, collect self acc run = Ok acc) /\
        (forall acc before after,
           for_each (collect self) acc (before ++ run :: after)
           = for_each (collect self) acc (before ++ after)))) /\
  (forall producer, skip_errors (__init__ producer None) = false).
Proof.
  intros Hskipped Hsuccess Herror.
  assert (Hs1 : eq_str (status run) "skipped" = false).
  { destruct (eq_str (status run) "skipped") eqn:E; [| reflexivity].
    apply eq_str_true in E. contradiction. }
  assert (Hs2 : eq_str (status run) "success" = false).
  { destruct (eq_str (status run) "success") eqn:E; [| reflexivity].
    apply eq_str_true in E. contradiction. }
  assert (Hs3 : eq_str (status run) "error" = false).
  { destruct (eq_str (status run) "error") eqn:E; [| reflexivity].
    apply eq_str_true in E. contradiction. }
  split; [| split; [| split]].
  - intros o H. unfold _to_openlineage_events in H. rewrite Hs1, Hs2, Hs3 in H.
    bind_inv H. bind_inv H. discriminate.
  - intros ins outs Hins Houts. unfold _to_openlineage_events.
    rewrite Hs1, Hs2, Hs3, Hins. cbn [bind]. rewrite Houts. reflexivity.
  - intros e He. split.
    + intros Hflag.
      assert (Hto : to_openlineage_events self run = Raise (ValueErrorOf e)).
      { unfold to_openlineage_events. rewrite He, Hflag. reflexivity. }
      split; [exact Hto |].
      intros manifest run_results catalog nodes w w' results records before after events
        H1 H2 H3 H4.
      rewrite (parse_run_loops _ _ _ _ _ _ _ _ _ _ H1 H2 H3).
      rewrite for_each_app, H4. cbn [bind for_each]. unfold collect. rewrite Hto. reflexivity.
    + intros Hflag.
      assert (Hto : to_openlineage_events self run = Ok None).
      { unfold to_openlineage_events. rewrite He, Hflag. reflexivity. }
      assert (Hc : forall acc, collect self acc run = Ok acc).
      { intros acc. unfold collect. rewrite Hto. reflexivity. }
      repeat split; auto.
      intros acc before after. rewrite !for_each_app.
      destruct (for_each (collect self) acc before); cbn [bind for_each]; auto.
      rewrite Hc. reflexivity.
  - reflexivity.
Qed.

(** The run of [customers] with the status "running": the parse of a
    processor made with the default flag ends with the wrapped error,
    and a processor that skips errors drops the run. *)
Lemma unrecognized_status_witness :
  to_openlineage_events acme (customers_run (JStr "running") (Some rows_only_node))
    = Raise (ValueErrorOf (ValueError "run status")) /\
  to_openlineage_events (mkProcessor "p" "analytics" "snowflake://acme" true)
    (customers_run (JStr "running") (Some rows_only_node)) = Ok None.
Proof.
  split.
  - destruct (unrecognized_status acme (customers_run (JStr "running") (Some rows_only_node)))
      as (_ & Hraise & Hwrap & _); try discriminate.
    apply (Hwrap (ValueError "run status")); [| reflexivity].
    eapply Hraise; vm_compute; reflexivity.
  - destruct (unrecognized_status (mkProcessor "p" "analytics" "snowflake://acme" true)
                (customers_run (JStr "running") (Some rows_only_node)))
      as (_ & Hraise & Hwrap & _); try discriminate.
    apply (Hwrap (ValueError "run status")); [| reflexivity].
    eapply Hraise; vm_compute; reflexivity.
Defined.

(** ** Assembled runs have an output node *)

Lemma assemble_runs_outputs (self : Processor) (manifest catalog : json)
    (nodes : list (string * json)) (records : list json) (w w' : world) (runs : list DbtRun) :
  assemble_runs self manifest catalog nodes records w = Ok (runs, w') ->
  Forall (fun run => exists node, output run = Some node) runs /\
  length runs = length records.
Proof.
  unfold assemble_runs.
  assert (Hgen : forall records acc w0 runs w',
    for_each (fun '(runs, w) run =>
                let* (r, w) := assemble_run self manifest catalog nodes run w in
                Ok (runs ++ [r], w)) (acc, w0) records = Ok (runs, w') ->
    Forall (fun run => exists node, output run = Some node) acc ->
    Forall (fun run => exists node, output run = Some node) runs /\
    length runs = (length acc + length records)%nat).
  { clear. induction records as [| record records IH]; cbn [for_each]; intros acc w0 runs w' H Hacc.
    - injection H as <- _. split; [exact Hacc | cbn; lia].
    - bind_inv H. bind_inv E. destruct a0 as [r w1]. injection E as <-.
      apply IH in H.
      + rewrite length_app in H. cbn in *. destruct H as [H1 H2]. split; [exact H1 | lia].
      + apply Forall_app. split; [exact Hacc |]. constructor; [| constructor].
        apply assemble_run_status in E0. tauto. }
  intros H. apply Hgen in H; [exact H | constructor].
Qed.

Lemma to_openlineage_events_Some (self : Processor) (run : DbtRun) (r : DbtRunResult) :
  to_openlineage_events self run = Ok (Some r) -> _to_openlineage_events self run = Ok (Some r).
Proof.
  unfold to_openlineage_events.
  destruct (_to_openlineage_events self run) as [o | e |]; [auto | | discriminate].
  destruct (skip_errors self); discriminate.
Qed.

Lemma start_outputs (self : Processor) (run : DbtRun) (r : DbtRunResult) :
  _to_openlineage_events self run = Ok (Some r) ->
  eq_str (status run) "skipped" = false /\
  eventType (start r) = START /\
  (outputs (start r) <> [] <-> output run <> None) /\
  (output run <> None -> length (outputs (start r)) = 1%nat).
Proof.
  unfold _to_openlineage_events. intros H.
  destruct (eq_str (status run) "skipped"); [discriminate |]. split; [reflexivity |].
  bind_inv H. rename a into ins, E into Hins.
  bind_inv H. rename a into outs, E into Houts.
  destruct (start_event_facet_free self run ins outs Hins Houts) as (_ & Hiff & Hlen).
  destruct (eq_str (status run) "success"); [| destruct (eq_str (status run) "error")].
  - repeat bind_inv H. injection H as <-. cbn. auto.
  - repeat bind_inv H. injection H as <-. cbn. auto.
  - discriminate.
Qed.

Lemma collect_starts (self : Processor) (acc acc' : DbtEvents) (run : DbtRun) :
  collect self acc run = Ok acc' ->
  starts acc' = starts acc \/
  exists r, _to_openlineage_events self run = Ok (Some r) /\ starts acc' = starts acc ++ [start r].
Proof.
  unfold collect. intros H. bind_inv H. destruct a as [r |].
  - right. exists r. split; [exact (to_openlineage_events_Some _ _ _ E) |].
    destruct (complete r), (fail r); injection H as <-; reflexivity.
  - left. injection H as <-. reflexivity.
Qed.

(** C10.  Every run that [parse_run] assembles from an execution record
    has an output node, whatever the type of the field allows, and so
    every start event of [parse_run] has exactly one output dataset.
    (Start events come from the runs that are not skipped.) *)
Theorem assembled_runs_have_output (self : Processor) (manifest run_results catalog : json)
    (nodes : list (string * json)) (w w' : world) (ev : DbtEvents) :
  parse_run self manifest run_results catalog nodes w = Ok (ev, w') ->
  exists results records runs w1,
    getitem run_results "results" = Ok results /\
    py_iter results = Ok records /\
    assemble_runs self manifest catalog nodes records w = Ok (runs, w1) /\
    length runs = length records /\
    Forall (fun run => exists node, output run = Some node) runs /\
    Forall (fun e => eventType e = START /\ length (outputs e) = 1%nat) (starts ev).
Proof.
  unfold parse_run. intros H.
  bind_inv H. rename a into results. bind_inv H. rename a into records.
  bind_inv H. destruct a as [runs w1]. bind_inv H. injection H as <- _.
  destruct (assemble_runs_outputs _ _ _ _ _ _ _ _ E1) as [Hout Hlen].
  exists results, records, runs, w1. repeat (split; [assumption |]).
  eapply (for_each_invariant
            (fun acc => Forall (fun e => eventType e = START /\ length (outputs e) = 1%nat)
                          (starts acc))); [| | exact E2].
  - intros s run s' Hin Hs Hstep.
    apply collect_starts in Hstep as [-> | (r & Hr & ->)]; [exact Hs |].
    apply Forall_app. split; [exact Hs |]. constructor; [| constructor].
    rewrite Forall_forall in Hout. apply list_elem_of_In in Hin.
    destruct (Hout run Hin) as [node Hnode].
    destruct (start_outputs self run r Hr) as (_ & Hst & _ & Hlen1).
    split; [exact Hst | apply Hlen1; rewrite Hnode; discriminate].
  - constructor.
Qed.

(** The run of [customers] from its documents, without a catalog: a
    start event and a complete event with the same run id, whose output
    has the schema of the manifest.  The job name keeps what follows the
    prefix "model." in the unique id, the project name included. *)
Example customers_run_events :
  exists s c w,
    parse_run acme customers_manifest (customers_results "success") JNull
      [("model.proj.customers", customers_metadata)] w0 = Ok (mkDbtEvents [s] [c] [], w) /\
    job_name_of (job s) = "db.public.proj.customers" /\ runId s = runId c /\
    eventTime s = FromArtifact (JStr "2021-01-01T00:00:01Z") /\
    eventTime c = FromArtifact (JStr "2021-01-01T00:01:00Z") /\
    map ds_name (inputs c) = ["db.raw.orders"] /\
    map (fun o => out_facets o !! "schema") (outputs c)
    = [Some (SchemaDatasetFacet [mkSchemaField (JStr "id") (JStr "int") JNull])].
Proof.
  destruct (parse_run acme customers_manifest (customers_results "success") JNull
              [("model.proj.customers", customers_metadata)] w0) as [[[ss cs fs] w] | e |] eqn:E;
    [| vm_compute in E; discriminate..].
  vm_compute in E. injection E as <- <- <- <-.
  do 3 eexists. repeat split; reflexivity.
Qed.

(** The run of [customers]: one start event, with one output dataset. *)
Lemma assembled_runs_have_output_witness :
  exists ev w',
    parse_run acme customers_manifest (customers_results "success") JNull
      [("model.proj.customers", customers_metadata)] w0 = Ok (ev, w') /\
    map (fun e => length (outputs e)) (starts ev) = [1%nat] /\
    Forall (fun e => eventType e = START /\ length (outputs e) = 1%nat) (starts ev).
Proof.
  destruct (parse_run acme customers_manifest (customers_results "success") JNull
              [("model.proj.customers", customers_metadata)] w0) as [[ev w'] | e |] eqn:E;
    [| vm_compute in E; discriminate..].
  exists ev, w'. split; [reflexivity |]. split.
  - vm_compute in E. injection E as <- <-. reflexivity.
  - destruct (assembled_runs_have_output _ _ _ _ _ _ _ _ E) as (? & ? & ? & ? & _ & _ & _ & _ & _ & H).
    exact H.
Defined.

(** ** Namespaces *)

(** C8.  The namespace of a profile is a function of the profile alone:
    "snowflake://" followed by the account for a snowflake profile, the
    literal "bigquery" for a bigquery profile, and the error of an
    unsupported adapter for any other type, which is also how the
    resolution of the dataset namespace and of the job namespace end
    then.  When the profile resolves, the dataset namespace is that
    namespace, and the job namespace is the value of
    [OPENLINEAGE_NAMESPACE] when the variable is set and that namespace
    when it is not. *)
Theorem namespace_resolution (self : Processor) (environ : gmap string string)
    (profile type : json) :
  getitem profile "type" = Ok type ->
  (type = JStr "snowflake" ->
     forall account text,
       getitem profile "account" = Ok account -> py_str account = Ok text ->
       extract_namespace profile = Ok ("snowflake://" ++ text)%string) /\
  (type = JStr "bigquery" -> extract_namespace profile = Ok "bigquery") /\
  (type <> JStr "snowflake" -> type <> JStr "bigquery" ->
     extract_namespace profile = Raise NotImplementedError /\
     extract_dataset_namespace self profile = Raise NotImplementedError /\
     extract_job_namespace self environ profile = Raise NotImplementedError) /\
  (forall ns, extract_namespace profile = Ok ns ->
     (exists p, extract_dataset_namespace self profile = Ok p /\
                dataset_namespace p = ns /\ job_namespace p = job_namespace self) /\
     (exists p, extract_job_namespace self environ profile = Ok p /\
                dataset_namespace p = dataset_namespace self /\
                job_namespace p = match environ !! "OPENLINEAGE_NAMESPACE" with
                                  | Some override => override
                                  | None => ns
                                  end)).
Proof.
  intros Htype. split; [| split; [| split]].
  - intros -> account text Ha Ht. unfold extract_namespace.
    rewrite Htype. cbn [bind]. cbn. rewrite Ha. cbn [bind]. rewrite Ht. reflexivity.
  - intros ->. unfold extract_namespace. rewrite Htype. reflexivity.
  - intros Hs Hb.
    assert (H : extract_namespace profile = Raise NotImplementedError).
    { unfold extract_namespace. rewrite Htype. cbn [bind].
      destruct (eq_str type "snowflake") eqn:E1; [apply eq_str_true in E1; contradiction |].
      destruct (eq_str type "bigquery") eqn:E2; [apply eq_str_true in E2; contradiction |].
      reflexivity. }
    unfold extract_dataset_namespace, extract_job_namespace. rewrite H. auto.
  - intros ns H. unfold extract_dataset_namespace, extract_job_namespace. rewrite H. cbn [bind].
    split; eexists; (split; [reflexivity |]); cbn; split; reflexivity.
Qed.

(** A snowflake profile, with and without the override. *)
Lemma namespace_resolution_witness :
  extract_namespace snowflake_profile = Ok "snowflake://acme.eu-west-1" /\
  extract_namespace bigquery_profile = Ok "bigquery" /\
  extract_namespace mysql_profile = Raise NotImplementedError /\
  (exists p, extract_job_namespace acme {["OPENLINEAGE_NAMESPACE" := "staging"]} snowflake_profile
               = Ok p /\ job_namespace p = "staging") /\
  (exists p, extract_job_namespace acme ∅ snowflake_profile = Ok p /\
             job_namespace p = "snowflake://acme.eu-west-1").
Proof.
  pose proof (namespace_resolution acme {["OPENLINEAGE_NAMESPACE" := "staging"]}
                snowflake_profile (JStr "snowflake") eq_refl) as (Hs & _ & _ & Hjob).
  pose proof (namespace_resolution acme ∅ snowflake_profile (JStr "snowflake") eq_refl)
    as (_ & _ & _ & Hjob0).
  pose proof (namespace_resolution acme ∅ bigquery_profile (JStr "bigquery") eq_refl)
    as (_ & Hb & _ & _).
  pose proof (namespace_resolution acme ∅ mysql_profile (JStr "mysql") eq_refl)
    as (_ & _ & Hm & _).
  pose proof (Hs eq_refl (JStr "acme.eu-west-1") "acme.eu-west-1" eq_refl eq_refl) as Hns.
  split; [exact Hns |]. split; [exact (Hb eq_refl) |].
  split; [apply Hm; discriminate |].
  split.
  - destruct (Hjob _ Hns) as [_ (p & Hp & _ & Hj)]. exists p. split; [exact Hp |].
    rewrite Hj. reflexivity.
  - destruct (Hjob0 _ Hns) as [_ (p & Hp & _ & Hj)]. exists p. split; [exact Hp |].
    rewrite Hj. reflexivity.
Defined.

(** * Further properties of the processor *)

(** ** [removeprefix] *)

Lemma substring_all (s : string) : String.substring 0 (String.length s) s = s.
Proof. induction s as [| c s IH]; simpl; [reflexivity | rewrite IH; reflexivity]. Qed.

Lemma substring_skip (p s : string) (n : nat) :
  String.substring (String.length p) n (p ++ s)%string = String.substring 0 n s.
Proof.
  induction p as [| c p IH]; [reflexivity |].
  change (String.substring (String.length p) n (p ++ s)%string = String.substring 0 n s).
  exact IH.
Qed.

Lemma string_length_append (p s : string) :
  String.length (p ++ s)%string = (String.length p + String.length s)%nat.
Proof.
  induction p as [| c p IH]; [reflexivity |].
  change (S (String.length (p ++ s)%string) = S (String.length p + String.length s)).
  rewrite IH. reflexivity.
Qed.

Lemma prefix_empty (s : string) : String.prefix "" s = true.
Proof. destruct s; reflexivity. Qed.

Lemma prefix_append (p s : string) : String.prefix p (p ++ s)%string = true.
Proof.
  induction p as [| c p IH]; [apply prefix_empty |].
  change (String.prefix (String c p) (String c (p ++ s)%string) = true).
  cbn [String.prefix]. destruct (ascii_dec c c); [exact IH | contradiction].
Qed.

Lemma prefix_split (p t : string) :
  String.prefix p t = true ->
  t = (p ++ String.substring (String.length p) (String.length t - String.length p) t)%string.
Proof.
  revert t. induction p as [| c p IH]; intros t H.
  - cbn [String.length]. rewrite Nat.sub_0_r, substring_all. reflexivity.
  - destruct t as [| d t]; [discriminate |]. cbn [String.prefix] in H.
    destruct (ascii_dec c d) as [-> |]; [| discriminate].
    cbn [String.length String.substring Nat.sub].
    change (String d t = String d (p ++ String.substring (String.length p)
                                     (String.length t - String.length p) t)%string).
    f_equal. exact (IH t H).
Qed.

Lemma removeprefix_cases (p : string) :
  (forall s, removeprefix (JStr (p ++ s)) p = Ok s) /\
  (forall t, exists r,
     removeprefix (JStr t) p = Ok r /\
     (if String.prefix p t then t = (p ++ r)%string else r = t)).
Proof.
  split.
  - intros s. unfold removeprefix. cbn [startswith bind]. rewrite prefix_append.
    rewrite substring_skip, string_length_append.
    replace (String.length p + String.length s - String.length p)%nat
      with (String.length s) by lia.
    rewrite substring_all. reflexivity.
  - intros t. unfold removeprefix. cbn [startswith bind].
    destruct (String.prefix p t) eqn:E; eexists; (split; [reflexivity |]).
    + exact (prefix_split p t E).
    + reflexivity.
Qed.

(** X1.  [removeprefix] takes a prefix off and puts nothing else in its
    place: on a string that starts with the prefix the result is the
    rest of the string, so that prefix and result give the string back;
    a string that does not start with it comes back unchanged; anything
    that is not a string raises [AttributeError]. *)
Theorem removeprefix_round_trip (p : string) :
  (forall s, removeprefix (JStr (p ++ s)) p = Ok s) /\
  (forall t, exists r,
     removeprefix (JStr t) p = Ok r /\
     (if String.prefix p t then t = (p ++ r)%string else r = t)) /\
  (forall v, (forall t, v <> JStr t) -> removeprefix v p = Raise AttributeError).
Proof.
  split; [exact (proj1 (removeprefix_cases p)) |].
  split; [exact (proj2 (removeprefix_cases p)) |].
  - intros v Hv. destruct v; try reflexivity. exfalso. exact (Hv s eq_refl).
Qed.

Lemma removeprefix_round_trip_witness :
  removeprefix (JStr "model.proj.customers") "model." = Ok "proj.customers" /\
  removeprefix (JNull) "model." = Raise AttributeError.
Proof.
  destruct (removeprefix_round_trip "model.") as (H1 & _ & H3).
  split; [exact (H1 "proj.customers") | apply H3; discriminate].
Defined.

(** ** [get_timings] *)

Lemma filter_list_app {A : Type} (pred : A -> result bool) (xs ys : list A) :
  filter_list pred (xs ++ ys)
  = let* a := filter_list pred xs in let* b := filter_list pred ys in Ok (a ++ b).
Proof.
  induction xs as [| x xs IH]; cbn [filter_list app].
  - destruct (filter_list pred ys); reflexivity.
  - destruct (pred x) as [keep | |]; cbn [bind]; [| reflexivity..].
    rewrite IH. destruct (filter_list pred xs) as [a | |]; cbn [bind]; [| reflexivity..].
    destruct (filter_list pred ys) as [b | |]; cbn [bind]; [| reflexivity..].
    destruct keep; reflexivity.
Qed.

Lemma filter_list_none {A : Type} (pred : A -> result bool) (xs : list A) :
  Forall (fun x => pred x = Ok false) xs -> filter_list pred xs = Ok [].
Proof.
  induction 1 as [| x xs Hx _ IH]; cbn [filter_list]; [reflexivity |].
  rewrite Hx, IH. reflexivity.
Qed.

Lemma filter_list_total {A : Type} (pred : A -> result bool) (xs : list A) :
  Forall (fun x => exists b, pred x = Ok b) xs -> exists l, filter_list pred xs = Ok l.
Proof.
  induction 1 as [| x xs [b Hx] _ [l IH]]; cbn [filter_list]; [eauto |].
  rewrite Hx, IH. cbn. eauto.
Qed.

(** X2.  When no timing entry is named "execute" (a run that failed
    before it ran has none at all), [get_timings] reads the clock once
    and gives that one reading as both the start and the end of the
    run. *)
Theorem get_timings_fallback (entries : list json) (w : world) :
  Forall (fun x => exists n, getitem x "name" = Ok n /\ eq_str n "execute" = false) entries ->
  get_timings (JList entries) w
  = Ok (WallClock (clock_reads w), WallClock (clock_reads w),
        mkWorld (S (clock_reads w)) (uuids_drawn w)).
Proof.
  intros H. unfold get_timings. cbn [py_iter bind].
  rewrite filter_list_none; [reflexivity |].
  eapply Forall_impl; [exact H |].
  intros x (n & Hn & Hne). cbn beta. rewrite Hn. cbn [bind]. rewrite Hne. reflexivity.
Qed.

Lemma get_timings_fallback_witness :
  get_timings (JList []) w0 = Ok (WallClock 0, WallClock 0, mkWorld 1 0) /\
  get_timings (JList [JObj [("name", JStr "compile"); ("started_at", JStr "t0");
                            ("completed_at", JStr "t1")]]) w0
  = Ok (WallClock 0, WallClock 0, mkWorld 1 0).
Proof.
  split.
  - apply (get_timings_fallback [] w0). constructor.
  - apply (get_timings_fallback _ w0). constructor; [| constructor].
    exists (JStr "compile"). split; reflexivity.
Defined.

(** X3.  When the timing entries all have a name, the first one named
    "execute" gives the start and the end of the run, entries before and
    after it change nothing, and the clock is not read.  The filter goes
    through the whole list first: an entry without a name anywhere in
    it, also after the execute entry, makes [get_timings] raise what the
    lookup of its name raises. *)
Theorem get_timings_execute (before after : list json) (timing : json) (w : world) :
  Forall (fun x => exists n, getitem x "name" = Ok n /\ eq_str n "execute" = false) before ->
  getitem timing "name" = Ok (JStr "execute") ->
  (Forall (fun x => exists n, getitem x "name" = Ok n) after ->
   get_timings (JList (before ++ timing :: after)) w
   = let* s := getitem timing "started_at" in
     let* c := getitem timing "completed_at" in
     Ok (FromArtifact s, FromArtifact c, w)) /\
  (forall good bad rest e,
     after = good ++ bad :: rest ->
     Forall (fun x => exists n, getitem x "name" = Ok n) good ->
     getitem bad "name" = Raise e ->
     get_timings (JList (before ++ timing :: after)) w = Raise e).
Proof.
  intros Hbefore Htiming.
  assert (Hb : filter_list (fun x => let* n := getitem x "name" in Ok (eq_str n "execute")) before
               = Ok []).
  { apply filter_list_none. eapply Forall_impl; [exact Hbefore |].
    intros x (n & Hn & Hne). cbn beta. rewrite Hn. cbn [bind]. rewrite Hne. reflexivity. }
  assert (Hnamed : forall l, Forall (fun x => exists n, getitem x "name" = Ok n) l ->
            exists kept, filter_list
              (fun x => let* n := getitem x "name" in Ok (eq_str n "execute")) l = Ok kept).
  { intros l Hl. apply filter_list_total. eapply Forall_impl; [exact Hl |].
    intros x [n Hn]. cbn beta. rewrite Hn. cbn. eauto. }
  split.
  - intros Hafter. destruct (Hnamed after Hafter) as [kept Hkept].
    unfold get_timings. cbn [py_iter bind].
    rewrite filter_list_app, Hb. cbn [bind filter_list]. rewrite Htiming. cbn [bind eq_str].
    rewrite Hkept. cbn [bind]. reflexivity.
  - intros good bad rest e -> Hgood Hbad. destruct (Hnamed good Hgood) as [kept Hkept].
    unfold get_timings. cbn [py_iter bind].
    rewrite filter_list_app, Hb. cbn [bind filter_list]. rewrite Htiming. cbn [bind eq_str].
    rewrite filter_list_app, Hkept. cbn [bind filter_list]. rewrite Hbad. reflexivity.
Qed.

Lemma get_timings_execute_witness :
  get_timings
    (JList [JObj [("name", JStr "compile"); ("started_at", JStr "t0"); ("completed_at", JStr "t1")];
            JObj [("name", JStr "execute"); ("started_at", JStr "t1"); ("completed_at", JStr "t2")];
            JObj [("name", JStr "execute"); ("started_at", JStr "t3"); ("completed_at", JStr "t4")]])
    w0
  = Ok (FromArtifact (JStr "t1"), FromArtifact (JStr "t2"), w0) /\
  get_timings
    (JList [JObj [("name", JStr "execute"); ("started_at", JStr "t1"); ("completed_at", JStr "t2")];
            JObj [("started_at", JStr "t3")]])
    w0
  = Raise KeyError.
Proof.
  split.
  - refine (proj1 (get_timings_execute
      [JObj [("name", JStr "compile"); ("started_at", JStr "t0"); ("completed_at", JStr "t1")]]
      [JObj [("name", JStr "execute"); ("started_at", JStr "t3"); ("completed_at", JStr "t4")]]
      (JObj [("name", JStr "execute"); ("started_at", JStr "t1"); ("completed_at", JStr "t2")])
      w0 _ eq_refl) _).
    + constructor; [| constructor]. exists (JStr "compile"). split; reflexivity.
    + constructor; [| constructor]. exists (JStr "execute"). reflexivity.
  - refine (proj2 (get_timings_execute [] [JObj [("started_at", JStr "t3")]]
      (JObj [("name", JStr "execute"); ("started_at", JStr "t1"); ("completed_at", JStr "t2")])
      w0 _ eq_refl) [] (JObj [("started_at", JStr "t3")]) [] KeyError eq_refl _ eq_refl);
      constructor.
Defined.

(** ** Schema fields *)

Lemma catalog_field_dict (d : list (string * json)) :
  catalog_field (JObj d)
  = match dict_get "name" d with
    | Some name =>
        Ok (mkSchemaField name (default JNull (dict_get "type" d))
              (default JNull (dict_get "column" d)))
    | None => Raise KeyError
    end.
Proof.
  unfold catalog_field, getitem, py_in, subscript.
  destruct (dict_get "type" d) as [[] |], (dict_get "column" d) as [[] |],
    (dict_get "name" d); reflexivity.
Qed.

Lemma metadata_field_dict (d : list (string * json)) :
  metadata_field (JObj d)
  = match dict_get "name" d with
    | Some name => Ok (mkSchemaField name (default JNull (dict_get "data_type" d)) JNull)
    | None => Raise KeyError
    end.
Proof.
  unfold metadata_field, getitem, py_in, subscript.
  destruct (dict_get "data_type" d) as [[] |], (dict_get "name" d); reflexivity.
Qed.

Lemma traverse_map_Ok {A B : Type} (f : A -> result B) (g : A -> B) (xs : list A) :
  Forall (fun x => f x = Ok (g x)) xs -> traverse f xs = Ok (map g xs).
Proof.
  induction 1 as [| x xs Hx _ IH]; cbn [traverse map]; [reflexivity |].
  rewrite Hx, IH. reflexivity.
Qed.

Lemma traverse_map {A B C : Type} (f : B -> result C) (h : A -> B) (xs : list A) :
  traverse f (map h xs) = traverse (fun x => f (h x)) xs.
Proof.
  induction xs as [| x xs IH]; cbn [traverse map]; [reflexivity |]. rewrite IH. reflexivity.
Qed.

Lemma traverse_raise {A B : Type} (f : A -> result B) (good rest : list A) (bad : A) (e : exn) :
  Forall (fun x => exists y, f x = Ok y) good -> f bad = Raise e ->
  traverse f (good ++ bad :: rest) = Raise e.
Proof.
  intros Hgood Hbad. induction Hgood as [| x xs [y Hy] _ IH]; cbn [traverse app].
  - rewrite Hbad. reflexivity.
  - rewrite Hy, IH. reflexivity.
Qed.

(** X4.  The schema fields of a list of column dicts keep the columns'
    number and order.  From the catalog a field has the column's [name],
    its [type] and, as description, what the column has under the key
    [column]; from the manifest it has the [name] and the [data_type] and
    no description.  A key that is missing and a key that holds [None]
    both give [None].  A column without a [name] makes the extraction
    raise [KeyError], whatever the columns after it hold. *)
Theorem schema_fields_of_columns (columns : list (list (string * json))) :
  (Forall (fun d => is_Some (dict_get "name" d)) columns ->
   extract_catalog_fields (map JObj columns)
   = Ok (map (fun d => mkSchemaField (default JNull (dict_get "name" d))
                         (default JNull (dict_get "type" d))
                         (default JNull (dict_get "column" d))) columns) /\
   extract_metadata_fields (map JObj columns)
   = Ok (map (fun d => mkSchemaField (default JNull (dict_get "name" d))
                         (default JNull (dict_get "data_type" d)) JNull) columns)) /\
  (forall good bad rest,
     columns = good ++ bad :: rest ->
     Forall (fun d => is_Some (dict_get "name" d)) good ->
     dict_get "name" bad = None ->
     extract_catalog_fields (map JObj columns) = Raise KeyError /\
     extract_metadata_fields (map JObj columns) = Raise KeyError).
Proof.
  split.
  - intros H. unfold extract_catalog_fields, extract_metadata_fields.
    rewrite !traverse_map. split; apply traverse_map_Ok;
      (eapply Forall_impl; [exact H |]); intros d [name Hname]; cbn beta.
    + rewrite catalog_field_dict, Hname. reflexivity.
    + rewrite metadata_field_dict, Hname. reflexivity.
  - intros good bad rest -> Hgood Hbad.
    unfold extract_catalog_fields, extract_metadata_fields.
    rewrite !traverse_map.
    split; apply traverse_raise.
    + eapply Forall_impl; [exact Hgood |]. intros d [name Hname].
      cbn beta. rewrite catalog_field_dict, Hname. eauto.
    + rewrite catalog_field_dict, Hbad. reflexivity.
    + eapply Forall_impl; [exact Hgood |]. intros d [name Hname].
      cbn beta. rewrite metadata_field_dict, Hname. eauto.
    + rewrite metadata_field_dict, Hbad. reflexivity.
Qed.

Lemma schema_fields_of_columns_witness :
  extract_catalog_fields
    [JObj [("name", JStr "id"); ("type", JStr "NUMBER"); ("comment", JStr "the key")];
     JObj [("name", JStr "email"); ("type", JNull); ("column", JStr "contact")]]
  = Ok [mkSchemaField (JStr "id") (JStr "NUMBER") JNull;
        mkSchemaField (JStr "email") JNull (JStr "contact")] /\
  extract_metadata_fields [JObj [("name", JStr "id")]; JObj [("data_type", JStr "int")]]
  = Raise KeyError.
Proof.
  split.
  - refine (proj1 (proj1 (schema_fields_of_columns
      [[("name", JStr "id"); ("type", JStr "NUMBER"); ("comment", JStr "the key")];
       [("name", JStr "email"); ("type", JNull); ("column", JStr "contact")]]) _)).
    repeat constructor; eexists; reflexivity.
  - refine (proj2 (proj2 (schema_fields_of_columns
      [[("name", JStr "id")]; [("data_type", JStr "int")]])
      [[("name", JStr "id")]] [("data_type", JStr "int")] [] eq_refl _ eq_refl)).
    repeat constructor; eexists; reflexivity.
Defined.

(** ** Datasets *)

(** X5.  With full facets a dataset gets exactly two facets: the data
    source, named by the dataset namespace, and the schema.  The schema
    is the catalog's when the node has a catalog entry and the
    manifest's otherwise; the columns of the manifest are read and
    extracted in both cases, so a node is only translated when they are
    in order.  The name of the dataset is [database.schema.name] of the
    manifest entry. *)
Theorem full_facets_of_node (self : Processor) (node : ModelNode)
    (ns name : string) (facets : gmap string facet) :
  extract_dataset_data self node true = Ok (ns, name, facets) ->
  exists columns values declared fields database schema table,
    getitem (metadata_node node) "columns" = Ok columns /\
    py_values columns = Ok values /\
    extract_metadata_fields values = Ok declared /\
    (if truthy (catalog_node node)
     then exists columns values,
            getitem (catalog_node node) "columns" = Ok columns /\
            py_values columns = Ok values /\
            extract_catalog_fields values = Ok fields
     else fields = declared) /\
    (let* v := getitem (metadata_node node) "database" in py_str v) = Ok database /\
    (let* v := getitem (metadata_node node) "schema" in py_str v) = Ok schema /\
    (let* v := getitem (metadata_node node) "name" in py_str v) = Ok table /\
    ns = dataset_namespace self /\
    name = dotted database schema table /\
    facets = <["schema" := SchemaDatasetFacet fields]>
               {["dataSource" := DataSourceDatasetFacet ns ns]}.
Proof.
  unfold extract_dataset_data. intros H.
  bind_inv H. bind_inv E. rename a0 into columns, E0 into Hcols.
  bind_inv E. rename a0 into values, E0 into Hvals.
  bind_inv E. rename a0 into declared, E0 into Hdecl.
  bind_inv H. rename a0 into vd. bind_inv H. rename a0 into database.
  bind_inv H. rename a0 into vs. bind_inv H. rename a0 into schema.
  bind_inv H. rename a0 into vn. bind_inv H. rename a0 into table.
  injection H as <- <- <-.
  assert (Htext : forall k v s,
            getitem (metadata_node node) k = Ok v -> py_str v = Ok s ->
            (let* v := getitem (metadata_node node) k in py_str v) = Ok s).
  { intros k v s -> Hs. exact Hs. }
  destruct (truthy (catalog_node node)) eqn:Hcat.
  - bind_inv E. rename a0 into ccols. bind_inv E. rename a0 into cvals.
    bind_inv E. rename a0 into cfields. injection E as <-.
    exists columns, values, declared, cfields, database, schema, table.
    do 3 (split; [assumption |]). split; [exists ccols, cvals; auto |].
    do 3 (split; [eauto |]). split; [reflexivity |]. split; [reflexivity |].
    rewrite insert_insert_eq. reflexivity.
  - injection E as <-.
    exists columns, values, declared, declared, database, schema, table.
    do 3 (split; [assumption |]). split; [reflexivity |].
    do 3 (split; [eauto |]). split; [reflexivity |]. split; reflexivity.
Qed.

Lemma full_facets_of_node_witness :
  exists name facets,
    extract_dataset_data acme rows_only_node true = Ok ("snowflake://acme", name, facets) /\
    name = "db.public.customers" /\
    facets !! "schema"
    = Some (SchemaDatasetFacet [mkSchemaField (JStr "id") (JStr "NUMBER") JNull]).
Proof.
  destruct (extract_dataset_data acme rows_only_node true) as [[[ns name] facets] | e |] eqn:E;
    [| vm_compute in E; discriminate..].
  destruct (full_facets_of_node acme rows_only_node ns name facets E)
    as (columns & values & declared & fields & database & schema & table &
        _ & _ & _ & Hfields & Hd & Hs & Ht & -> & -> & ->).
  cbn in Hfields. destruct Hfields as (ccols & cvals & Hc & Hv & Hf).
  vm_compute in Hc. injection Hc as <-. vm_compute in Hv. injection Hv as <-.
  vm_compute in Hf. injection Hf as <-.
  vm_compute in Hd, Hs, Ht. injection Hd as <-. injection Hs as <-. injection Ht as <-.
  eexists _, _. split; [exact E |]. split; [reflexivity |].
  apply lookup_insert_eq.
Defined.

(** X6.  An output dataset is the dataset of the same node with output
    facets beside it: namespace, name and facets are those
    [node_to_dataset] gives, and when the dataset cannot be built the
    output dataset fails the same way.  The output facets are empty
    without full facets or without a catalog entry, and never hold
    anything but the output statistics. *)
Theorem output_dataset_agrees (self : Processor) (node : ModelNode) (has_facets : bool) :
  (forall o, node_to_output_dataset self node has_facets = Ok o ->
     node_to_dataset self node has_facets
     = Ok (mkDataset (out_namespace o) (out_name o) (out_facets o)) /\
     out_namespace o = dataset_namespace self /\
     (has_facets && truthy (catalog_node node) = false -> out_outputFacets o = ∅) /\
     (forall k, k <> "outputStatistics" -> out_outputFacets o !! k = None)) /\
  (forall e, node_to_dataset self node has_facets = Raise e ->
     node_to_output_dataset self node has_facets = Raise e).
Proof.
  unfold node_to_output_dataset, node_to_dataset. split.
  - intros o H. bind_inv H. destruct a as [[ns name] facets]. bind_inv H.
    injection H as <-. rewrite E. cbn.
    assert (Hns : ns = dataset_namespace self).
    { destruct has_facets.
      - apply extract_dataset_data_full in E. tauto.
      - apply extract_dataset_data_plain in E. tauto. }
    split; [reflexivity |]. split; [exact Hns |].
    destruct (has_facets && truthy (catalog_node node)).
    + bind_inv E0. split; [discriminate |].
      destruct (truthy (get_from_multiple_chains (catalog_node node) rows_chains)).
      * bind_inv E0. injection E0 as <-. intros k Hk.
        rewrite lookup_insert_ne by congruence. apply lookup_empty.
      * injection E0 as <-. intros k _. apply lookup_empty.
    + injection E0 as <-. split; [reflexivity |]. intros k _. apply lookup_empty.
  - intros e H. destruct (extract_dataset_data self node has_facets) as [[[ns name] facets] | e' |];
      cbn in *; [discriminate | injection H as ->; reflexivity | discriminate].
Qed.

Lemma output_dataset_agrees_witness :
  exists o,
    node_to_output_dataset acme rows_only_node true = Ok o /\
    node_to_dataset acme rows_only_node true
    = Ok (mkDataset "snowflake://acme" (out_name o) (out_facets o)).
Proof.
  destruct (node_to_output_dataset acme rows_only_node true) as [o | e |] eqn:E;
    [| vm_compute in E; discriminate..].
  destruct (proj1 (output_dataset_agrees acme rows_only_node true) o E) as (H & Hns & _).
  exists o. split; [reflexivity |]. rewrite H, Hns. reflexivity.
Defined.

(** ** The loop that collects the events of the runs *)

Lemma for_each_prefix_invariant {A S : Type} (P : list A -> S -> Prop)
    (body : S -> A -> result S) (xs : list A) (acc r : S) :
  P [] acc ->
  (forall done x s s', P done s -> body s x = Ok s' -> P (done ++ [x]) s') ->
  for_each body acc xs = Ok r -> P xs r.
Proof.
  intros Hacc Hstep.
  assert (Hgen : forall xs done acc r,
            P done acc -> for_each body acc xs = Ok r -> P (done ++ xs) r).
  { clear xs acc r Hacc. induction xs as [| x xs IH]; cbn [for_each]; intros done acc r Hd H.
    - injection H as <-. rewrite app_nil_r. exact Hd.
    - bind_inv H. replace (done ++ x :: xs) with ((done ++ [x]) ++ xs)
        by (rewrite <- app_assoc; reflexivity).
      apply (IH _ a); eauto. }
  intros H. exact (Hgen xs [] acc r Hacc H).
Qed.

(** What one run adds to the lists of events. *)
Lemma collect_step (self : Processor) (acc acc' : DbtEvents) (run : DbtRun) :
  collect self acc run = Ok acc' ->
  (translates self run = false /\ acc' = acc) \/
  (translates self run = true /\
   exists r, _to_openlineage_events self run = Ok (Some r) /\
     starts acc' = starts acc ++ [start r] /\
     completes acc' = completes acc ++ option_list (complete r) /\
     fails acc' = fails acc ++ match complete r with Some _ => [] | None => option_list (fail r) end).
Proof.
  unfold collect, to_openlineage_events, translates. intros H.
  destruct (_to_openlineage_events self run) as [[r |] | e |]; cbn [bind] in H.
  - right. split; [reflexivity |]. exists r. split; [reflexivity |].
    destruct (complete r), (fail r); injection H as <-; cbn; rewrite ?app_nil_r; auto.
  - left. injection H as <-. auto.
  - left. destruct (skip_errors self); [injection H as <-; auto | discriminate].
  - discriminate.
Qed.

(** X7.  The loop of [parse_run] over the assembled runs, under the two
    settings of [skip_errors].  With the flag no run makes the loop
    raise, and when every run stays within the embedding the loop ends
    with one start event for each run that the event builder translates,
    the others being dropped.  Without the flag the loop only ends when
    the event builder returned for every run, and a run it raises on
    ends the loop with that error wrapped in a [ValueError]. *)
Theorem collect_under_skip_errors (self : Processor) (runs : list DbtRun) (acc : DbtEvents) :
  (skip_errors self = true ->
     (forall e, for_each (collect self) acc runs <> Raise e) /\
     (Forall (fun run => _to_openlineage_events self run <> Unmodelled) runs ->
      exists ev, for_each (collect self) acc runs = Ok ev /\
        length (starts ev)
        = (length (starts acc) + length (List.filter (translates self) runs))%nat)) /\
  (skip_errors self = false ->
     (forall ev, for_each (collect self) acc runs = Ok ev ->
        Forall (fun run => exists o, _to_openlineage_events self run = Ok o) runs) /\
     (forall before run after e ev,
        runs = before ++ run :: after ->
        for_each (collect self) acc before = Ok ev ->
        _to_openlineage_events self run = Raise e ->
        for_each (collect self) acc runs = Raise (ValueErrorOf e))).
Proof.
  split.
  - intros Hflag. split.
    + revert acc. induction runs as [| run runs IH]; cbn [for_each]; intros acc e;
        [discriminate |].
      destruct (collect self acc run) as [acc' | e' |] eqn:E; cbn [bind]; [apply IH | | discriminate].
      unfold collect, to_openlineage_events in E. rewrite Hflag in E.
      destruct (_to_openlineage_events self run) as [[r |] | e'' |]; cbn [bind] in E;
        try discriminate.
      destruct (complete r), (fail r); discriminate.
    + intros Hmodelled. revert acc.
      induction Hmodelled as [| run runs Hrun _ IH]; cbn [for_each List.filter]; intros acc.
      * exists acc. split; [reflexivity | cbn; lia].
      * destruct (_to_openlineage_events self run) as [[r |] | e |] eqn:E; [| | | contradiction].
        -- assert (Ht : translates self run = true) by (unfold translates; rewrite E; reflexivity).
           rewrite Ht. unfold collect at 1, to_openlineage_events. rewrite E. cbn [bind].
           destruct (complete r), (fail r); cbn [bind];
             match goal with
             | |- context [for_each _ ?a runs] => destruct (IH a) as (ev & Hev & Hlen)
             end;
             exists ev; (split; [exact Hev |]); rewrite Hlen; cbn [starts length];
             rewrite length_app; cbn [length]; lia.
        -- assert (Ht : translates self run = false) by (unfold translates; rewrite E; reflexivity).
           rewrite Ht. unfold collect at 1, to_openlineage_events. rewrite E. cbn [bind].
           apply IH.
        -- assert (Ht : translates self run = false) by (unfold translates; rewrite E; reflexivity).
           rewrite Ht. unfold collect at 1, to_openlineage_events. rewrite E, Hflag. cbn [bind].
           apply IH.
  - intros Hflag. split.
    + revert acc. induction runs as [| run runs IH]; cbn [for_each]; intros acc ev H;
        [constructor |].
      bind_inv H. constructor; [| exact (IH _ _ H)].
      unfold collect, to_openlineage_events in E. rewrite Hflag in E.
      destruct (_to_openlineage_events self run) as [o | e |]; [eauto | discriminate..].
    + intros before run after e ev -> Hbefore Hrun.
      rewrite for_each_app, Hbefore. cbn [bind for_each].
      unfold collect, to_openlineage_events. rewrite Hrun, Hflag. reflexivity.
Qed.

Lemma collect_under_skip_errors_witness :
  (exists ev,
     for_each (collect (mkProcessor "p" "analytics" "snowflake://acme" true))
       (mkDbtEvents [] [] [])
       [customers_run (JStr "running") (Some rows_only_node);
        customers_run (JStr "success") (Some rows_only_node)] = Ok ev /\
     length (starts ev) = 1%nat) /\
  for_each (collect acme) (mkDbtEvents [] [] [])
    [customers_run (JStr "running") (Some rows_only_node);
     customers_run (JStr "success") (Some rows_only_node)]
  = Raise (ValueErrorOf (ValueError "run status")).
Proof.
  split.
  - destruct (proj1 (collect_under_skip_errors
                       (mkProcessor "p" "analytics" "snowflake://acme" true)
                       [customers_run (JStr "running") (Some rows_only_node);
                        customers_run (JStr "success") (Some rows_only_node)]
                       (mkDbtEvents [] [] [])) eq_refl) as [_ H].
    destruct H as (ev & Hev & Hlen).
    + repeat constructor; vm_compute; discriminate.
    + exists ev. split; [exact Hev |]. rewrite Hlen. vm_compute. reflexivity.
  - refine (proj2 (proj2 (collect_under_skip_errors acme _ (mkDbtEvents [] [] [])) eq_refl)
              [] (customers_run (JStr "running") (Some rows_only_node))
              [customers_run (JStr "success") (Some rows_only_node)]
              (ValueError "run status") (mkDbtEvents [] [] []) eq_refl eq_refl _).
    vm_compute. reflexivity.
Defined.

(** ** Assembling the runs *)

Lemma get_timings_effects (timings : json) (w w' : world) (s c : timestamp) :
  get_timings timings w = Ok (s, c, w') ->
  uuids_drawn w' = uuids_drawn w /\
  ((w' = w /\ exists vs vc, s = FromArtifact vs /\ c = FromArtifact vc) \/
   (clock_reads w' = S (clock_reads w) /\ s = WallClock (clock_reads w) /\ c = s)).
Proof.
  unfold get_timings. intros H. bind_inv H. bind_inv H.
  destruct a0 as [| timing executes].
  - cbn [now] in H. injection H as <- <- <-. cbn. auto.
  - bind_inv H. bind_inv H. injection H as <- <- <-. split; [reflexivity |]. left. eauto.
Qed.

Lemma assemble_run_effects (self : Processor) (manifest catalog : json)
    (nodes : list (string * json)) (record : json) (w w' : world) (run : DbtRun) :
  assemble_run self manifest catalog nodes record w = Ok (run, w') ->
  run_run_id run = Uuid4 (uuids_drawn w) /\
  uuids_drawn w' = S (uuids_drawn w) /\
  (clock_reads w <= clock_reads w' <= S (clock_reads w))%nat /\
  namespace run = dataset_namespace self /\
  getitem record "status" = Ok (status run).
Proof.
  unfold assemble_run. intros H.
  bind_inv H. bind_inv H. destruct a0 as [[s c] w1].
  apply get_timings_effects in E0 as [Hu Hc].
  repeat bind_inv H. cbn [uuid4] in H. injection H as <- <-. cbn.
  repeat split; try assumption; try congruence.
  - destruct Hc as [[-> _] | [-> _]]; lia.
  - destruct Hc as [[-> _] | [-> _]]; lia.
Qed.

Lemma assemble_runs_effects (self : Processor) (manifest catalog : json)
    (nodes : list (string * json)) (records : list json) (w w' : world) (runs : list DbtRun) :
  assemble_runs self manifest catalog nodes records w = Ok (runs, w') ->
  map run_run_id runs = map Uuid4 (seq (uuids_drawn w) (length records)) /\
  uuids_drawn w' = (uuids_drawn w + length records)%nat /\
  (clock_reads w <= clock_reads w' <= clock_reads w + length records)%nat /\
  Forall (fun run => namespace run = dataset_namespace self) runs /\
  Forall2 (fun record run => getitem record "status" = Ok (status run)) records runs.
Proof.
  unfold assemble_runs. intros H.
  pose (P := fun (done : list json) (acc : list DbtRun * world) =>
    map run_run_id (fst acc) = map Uuid4 (seq (uuids_drawn w) (length done)) /\
    uuids_drawn (snd acc) = (uuids_drawn w + length done)%nat /\
    (clock_reads w <= clock_reads (snd acc) <= clock_reads w + length done)%nat /\
    Forall (fun run => namespace run = dataset_namespace self) (fst acc) /\
    Forall2 (fun record run => getitem record "status" = Ok (status run)) done (fst acc)).
  change (P records (runs, w')).
  eapply for_each_prefix_invariant; [| | exact H].
  - unfold P. cbn. repeat split; try constructor; lia.
  - clear. intros done record [runs w1] [runs' w2] (H1 & H2 & H3 & H4 & H5) Hstep.
    bind_inv Hstep. destruct a as [run w3]. injection Hstep as <- <-.
    apply assemble_run_effects in E as (Hid & Hu & Hc & Hns & Hst).
    unfold P in *. cbn [fst snd] in *.
    rewrite !map_app, !length_app, seq_app, map_app. cbn [map length seq].
    rewrite H1, Hid, H2, Hu. repeat split; try lia.
    + apply Forall_app. split; [exact H4 | constructor; [exact Hns | constructor]].
    + apply Forall2_app; [exact H5 | constructor; [exact Hst | constructor]].
Qed.

(** X8.  [parse_run] assembles one run for each execution record, in
    the order of the records.  Each run is given a fresh run id, the
    next one of the generator, so no two runs of a parse share an id; it
    has the status of its record and the dataset namespace of the
    processor.  The clock is read at most once for a record. *)
Theorem assembled_runs_fresh_ids (self : Processor) (manifest catalog : json)
    (nodes : list (string * json)) (records : list json) (w w' : world) (runs : list DbtRun) :
  assemble_runs self manifest catalog nodes records w = Ok (runs, w') ->
  length runs = length records /\
  map run_run_id runs = map Uuid4 (seq (uuids_drawn w) (length records)) /\
  NoDup (map run_run_id runs) /\
  uuids_drawn w' = (uuids_drawn w + length records)%nat /\
  (clock_reads w <= clock_reads w' <= clock_reads w + length records)%nat /\
  Forall (fun run => namespace run = dataset_namespace self) runs /\
  Forall2 (fun record run => getitem record "status" = Ok (status run)) records runs.
Proof.
  intros H. apply assemble_runs_effects in H as (H1 & H2 & H3 & H4 & H5).
  split; [symmetry; exact (Forall2_length _ _ _ H5) |].
  split; [exact H1 |]. split; [| auto].
  rewrite H1. apply NoDup_fmap_2; [| apply NoDup_seq].
  intros x y Hxy. injection Hxy as ->. reflexivity.
Qed.

Lemma assembled_runs_fresh_ids_witness :
  exists runs w',
    assemble_runs acme customers_manifest JNull [("model.proj.customers", customers_metadata)]
      [JObj [("unique_id", JStr "model.proj.customers"); ("status", JStr "success");
             ("timing", JList [])];
       JObj [("unique_id", JStr "model.proj.customers"); ("status", JStr "error");
             ("timing", JList [])]] w0 = Ok (runs, w') /\
    map run_run_id runs = [Uuid4 0; Uuid4 1] /\ uuids_drawn w' = 2%nat.
Proof.
  destruct (assemble_runs acme customers_manifest JNull
              [("model.proj.customers", customers_metadata)]
              [JObj [("unique_id", JStr "model.proj.customers"); ("status", JStr "success");
                     ("timing", JList [])];
               JObj [("unique_id", JStr "model.proj.customers"); ("status", JStr "error");
                     ("timing", JList [])]] w0) as [[runs w'] | e |] eqn:E;
    [| vm_compute in E; discriminate..].
  exists runs, w'. split; [reflexivity |].
  destruct (assembled_runs_fresh_ids _ _ _ _ _ _ _ _ E) as (_ & Hids & _ & Hu & _).
  split; [exact Hids | exact Hu].
Defined.

Lemma subscript_dict_Ok (d : list (string * json)) (k v : json) :
  subscript (JObj d) k = Ok v -> exists s, k = JStr s /\ dict_get s d = Some v.
Proof.
  destruct k; cbn; try discriminate.
  destruct (dict_get s d) as [x |] eqn:E; [| discriminate].
  intros H. injection H as <-. eauto.
Qed.

Lemma add_input_string (manifest catalog : json) (nodes : list (string * json))
    (inputs : list ModelNode) (id : string) :
  add_input manifest catalog nodes inputs (JStr id)
  = if String.prefix "model." id then
      match dict_get id nodes with
      | Some meta =>
          Ok (inputs ++ [mkModelNode meta (get_from_nullable_chain catalog [JStr "nodes"; JStr id])])
      | None => Raise KeyError
      end
    else if String.prefix "source." id then
      let* sources := getitem manifest "sources" in
      let* meta := subscript sources (JStr id) in
      Ok (inputs ++ [mkModelNode meta (get_from_nullable_chain catalog [JStr "sources"; JStr id])])
    else Ok inputs.
Proof.
  unfold add_input. cbn [startswith bind].
  destruct (String.prefix "model." id); [| reflexivity].
  cbn [subscript]. destruct (dict_get id nodes); reflexivity.
Qed.

(** How an input node was resolved from the id of a parent. *)
Lemma add_inputs_resolved (manifest catalog : json) (nodes : list (string * json))
    (ids : list string) (acc inputs : list ModelNode) :
  for_each (add_input manifest catalog nodes) acc (map JStr ids) = Ok inputs ->
  exists new, inputs = acc ++ new /\
    Forall2 (fun id node =>
      (String.prefix "model." id = true /\
       dict_get id nodes = Some (metadata_node node) /\
       catalog_node node = get_from_nullable_chain catalog [JStr "nodes"; JStr id]) \/
      (String.prefix "model." id = false /\
       (exists sources, getitem manifest "sources" = Ok sources /\
                        subscript sources (JStr id) = Ok (metadata_node node)) /\
       catalog_node node = get_from_nullable_chain catalog [JStr "sources"; JStr id]))
      (List.filter is_dataset_id ids) new.
Proof.
  revert acc. induction ids as [| id ids IH]; cbn [map for_each]; intros acc H.
  - injection H as <-. exists []. rewrite app_nil_r. split; [reflexivity | constructor].
  - bind_inv H. rewrite add_input_string in E. cbn [List.filter]. unfold is_dataset_id at 1.
    destruct (String.prefix "model." id) eqn:Hm; cbn [orb].
    + destruct (dict_get id nodes) as [meta |] eqn:Hmeta; [| discriminate].
      injection E as <-. apply IH in H as (new & -> & Hnew).
      eexists (_ :: new). rewrite <- app_assoc. split; [reflexivity |].
      constructor; [| exact Hnew]. left. cbn. auto.
    + destruct (String.prefix "source." id) eqn:Hs.
      * bind_inv E. bind_inv E. injection E as <-. apply IH in H as (new & -> & Hnew).
        eexists (_ :: new). rewrite <- app_assoc. split; [reflexivity |].
        constructor; [| exact Hnew]. right. cbn. eauto.
      * injection E as <-. exact (IH _ H).
Qed.

(** X9.  The inputs of a run are resolved from the ids of its parents,
    in their order: a parent with the prefix "model." from the nodes
    kept by [parse], one with the prefix "source." from the manifest's
    table of sources, each with the catalog entry of the same id if there
    is one.  A parent with neither prefix (a seed, a snapshot) is passed
    over without a lookup; a model that is not among the nodes raises
    [KeyError]; a parent that is not a string raises
    [AttributeError]. *)
Theorem inputs_resolved_by_prefix (manifest catalog : json) (nodes : list (string * json)) :
  (forall ids inputs,
     for_each (add_input manifest catalog nodes) [] (map JStr ids) = Ok inputs ->
     Forall2 (fun id node =>
       (String.prefix "model." id = true /\
        dict_get id nodes = Some (metadata_node node) /\
        catalog_node node = get_from_nullable_chain catalog [JStr "nodes"; JStr id]) \/
       (String.prefix "model." id = false /\
        (exists sources, getitem manifest "sources" = Ok sources /\
                         subscript sources (JStr id) = Ok (metadata_node node)) /\
        catalog_node node = get_from_nullable_chain catalog [JStr "sources"; JStr id]))
       (List.filter is_dataset_id ids) inputs) /\
  (forall inputs id, is_dataset_id id = false ->
     add_input manifest catalog nodes inputs (JStr id) = Ok inputs) /\
  (forall inputs id, String.prefix "model." id = true -> dict_get id nodes = None ->
     add_input manifest catalog nodes inputs (JStr id) = Raise KeyError) /\
  (forall inputs v, (forall s, v <> JStr s) ->
     add_input manifest catalog nodes inputs v = Raise AttributeError).
Proof.
  split; [| split; [| split]].
  - intros ids inputs H. apply add_inputs_resolved in H as (new & -> & H). exact H.
  - intros inputs id H. rewrite add_input_string. unfold is_dataset_id in H.
    apply orb_false_elim in H as [-> ->]. reflexivity.
  - intros inputs id Hm Hn. rewrite add_input_string, Hm, Hn. reflexivity.
  - intros inputs v Hv. destruct v; try reflexivity. exfalso. exact (Hv s eq_refl).
Qed.

Lemma inputs_resolved_by_prefix_witness :
  for_each (add_input customers_manifest JNull [("model.proj.customers", customers_metadata)]) []
    (map JStr ["seed.proj.countries"; "source.proj.raw.orders"; "model.proj.customers"])
  = Ok [mkModelNode orders_source JNull; mkModelNode customers_metadata JNull] /\
  add_input customers_manifest JNull [] [] (JStr "model.proj.customers") = Raise KeyError.
Proof.
  destruct (inputs_resolved_by_prefix customers_manifest JNull
              [("model.proj.customers", customers_metadata)]) as (H1 & _ & _ & _).
  destruct (inputs_resolved_by_prefix customers_manifest JNull []) as (_ & _ & H3 & _).
  split; [| apply H3; reflexivity].
  destruct (for_each (add_input customers_manifest JNull
                        [("model.proj.customers", customers_metadata)]) []
              (map JStr ["seed.proj.countries"; "source.proj.raw.orders"; "model.proj.customers"]))
    as [inputs | e |] eqn:E; [| vm_compute in E; discriminate..].
  pose proof (H1 _ _ E) as H. vm_compute in E. injection E as <-. reflexivity.
Defined.

(** X10.  What a run takes from its execution record: the record's
    [unique_id] is the id of a node kept by [parse], that node with its
    catalog entry is the output of the run, the inputs are the parents
    the graph lists for the id, and the job is named
    [database.schema.rest], where [rest] is the id without the prefix
    "model." and with everything after it, the project name included. *)
Theorem assembled_run_of_record (self : Processor) (manifest catalog : json)
    (nodes : list (string * json)) (record : json) (w w' : world) (run : DbtRun) :
  assemble_run self manifest catalog nodes record w = Ok (run, w') ->
  exists unique_id node database schema rest parents,
    getitem record "unique_id" = Ok (JStr unique_id) /\
    dict_get unique_id nodes = Some node /\
    output run
    = Some (mkModelNode node (get_from_nullable_chain catalog [JStr "nodes"; JStr unique_id])) /\
    (let* v := getitem node "database" in py_str v) = Ok database /\
    (let* v := getitem node "schema" in py_str v) = Ok schema /\
    (if String.prefix "model." unique_id then unique_id = ("model." ++ rest)%string
     else rest = unique_id) /\
    job_name run = dotted database schema rest /\
    parents_of manifest record = Ok parents /\
    for_each (add_input manifest catalog nodes) [] parents = Ok (run_inputs run).
Proof.
  unfold assemble_run. intros H.
  bind_inv H. bind_inv H. destruct a0 as [[s c] w1].
  bind_inv H. rename a0 into parent_map, E1 into Hpm.
  bind_inv H. rename a0 into uid, E1 into Huid.
  bind_inv H. rename a0 into ps, E1 into Hps.
  bind_inv H. rename a0 into parents, E1 into Hparents.
  bind_inv H. rename a0 into inputs, E1 into Hinputs.
  bind_inv H. rename a0 into node, E1 into Hnode.
  apply subscript_dict_Ok in Hnode as (unique_id & -> & Hnode).
  bind_inv H. bind_inv H. bind_inv H. rename a2 into database.
  bind_inv H. bind_inv H. rename a3 into schema.
  bind_inv H. rename a3 into rest.
  cbn [uuid4] in H. injection H as <- _. cbn.
  exists unique_id, node, database, schema, rest, parents.
  split; [exact Huid |]. split; [exact Hnode |]. split; [reflexivity |].
  split; [rewrite E2; exact E3 |]. split; [rewrite E4; exact E5 |].
  split.
  - destruct (proj2 (removeprefix_cases "model.") unique_id) as (r & Hr & Hcase).
    rewrite Hr in E6. injection E6 as <-. exact Hcase.
  - split; [reflexivity |]. split; [| exact Hinputs].
    unfold parents_of. rewrite Huid. cbn [bind]. rewrite Hpm. cbn [bind].
    rewrite Hps. cbn [bind]. exact Hparents.
Qed.

Lemma assembled_run_of_record_witness :
  exists run w',
    assemble_run acme customers_manifest JNull [("model.proj.customers", customers_metadata)]
      (JObj [("unique_id", JStr "model.proj.customers"); ("status", JStr "success");
             ("timing", JList [])]) w0 = Ok (run, w') /\
    job_name run = "db.public.proj.customers".
Proof.
  destruct (assemble_run acme customers_manifest JNull
              [("model.proj.customers", customers_metadata)]
              (JObj [("unique_id", JStr "model.proj.customers"); ("status", JStr "success");
                     ("timing", JList [])]) w0) as [[run w'] | e |] eqn:E;
    [| vm_compute in E; discriminate..].
  exists run, w'. split; [reflexivity |].
  destruct (assembled_run_of_record _ _ _ _ _ _ _ _ E)
    as (uid & node & database & schema & rest & parents &
        Hu & Hn & _ & Hd & Hs & Hrest & Hjob & _).
  vm_compute in Hu. injection Hu as <-. vm_compute in Hn. injection Hn as <-.
  vm_compute in Hd, Hs. injection Hd as <-. injection Hs as <-.
  vm_compute in Hrest. injection Hrest as <-. exact Hjob.
Defined.

(** ** The events of [parse_run] *)

Lemma dataset_namespace_of (self : Processor) (node : ModelNode) (b : bool) (d : Dataset) :
  node_to_dataset self node b = Ok d -> ds_namespace d = dataset_namespace self.
Proof.
  unfold node_to_dataset. intros H. bind_inv H. destruct a as [[ns name] facets].
  injection H as <-. cbn. destruct b.
  - apply extract_dataset_data_full in E. tauto.
  - apply extract_dataset_data_plain in E. tauto.
Qed.

Lemma output_namespace_of (self : Processor) (node : ModelNode) (b : bool) (o : OutputDataset) :
  node_to_output_dataset self node b = Ok o -> out_namespace o = dataset_namespace self.
Proof.
  unfold node_to_output_dataset. intros H. bind_inv H. destruct a as [[ns name] facets].
  bind_inv H. injection H as <-. cbn. destruct b.
  - apply extract_dataset_data_full in E. tauto.
  - apply extract_dataset_data_plain in E. tauto.
Qed.

Lemma datasets_namespace_of (self : Processor) (nodes : list ModelNode) (b : bool)
    (ds : list Dataset) :
  traverse (fun node => node_to_dataset self node b) nodes = Ok ds ->
  Forall (fun d => ds_namespace d = dataset_namespace self) ds.
Proof.
  intros H. eapply traverse_Forall; [| exact H]. intros x y. apply dataset_namespace_of.
Qed.

(** The result of the event builder: a start event and one terminal
    event, all with the run id of the run and the identity of the
    processor. *)
Lemma to_events_shape (self : Processor) (run : DbtRun) (r : DbtRunResult) :
  _to_openlineage_events self run = Ok (Some r) ->
  runId (start r) = run_run_id run /\ eventType (start r) = START /\ stamped self (start r) /\
  ((exists c, complete r = Some c /\ fail r = None /\ eventType c = COMPLETE /\
              runId c = run_run_id run /\ stamped self c) \/
   (exists f, complete r = None /\ fail r = Some f /\ eventType f = FAIL /\
              runId f = run_run_id run /\ stamped self f)).
Proof.
  unfold _to_openlineage_events. intros H.
  destruct (eq_str (status run) "skipped"); [discriminate |].
  bind_inv H. rename a into ins, E into Hins.
  bind_inv H. rename a into outs, E into Houts.
  assert (Hstart : Forall (fun o => out_namespace o = dataset_namespace self) outs).
  { destruct (output run) as [out |].
    - bind_inv Houts. injection Houts as <-. constructor; [| constructor].
      exact (output_namespace_of _ _ _ _ E).
    - injection Houts as <-. constructor. }
  pose proof (datasets_namespace_of _ _ _ _ Hins) as Hins'.
  destruct (eq_str (status run) "success"); [| destruct (eq_str (status run) "error")].
  - bind_inv H. bind_inv H. bind_inv H. bind_inv H. bind_inv H. injection H as <-.
    unfold stamped. cbn. split; [reflexivity |]. split; [reflexivity |].
    split; [auto |]. left. eexists. cbn.
    do 4 (split; [reflexivity |]). split; [reflexivity |]. split; [reflexivity |].
    split; [exact (datasets_namespace_of _ _ _ _ E1) |].
    constructor; [exact (output_namespace_of _ _ _ _ E3) | constructor].
  - bind_inv H. bind_inv H. bind_inv H. injection H as <-.
    unfold stamped. cbn. split; [reflexivity |]. split; [reflexivity |].
    split; [auto |]. right. eexists. cbn.
    do 4 (split; [reflexivity |]). split; [reflexivity |]. split; [reflexivity |].
    split; [exact (datasets_namespace_of _ _ _ _ E1) | constructor].
  - discriminate.
Qed.

(** The run ids the loop adds: those of the runs it kept, once on a
    start event and once on a complete or fail event. *)
Lemma collect_loop_run_ids (self : Processor) (runs : list DbtRun) (acc ev : DbtEvents) :
  for_each (collect self) acc runs = Ok ev ->
  exists kept, kept `sublist_of` runs /\
    map runId (starts ev) = map runId (starts acc) ++ map run_run_id kept /\
    map runId (completes ev ++ fails ev)
      ≡ₚ map runId (completes acc ++ fails acc) ++ map run_run_id kept.
Proof.
  revert acc. induction runs as [| run runs IH]; cbn [for_each]; intros acc H.
  - injection H as <-. exists []. cbn. rewrite !app_nil_r. split; [constructor | auto].
  - bind_inv H. apply IH in H as (kept & Hsub & Hs & Ht).
    apply collect_step in E as [[_ ->] | (_ & r & Hr & Hst & Hco & Hfa)].
    + exists kept. split; [apply sublist_cons; exact Hsub | auto].
    + exists (run :: kept). split; [apply sublist_skip; exact Hsub |].
      apply to_events_shape in Hr
        as (Hid & _ & _ & [(c & Hc & Hf & _ & Hcid & _) | (f & Hc & Hf & _ & Hfid & _)]).
      * rewrite Hc in Hco, Hfa. cbn in Hco, Hfa. rewrite app_nil_r in Hfa.
        split.
        -- rewrite Hs, Hst, map_app. cbn. rewrite Hid, <- app_assoc. reflexivity.
        -- rewrite Ht, Hco, Hfa, !map_app. cbn [map]. rewrite Hcid.
           rewrite <- !app_assoc. cbn [app].
           apply Permutation_app_head.
           rewrite (Permutation_middle (map runId (fails acc)) (map run_run_id kept)).
           reflexivity.
      * rewrite Hc, Hf in Hfa. rewrite Hc in Hco. cbn in Hco, Hfa. rewrite app_nil_r in Hco.
        split.
        -- rewrite Hs, Hst, map_app. cbn. rewrite Hid, <- app_assoc. reflexivity.
        -- rewrite Ht, Hco, Hfa, !map_app. cbn [map]. rewrite Hfid.
           rewrite <- !app_assoc. reflexivity.
Qed.

Lemma collect_loop_events (self : Processor) (runs : list DbtRun) (ev : DbtEvents) :
  for_each (collect self) (mkDbtEvents [] [] []) runs = Ok ev ->
  Forall (fun e => eventType e = START /\ stamped self e) (starts ev) /\
  Forall (fun e => eventType e = COMPLETE /\ stamped self e) (completes ev) /\
  Forall (fun e => eventType e = FAIL /\ stamped self e) (fails ev).
Proof.
  apply (for_each_invariant
           (fun acc => Forall (fun e => eventType e = START /\ stamped self e) (starts acc) /\
                       Forall (fun e => eventType e = COMPLETE /\ stamped self e) (completes acc) /\
                       Forall (fun e => eventType e = FAIL /\ stamped self e) (fails acc))).
  - intros s run s' _ (H1 & H2 & H3) Hstep.
    apply collect_step in Hstep as [[_ ->] | (_ & r & Hr & -> & -> & ->)]; [auto |].
    apply to_events_shape in Hr
      as (_ & Hty & Hst & [(c & Ec & Ef & Hc & _ & Hcs) | (f & Ec & Ef & Hf & _ & Hfs)]);
      rewrite Ec, ?Ef; cbn [option_list]; rewrite ?app_nil_r;
      repeat split; try assumption; apply Forall_app; split; try assumption;
      constructor; auto.
  - cbn. auto.
Qed.

Lemma sublist_map {A B : Type} (f : A -> B) (l k : list A) :
  l `sublist_of` k -> map f l `sublist_of` map f k.
Proof. induction 1; cbn [map]; constructor; assumption. Qed.

(** X11.  The three lists of [parse_run] fit together.  The start
    events have pairwise different run ids; the run ids of the complete
    and fail events, taken together, are the run ids of the start events,
    each once: every start event has one terminal event and every
    terminal event one start event.  Start, complete and fail events are
    each in their own list, and one run id is drawn for each execution
    record, translated or not. *)
Theorem parse_run_accounting (self : Processor) (manifest run_results catalog : json)
    (nodes : list (string * json)) (w w' : world) (ev : DbtEvents) :
  parse_run self manifest run_results catalog nodes w = Ok (ev, w') ->
  NoDup (map runId (starts ev)) /\
  map runId (completes ev ++ fails ev) ≡ₚ map runId (starts ev) /\
  length (starts ev) = (length (completes ev) + length (fails ev))%nat /\
  Forall (fun e => eventType e = START) (starts ev) /\
  Forall (fun e => eventType e = COMPLETE) (completes ev) /\
  Forall (fun e => eventType e = FAIL) (fails ev) /\
  exists results records,
    getitem run_results "results" = Ok results /\ py_iter results = Ok records /\
    (length (starts ev) <= length records)%nat /\
    uuids_drawn w' = (uuids_drawn w + length records)%nat.
Proof.
  unfold parse_run. intros H.
  bind_inv H. rename a into results. bind_inv H. rename a into records.
  bind_inv H. destruct a as [runs w1]. bind_inv H. injection H as <- <-.
  pose proof (assemble_runs_effects _ _ _ _ _ _ _ _ E1) as (Hids & Hu & _ & _ & Hst).
  pose proof (collect_loop_run_ids _ _ _ _ E2) as (kept & Hsub & Hs & Ht).
  pose proof (collect_loop_events _ _ _ E2) as (H1 & H2 & H3).
  cbn [starts completes fails app map] in Hs, Ht.
  assert (Hnodup : NoDup (map run_run_id runs)).
  { rewrite Hids. apply NoDup_fmap_2; [| apply NoDup_seq].
    intros x y Hxy. injection Hxy as ->. reflexivity. }
  assert (Hlen : length (starts a) = (length (completes a) + length (fails a))%nat).
  { apply Permutation_length in Ht. rewrite <- Hs in Ht.
    rewrite !length_map, length_app in Ht. lia. }
  split; [rewrite Hs; eapply sublist_NoDup; [exact Hnodup | apply sublist_map; exact Hsub] |].
  split; [rewrite Ht, Hs; reflexivity |].
  split; [exact Hlen |].
  split; [eapply Forall_impl; [exact H1 |]; cbn; tauto |].
  split; [eapply Forall_impl; [exact H2 |]; cbn; tauto |].
  split; [eapply Forall_impl; [exact H3 |]; cbn; tauto |].
  exists results, records. split; [assumption |]. split; [assumption |].
  split; [| exact Hu].
  apply sublist_length in Hsub. apply Forall2_length in Hst.
  assert (length (starts a) = length kept).
  { rewrite <- (length_map runId), Hs, length_map. reflexivity. }
  lia.
Qed.

Lemma parse_run_accounting_witness :
  exists ev w',
    parse_run acme customers_manifest (customers_results "error") JNull
      [("model.proj.customers", customers_metadata)] w0 = Ok (ev, w') /\
    length (starts ev) = 1%nat /\ length (completes ev) = 0%nat /\ length (fails ev) = 1%nat /\
    map runId (fails ev) = map runId (starts ev).
Proof.
  destruct (parse_run acme customers_manifest (customers_results "error") JNull
              [("model.proj.customers", customers_metadata)] w0) as [[ev w'] | e |] eqn:E;
    [| vm_compute in E; discriminate..].
  destruct (parse_run_accounting _ _ _ _ _ _ _ _ E) as (_ & _ & Hlen & _).
  exists ev, w'. split; [reflexivity |].
  vm_compute in E. injection E as <- <-. repeat split; reflexivity.
Defined.

(** ** The identity of the processor on its events *)

Lemma test_events_added (self : Processor) (s c : timestamp)
    (assertions : gmap (option string) (list Assertion))
    (starts completes : list RunEvent) (w : world) (name : string) (node : json)
    (acc' : list RunEvent * list RunEvent * world) :
  test_events self s c assertions (starts, completes, w) (name, node) = Ok acc' ->
  acc' = (starts, completes, w) \/
  exists dataset job_name,
    extract_dataset_data self (mkModelNode node JNull) false
      = Ok (dataset_namespace self, dataset, ∅) /\
    grouped assertions (Some name) <> [] /\
    acc' =
      (starts ++ [mkRunEvent START s (Uuid4 (uuids_drawn w))
                    (mkJob (job_namespace self) job_name ∅) (producer self)
                    [mkDataset (dataset_namespace self) dataset ∅] []],
       completes ++ [mkRunEvent COMPLETE c (Uuid4 (uuids_drawn w))
                       (mkJob (job_namespace self) job_name ∅) (producer self)
                       [mkDataset (dataset_namespace self) dataset
                          {["dataQualityAssertions" :=
                              DataQualityAssertionsDatasetFacet (grouped assertions (Some name))]}]
                       []],
       mkWorld (clock_reads w) (S (uuids_drawn w))).
Proof.
  unfold test_events. intros H.
  destruct (negb (String.prefix "model." name) && negb (String.prefix "source." name));
    [left; injection H as <-; reflexivity |].
  destruct (grouped assertions (Some name)) as [| a l] eqn:Hg; cbn [length Nat.eqb] in H;
    [left; injection H as <-; reflexivity |].
  right. bind_inv H. destruct a0 as [[ns nm] fs].
  pose proof (extract_dataset_data_plain _ _ _ _ _ E) as [-> ->].
  repeat bind_inv H. cbn [uuid4] in H. injection H as <-.
  eexists _, _. split; [exact E |]. split; [discriminate | reflexivity].
Qed.

(** X12.  Every event of [parse_run] and of [parse_test] carries the
    identity of the processor: its producer, its job namespace on the
    job and its dataset namespace on every input and output dataset. *)
Theorem events_stamped (self : Processor) (manifest run_results catalog : json)
    (nodes : list (string * json)) (w w' : world) (ev : DbtEvents) :
  parse_run self manifest run_results catalog nodes w = Ok (ev, w') \/
  parse_test self manifest run_results catalog nodes w = Ok (ev, w') ->
  Forall (stamped self) (events ev).
Proof.
  intros [H | H].
  - unfold parse_run in H. bind_inv H. bind_inv H. bind_inv H. destruct a1 as [runs w1].
    bind_inv H. injection H as <- _.
    apply collect_loop_events in E2 as (H1 & H2 & H3).
    unfold events. rewrite !Forall_app.
    repeat split; (eapply Forall_impl; [eassumption |]); cbn; tauto.
  - unfold parse_test in H. cbn [now] in H.
    bind_inv H. bind_inv H. bind_inv H. bind_inv H. bind_inv H. bind_inv H.
    destruct a4 as [[ss cs] w1]. injection H as <- _.
    unfold events. cbn [starts completes fails]. rewrite app_nil_r.
    apply Forall_app.
    refine (for_each_invariant
              (fun acc => Forall (stamped self) (fst (fst acc)) /\
                          Forall (stamped self) (snd (fst acc)))
              _ _ _ (ss, cs, w1) _ _ E4).
    + intros [[ss0 cs0] w2] [name node] acc' _ [Hs Hc] Hstep. cbn [fst snd] in *.
      apply test_events_added in Hstep as [-> | (dataset & job_name & _ & _ & ->)];
        [auto |].
      cbn [fst snd]. split; apply Forall_app; (split; [assumption |]);
        constructor; try constructor; unfold stamped; cbn; repeat split; repeat constructor.
    + cbn. auto.
Qed.

Lemma events_stamped_witness :
  exists ev w',
    parse_test acme customers_tests_manifest customers_tests_results JNull
      customers_tests_nodes w0 = Ok (ev, w') /\
    Forall (stamped acme) (events ev) /\ length (events ev) = 2%nat.
Proof.
  destruct (parse_test acme customers_tests_manifest customers_tests_results JNull
              customers_tests_nodes w0) as [[ev w'] | e |] eqn:E;
    [| vm_compute in E; discriminate..].
  exists ev, w'. split; [reflexivity |].
  split; [exact (events_stamped _ _ _ _ _ _ _ _ (or_intror E)) |].
  vm_compute in E. injection E as <- <-. reflexivity.
Defined.

(** ** The events of [parse_test] *)

(** X13.  The events of [parse_test] come in pairs.  There is no fail
    event; start and complete events are as many, and the [k]-th start
    and the [k]-th complete event belong together: same run id, same
    job, same single input dataset, no output, the input of the start
    event without facets and the one of the complete event with just the
    assertions facet, which is never empty.  All start events have the
    first reading of the clock for their time and all complete events the
    second, whatever the timing of the tests; the run ids differ from
    pair to pair, one being drawn for each pair. *)
Theorem parse_test_pairs (self : Processor) (manifest run_results catalog : json)
    (nodes : list (string * json)) (w w' : world) (ev : DbtEvents) :
  parse_test self manifest run_results catalog nodes w = Ok (ev, w') ->
  fails ev = [] /\
  Forall2 (test_pair (clock_reads w)) (starts ev) (completes ev) /\
  NoDup (map runId (starts ev)) /\
  w' = mkWorld (clock_reads w + 2) (uuids_drawn w + length (starts ev)).
Proof.
  unfold parse_test. cbn [now]. intros H.
  bind_inv H. bind_inv H. bind_inv H. bind_inv H. bind_inv H. bind_inv H.
  destruct a4 as [[ss cs] w1]. injection H as <- <-. cbn [starts completes fails].
  split; [reflexivity |].
  pose proof (test_events_run_ids _ _ _ _ _ _ _ _ _ E4) as (_ & _ & Hnodup).
  assert (Hinv : Forall2 (test_pair (clock_reads w)) ss cs /\
                 w1 = mkWorld (S (S (clock_reads w))) (uuids_drawn w + length ss)).
  { refine (for_each_invariant
              (fun acc => Forall2 (test_pair (clock_reads w)) (fst (fst acc)) (snd (fst acc)) /\
                          snd acc = mkWorld (S (S (clock_reads w)))
                                      (uuids_drawn w + length (fst (fst acc))))
              _ _ _ (ss, cs, w1) _ _ E4).
    - intros [[ss0 cs0] w2] [name node] acc' _ [Hp Hw] Hstep. cbn [fst snd] in *.
      apply test_events_added in Hstep as [-> | (dataset & job_name & _ & Hne & ->)];
        [auto |].
      cbn [fst snd]. split.
      + apply Forall2_app; [exact Hp |]. constructor; [| constructor].
        unfold test_pair. cbn. repeat (split; [reflexivity |]).
        eexists _, _, _. split; [exact Hne |]. split; reflexivity.
      + rewrite Hw. cbn. rewrite length_app. cbn. f_equal. lia.
    - cbn. split; [constructor | f_equal; lia]. }
  destruct Hinv as [Hp Hw]. split; [exact Hp |]. split; [exact Hnodup |].
  rewrite Hw. f_equal. lia.
Qed.

Lemma parse_test_pairs_witness :
  exists ev,
    parse_test acme customers_tests_manifest customers_tests_results JNull
      customers_tests_nodes w0 = Ok (ev, mkWorld 2 1) /\
    fails ev = [] /\ Forall2 (test_pair 0) (starts ev) (completes ev) /\
    length (starts ev) = 1%nat.
Proof.
  destruct (parse_test acme customers_tests_manifest customers_tests_results JNull
              customers_tests_nodes w0) as [[ev w'] | e |] eqn:E;
    [| vm_compute in E; discriminate..].
  destruct (parse_test_pairs _ _ _ _ _ _ _ _ E) as (Hf & Hp & _ & Hw).
  exists ev. split; [| split; [exact Hf | split; [exact Hp |]]].
  - rewrite Hw. vm_compute in E. injection E as <- _. reflexivity.
  - vm_compute in E. injection E as <- _. reflexivity.
Defined.

(** ** Grouping the assertions *)

Lemma note_parent_Ok (m r : option string) (node : json) :
  note_parent m node = Ok r ->
  exists s, node = JStr s /\ r = if is_dataset_id s then Some s else m.
Proof.
  destruct node; try discriminate. rewrite note_parent_string.
  intros H. injection H as <-. eauto.
Qed.

Lemma note_parents_Ok (parents : list json) (m0 : option string) (m : string) :
  for_each note_parent m0 parents = Ok (Some m) ->
  m0 = Some m \/ (In (JStr m) parents /\ is_dataset_id m = true).
Proof.
  revert m0. induction parents as [| node parents IH]; cbn [for_each]; intros m0 H.
  - injection H as ->. auto.
  - bind_inv H. apply note_parent_Ok in E as (s & -> & ->).
    apply IH in H as [H | [H1 H2]]; [| right; split; [right; exact H1 | exact H2]].
    destruct (is_dataset_id s) eqn:Hs; [| auto].
    injection H as ->. right. split; [left; reflexivity | exact Hs].
Qed.

(** What one execution record adds to the grouped assertions. *)
Lemma record_test_Ok (manifest : json) (nodes : list (string * json))
    (acc acc' : gmap (option string) (list Assertion)) (run : json) :
  record_test manifest nodes acc run = Ok acc' ->
  exists m a parents unique_id node metadata st,
    acc' = <[Some m := grouped acc (Some m) ++ [a]]> acc /\
    parents_of manifest run = Ok parents /\ In (JStr m) parents /\ is_dataset_id m = true /\
    getitem run "unique_id" = Ok (JStr unique_id) /\ dict_get unique_id nodes = Some node /\
    getitem node "test_metadata" = Ok metadata /\
    getitem metadata "name" = Ok (assertion a) /\
    column a = get_from_nullable_chain metadata [JStr "kwargs"; JStr "column_name"] /\
    getitem run "status" = Ok st /\ success a = eq_str st "pass".
Proof.
  unfold record_test. intros H.
  bind_inv H. rename a into uid, E into Huid.
  bind_inv H. rename a into node, E into Hnode.
  apply subscript_dict_Ok in Hnode as (unique_id & -> & Hnode).
  bind_inv H. rename a into parent_map, E into Hpm.
  bind_inv H. rename a into ps, E into Hps.
  bind_inv H. rename a into parents, E into Hparents.
  bind_inv H. rename a into model_node, E into Hm.
  bind_inv H. rename a into metadata, E into Hmeta.
  bind_inv H. rename a into name, E into Hname.
  bind_inv H. rename a into st, E into Hst.
  destruct model_node as [m |]; [| discriminate]. injection H as <-.
  apply note_parents_Ok in Hm as [Hm | [Hin Hid]]; [discriminate |].
  eexists m, _, parents, unique_id, node, metadata, st. cbn.
  split; [reflexivity |]. split.
  { unfold parents_of. rewrite Huid. cbn [bind]. rewrite Hpm. cbn [bind].
    rewrite Hps. exact Hparents. }
  repeat (split; [assumption |]). split; [reflexivity |]. split; [assumption |].
  destruct (eq_str st "pass"); reflexivity.
Qed.

(** X14.  The first loop of [parse_test] files one assertion for each
    execution record, under one of the record's parents that has a
    dataset prefix, and nothing under [None]: the assertions of a dataset
    are those of its records, in the order of the records.  An assertion
    has the name and the column of its test, and it is a success only
    for the status "pass": any other status counts as a failure. *)
Theorem assertions_grouped (manifest : json) (nodes : list (string * json))
    (records : list json) (acc acc' : gmap (option string) (list Assertion)) :
  for_each (record_test manifest nodes) acc records = Ok acc' ->
  exists added : list (string * Assertion),
    Forall2 (fun record p =>
      is_dataset_id (fst p) = true /\
      (exists parents, parents_of manifest record = Ok parents /\ In (JStr (fst p)) parents) /\
      (exists unique_id node metadata,
         getitem record "unique_id" = Ok (JStr unique_id) /\
         dict_get unique_id nodes = Some node /\
         getitem node "test_metadata" = Ok metadata /\
         getitem metadata "name" = Ok (assertion (snd p)) /\
         column (snd p) = get_from_nullable_chain metadata [JStr "kwargs"; JStr "column_name"]) /\
      (exists st, getitem record "status" = Ok st /\ success (snd p) = eq_str st "pass"))
      records added /\
    grouped acc' None = grouped acc None /\
    (forall k, grouped acc' (Some k)
               = grouped acc (Some k) ++ map snd (List.filter (fun p => String.eqb (fst p) k) added)).
Proof.
  revert acc. induction records as [| record records IH]; cbn [for_each]; intros acc H.
  - injection H as <-. exists []. split; [constructor |]. split; [reflexivity |].
    intros k. cbn. rewrite app_nil_r. reflexivity.
  - bind_inv H.
    apply record_test_Ok in E
      as (m & a0 & parents & uid & node & metadata & st &
          -> & Hp & Hin & Hid & Hu & Hn & Hmeta & Hname & Hcol & Hst & Hsucc).
    apply IH in H as (added & Hall & Hnone & Hsome).
    exists ((m, a0) :: added). split; [| split].
    + constructor; [| exact Hall]. cbn [fst snd].
      split; [exact Hid |]. split; [eauto |]. split; [eauto 10 | eauto].
    + rewrite Hnone. unfold grouped. rewrite lookup_insert_ne by discriminate. reflexivity.
    + intros k. rewrite Hsome. cbn [List.filter fst].
      unfold grouped at 1. destruct (String.eqb m k) eqn:Hk.
      * apply String.eqb_eq in Hk as ->. rewrite lookup_insert_eq. cbn.
        rewrite <- app_assoc. reflexivity.
      * rewrite lookup_insert_ne; [reflexivity |].
        intros Heq. injection Heq as ->. rewrite String.eqb_refl in Hk. discriminate.
Qed.

Lemma assertions_grouped_witness :
  exists acc,
    for_each (record_test customers_tests_manifest customers_tests_nodes) ∅
      [test_record "test.proj.not_null_customers_id" "pass";
       test_record "test.proj.unique_customers_id" "warn"] = Ok acc /\
    grouped acc None = [] /\
    grouped acc (Some "model.proj.customers")
    = [mkAssertion (JStr "not_null") true (JStr "id");
       mkAssertion (JStr "unique") false (JStr "id")].
Proof.
  destruct (for_each (record_test customers_tests_manifest customers_tests_nodes) ∅
              [test_record "test.proj.not_null_customers_id" "pass";
               test_record "test.proj.unique_customers_id" "warn"]) as [acc | e |] eqn:E;
    [| vm_compute in E; discriminate..].
  destruct (assertions_grouped _ _ _ _ _ E) as (added & _ & Hnone & _).
  exists acc. split; [reflexivity |]. split; [exact Hnone |].
  vm_compute in E. injection E as <-. reflexivity.
Defined.

(** ** Loading the documents *)

Lemma load_metadata_cases (fs : files) (path desired : string) :
  match fs path with
  | None => load_metadata fs path desired = FileNotFoundError
  | Some doc =>
      if eq_str (get_from_nullable_chain doc [JStr "metadata"; JStr "dbt_schema_version"]) desired
      then load_metadata fs path desired = Read (Ok doc)
      else load_metadata fs path desired
           = Read (Raise (ValueError "wrong version of dbt metadata"))
  end.
Proof.
  unfold load_metadata. destruct (fs path) as [doc |]; [| reflexivity].
  destruct (eq_str _ desired); reflexivity.
Qed.

(** X15.  The loaders are gates on the schema version.  [load_metadata]
    gives the document of the file, unchanged, exactly when the file
    exists and declares the desired version under
    [metadata.dbt_schema_version]; a file without the field, or with
    another version, is a [ValueError], and a missing file is
    [FileNotFoundError].  Manifest, run results and catalog have
    different versions, so no document is accepted as two of them.  Only
    the catalog may be missing: [load_catalog] then gives [None], while a
    catalog that is there with another version is still an error. *)
Theorem schema_version_gate (fs : files) (path : string) :
  (forall desired doc,
     load_metadata fs path desired = Read (Ok doc) <->
     fs path = Some doc /\
     get_from_nullable_chain doc [JStr "metadata"; JStr "dbt_schema_version"] = JStr desired) /\
  (forall desired doc,
     fs path = Some doc ->
     get_from_nullable_chain doc [JStr "metadata"; JStr "dbt_schema_version"] <> JStr desired ->
     load_metadata fs path desired = Read (Raise (ValueError "wrong version of dbt metadata"))) /\
  (forall desired, load_metadata fs path desired = FileNotFoundError <-> fs path = None) /\
  (forall doc, load_manifest fs path = Read (Ok doc) ->
     load_run_results fs path = Read (Raise (ValueError "wrong version of dbt metadata")) /\
     load_catalog fs path = Read (Raise (ValueError "wrong version of dbt metadata"))) /\
  (forall doc, load_run_results fs path = Read (Ok doc) ->
     load_manifest fs path = Read (Raise (ValueError "wrong version of dbt metadata")) /\
     load_catalog fs path = Read (Raise (ValueError "wrong version of dbt metadata"))) /\
  load_catalog fs path <> FileNotFoundError /\
  (fs path = None -> load_catalog fs path = Read (Ok JNull)) /\
  (forall doc, fs path = Some doc ->
     load_catalog fs path = load_metadata fs path "https://schemas.getdbt.com/dbt/catalog/v1.json").
Proof.
  assert (Hgate : forall desired doc,
            load_metadata fs path desired = Read (Ok doc) <->
            fs path = Some doc /\
            get_from_nullable_chain doc [JStr "metadata"; JStr "dbt_schema_version"]
            = JStr desired).
  { intros desired doc. pose proof (load_metadata_cases fs path desired) as H.
    destruct (fs path) as [d |].
    - destruct (eq_str _ desired) eqn:E; rewrite H.
      + apply eq_str_true in E. split.
        * intros Hd. injection Hd as <-. auto.
        * intros [Hd _]. injection Hd as <-. reflexivity.
      + split; [discriminate |]. intros [Hd Hv]. injection Hd as <-.
        apply eq_str_true in Hv. congruence.
    - rewrite H. split; [discriminate | intros [Hd _]; discriminate]. }
  assert (Hother : forall v1 v2 doc, v1 <> v2 ->
            load_metadata fs path v1 = Read (Ok doc) ->
            load_metadata fs path v2 = Read (Raise (ValueError "wrong version of dbt metadata"))).
  { intros v1 v2 doc Hne H. apply Hgate in H as [Hd Hv].
    pose proof (load_metadata_cases fs path v2) as H2. rewrite Hd, Hv in H2.
    cbn [eq_str] in H2. destruct (String.eqb v1 v2) eqn:E; [| exact H2].
    apply String.eqb_eq in E. contradiction. }
  split; [exact Hgate |]. split; [| split; [| split; [| split; [| split; [| split]]]]].
  - intros desired doc Hd Hv. pose proof (load_metadata_cases fs path desired) as H.
    rewrite Hd in H. destruct (eq_str _ desired) eqn:E; [| exact H].
    apply eq_str_true in E. contradiction.
  - intros desired. pose proof (load_metadata_cases fs path desired) as H.
    destruct (fs path) as [d |].
    + split; [| discriminate]. destruct (eq_str _ desired); rewrite H; discriminate.
    + tauto.
  - intros doc H. unfold load_manifest, load_run_results, load_catalog in *. split.
    + eapply Hother; [| exact H]. discriminate.
    + erewrite Hother; [reflexivity | | exact H]. discriminate.
  - intros doc H. unfold load_manifest, load_run_results, load_catalog in *. split.
    + eapply Hother; [| exact H]. discriminate.
    + erewrite Hother; [reflexivity | | exact H]. discriminate.
  - unfold load_catalog. destruct (load_metadata fs path _) as [r |]; discriminate.
  - intros H. unfold load_catalog, load_metadata. rewrite H. reflexivity.
  - intros doc H. unfold load_catalog.
    pose proof (load_metadata_cases fs path "https://schemas.getdbt.com/dbt/catalog/v1.json") as Hc.
    rewrite H in Hc. destruct (eq_str _ _); rewrite Hc; reflexivity.
Qed.

Lemma schema_version_gate_witness :
  load_manifest project_files "/proj/target/manifest.json" = Read (Ok project_manifest) /\
  load_run_results project_files "/proj/target/manifest.json"
  = Read (Raise (ValueError "wrong version of dbt metadata")) /\
  load_manifest project_files "/home/dbt/.dbt/profiles.yml"
  = Read (Raise (ValueError "wrong version of dbt metadata")) /\
  load_catalog project_files "/proj/target/catalog.json" = Read (Ok JNull).
Proof.
  destruct (schema_version_gate project_files "/proj/target/manifest.json")
    as (Hgate & _ & _ & Hm & _).
  destruct (schema_version_gate project_files "/home/dbt/.dbt/profiles.yml")
    as (_ & Hwrong & _).
  destruct (schema_version_gate project_files "/proj/target/catalog.json")
    as (_ & _ & _ & _ & _ & _ & Hc & _).
  assert (H : load_manifest project_files "/proj/target/manifest.json"
              = Read (Ok project_manifest)).
  { apply Hgate. split; reflexivity. }
  split; [exact H |]. split; [exact (proj1 (Hm _ H)) |].
  split; [| exact (Hc eq_refl)].
  apply (Hwrong "https://schemas.getdbt.com/dbt/manifest/v2.json" project_profiles eq_refl).
  discriminate.
Defined.

(** ** [parse] *)

Lemma bind_opened_Ok {A B : Type} (c : opened A) (k : A -> opened B) (b : B) :
  bind_opened c k = Read (Ok b) -> exists a, c = Read (Ok a) /\ k a = Read (Ok b).
Proof. destruct c as [[a | e |] |]; cbn; intros H; [eauto | discriminate..]. Qed.

Lemma bind_opened_missing {A B : Type} (c : opened A) (k : A -> opened B) :
  bind_opened c k = FileNotFoundError ->
  c = FileNotFoundError \/ exists a, c = Read (Ok a) /\ k a = FileNotFoundError.
Proof. destruct c as [[a | e |] |]; cbn; intros H; [eauto | discriminate.. | auto]. Qed.

Ltac opened_inv H :=
  let a := fresh "a" in
  let Ha := fresh "E" in
  apply bind_opened_Ok in H as (a & Ha & H);
  try (injection Ha as Ha).

Lemma as_path_Ok (v : json) (s : string) : as_path v = Ok s -> v = JStr s.
Proof. destruct v; cbn; intros H; try discriminate. injection H as <-. reflexivity. Qed.

Lemma load_yaml_Ok (fs : files) (path : string) (doc : json) :
  load_yaml fs path = Read (Ok doc) -> fs path = Some doc.
Proof. unfold load_yaml. destruct (fs path); intros H; [injection H as <-; reflexivity | discriminate]. Qed.

(** The stages a parse has gone through when it returns. *)
Lemma parse_stages (self self' : Processor) (attrs attrs' : Project)
    (environ : gmap string string) (fs : files) (w w' : world) (ev : DbtEvents) :
  parse self attrs environ fs w = Read (Ok (ev, self', attrs', w')) ->
  exists target_path manifest run_result catalog args profile_dir profiles profile outputs
         selected manifest_nodes items which,
    getitem (project attrs) "target-path" = Ok (JStr target_path) /\
    load_manifest fs (path_join (path_join (dir attrs) target_path) "manifest.json")
      = Read (Ok manifest) /\
    load_run_results fs (path_join (path_join (dir attrs) target_path) "run_results.json")
      = Read (Ok run_result) /\
    load_catalog fs (path_join (path_join (dir attrs) target_path) "catalog.json")
      = Read (Ok catalog) /\
    getitem run_result "args" = Ok args /\
    getitem args "profiles_dir" = Ok (JStr profile_dir) /\
    (if negb (truthy (profile_name attrs)) then getitem (project attrs) "profile"
     else Ok (profile_name attrs)) = Ok (profile_name attrs') /\
    fs (path_join profile_dir "profiles.yml") = Some profiles /\
    subscript profiles (profile_name attrs') = Ok profile /\
    (if negb (truthy (target attrs)) then getitem profile "target" else Ok (target attrs))
      = Ok (target attrs') /\
    getitem profile "outputs" = Ok outputs /\
    subscript outputs (target attrs') = Ok selected /\
    dir attrs' = dir attrs /\ project attrs' = project attrs /\
    extract_namespace selected = Ok (dataset_namespace self') /\
    job_namespace self' = default (dataset_namespace self') (environ !! "OPENLINEAGE_NAMESPACE") /\
    producer self' = producer self /\ skip_errors self' = skip_errors self /\
    getitem manifest "nodes" = Ok manifest_nodes /\ py_items manifest_nodes = Ok items /\
    getitem args "which" = Ok which /\
    ((which = JStr "run" /\
      parse_run self' manifest run_result catalog (List.filter is_model_or_test items) w
      = Ok (ev, w')) \/
     (which = JStr "test" /\
      parse_test self' manifest run_result catalog (List.filter is_model_or_test items) w
      = Ok (ev, w'))).
Proof.
  unfold parse. intros H.
  opened_inv H. rename a into tp0, E into Htp.
  opened_inv H. rename a into target_path. apply as_path_Ok in E as ->.
  opened_inv H. rename a into manifest, E into Hmanifest.
  opened_inv H. rename a into run_result, E into Hrun.
  opened_inv H. rename a into catalog, E into Hcatalog.
  opened_inv H. rename a into args, E into Hargs.
  opened_inv H. rename a into pd0, E into Hpd.
  opened_inv H. rename a into pname, E into Hpname.
  opened_inv H. rename a into profile_dir. apply as_path_Ok in E as ->.
  opened_inv H. rename a into profiles, E into Hprofiles. apply load_yaml_Ok in Hprofiles.
  opened_inv H. rename a into profile, E into Hprofile.
  opened_inv H. rename a into tgt, E into Htgt.
  opened_inv H. rename a into outputs, E into Houtputs.
  opened_inv H. rename a into selected, E into Hselected.
  opened_inv H. rename a into self1, E into Hself1.
  opened_inv H. rename a into self2, E into Hself2.
  opened_inv H. rename a into manifest_nodes, E into Hmn.
  opened_inv H. rename a into items, E into Hitems.
  opened_inv H. rename a into which, E into Hwhich.
  unfold extract_dataset_namespace in Hself1. bind_inv Hself1. injection Hself1 as <-.
  unfold extract_job_namespace in Hself2. bind_inv Hself2. cbn in Hself2.
  injection Hself2 as <-.
  rewrite Hargs in Hwhich. cbn [bind] in Hwhich.
  assert (Hdispatch :
    exists events w1,
      ((which = JStr "run" /\
        parse_run
          (mkProcessor (producer self)
             (default a0 (environ !! "OPENLINEAGE_NAMESPACE")) a (skip_errors self))
          manifest run_result catalog (List.filter is_model_or_test items) w
        = Ok (events, w1)) \/
       (which = JStr "test" /\
        parse_test
          (mkProcessor (producer self)
             (default a0 (environ !! "OPENLINEAGE_NAMESPACE")) a (skip_errors self))
          manifest run_result catalog (List.filter is_model_or_test items) w
        = Ok (events, w1))) /\
      (events,
       mkProcessor (producer self) (default a0 (environ !! "OPENLINEAGE_NAMESPACE")) a
         (skip_errors self),
       mkProject (dir attrs) (project attrs) pname tgt, w1) = (ev, self', attrs', w')).
  { destruct (eq_str which "run") eqn:Hr; [| destruct (eq_str which "test") eqn:Ht].
    - opened_inv H. destruct a1 as [events w1]. injection H as <- <- <- <-.
      apply eq_str_true in Hr. exists events, w1. split; [left; auto | reflexivity].
    - opened_inv H. destruct a1 as [events w1]. injection H as <- <- <- <-.
      apply eq_str_true in Ht. exists events, w1. split; [right; auto | reflexivity].
    - discriminate. }
  destruct Hdispatch as (events & w1 & Hd & Heq). injection Heq as <- <- <- <-.
  rewrite E in E0. injection E0 as <-.
  exists target_path, manifest, run_result, catalog, args, profile_dir, profiles, profile,
    outputs, selected, manifest_nodes, items, which.
  cbn. repeat (split; [first [assumption | reflexivity] |]). exact Hd.
Qed.

(** X16.  When [parse] returns, it has loaded the manifest and the run
    results from the target directory of the project, each with its
    schema version, and taken [None] for a catalog that is not there.
    Its events are those of [parse_run] when the run results are of
    [dbt run] and those of [parse_test] when they are of [dbt test], on
    these documents and on the nodes of the manifest that are models or
    tests; no other command gives events. *)
Theorem parse_dispatch (self self' : Processor) (attrs attrs' : Project)
    (environ : gmap string string) (fs : files) (w w' : world) (ev : DbtEvents) :
  parse self attrs environ fs w = Read (Ok (ev, self', attrs', w')) ->
  exists target_path manifest run_result catalog args manifest_nodes items which,
    getitem (project attrs) "target-path" = Ok (JStr target_path) /\
    load_manifest fs (path_join (path_join (dir attrs) target_path) "manifest.json")
      = Read (Ok manifest) /\
    load_run_results fs (path_join (path_join (dir attrs) target_path) "run_results.json")
      = Read (Ok run_result) /\
    load_catalog fs (path_join (path_join (dir attrs) target_path) "catalog.json")
      = Read (Ok catalog) /\
    (fs (path_join (path_join (dir attrs) target_path) "catalog.json") = None ->
     catalog = JNull) /\
    getitem manifest "nodes" = Ok manifest_nodes /\ py_items manifest_nodes = Ok items /\
    getitem run_result "args" = Ok args /\ getitem args "which" = Ok which /\
    ((which = JStr "run" /\
      parse_run self' manifest run_result catalog (List.filter is_model_or_test items) w
      = Ok (ev, w')) \/
     (which = JStr "test" /\
      parse_test self' manifest run_result catalog (List.filter is_model_or_test items) w
      = Ok (ev, w'))).
Proof.
  intros H. apply parse_stages in H
    as (target_path & manifest & run_result & catalog & args & profile_dir & profiles &
        profile & outputs & selected & manifest_nodes & items & which &
        H1 & H2 & H3 & H4 & H5 & _ & _ & _ & _ & _ & _ & _ & _ & _ & _ & _ & _ & _ &
        H6 & H7 & H8 & H9).
  exists target_path, manifest, run_result, catalog, args, manifest_nodes, items, which.
  repeat (split; [assumption |]). split; [| auto 10].
  intros Hnone. unfold load_catalog, load_metadata in H4. rewrite Hnone in H4.
  injection H4 as <-. reflexivity.
Qed.

Lemma parse_dispatch_witness :
  exists ev self' attrs' w',
    parse (__init__ "https://github.com/OpenLineage" None) project_attrs ∅ project_files w0
      = Read (Ok (ev, self', attrs', w')) /\
    parse_run self' project_manifest (project_run_results "run") JNull
      [("model.proj.customers", customers_metadata)] w0 = Ok (ev, w').
Proof.
  destruct (parse (__init__ "https://github.com/OpenLineage" None) project_attrs ∅
              project_files w0) as [[[[[ev self'] attrs'] w'] | e |] |] eqn:E;
    [| vm_compute in E; discriminate..].
  exists ev, self', attrs', w'. split; [reflexivity |].
  destruct (parse_dispatch _ _ _ _ _ _ _ _ _ E)
    as (tp & manifest & run_result & catalog & args & mn & items & which &
        Htp & Hm & Hr & Hc & Hnone & Hmn & Hitems & Hargs & Hwhich & Hd).
  vm_compute in Htp. injection Htp as <-.
  vm_compute in Hm. injection Hm as <-. vm_compute in Hr. injection Hr as <-.
  rewrite (Hnone eq_refl) in *.
  vm_compute in Hmn. injection Hmn as <-. vm_compute in Hitems. injection Hitems as <-.
  vm_compute in Hargs. injection Hargs as <-. vm_compute in Hwhich. injection Hwhich as <-.
  destruct Hd as [[_ Hd] | [Hd _]]; [exact Hd | discriminate].
Defined.

(** X17.  When [parse] returns, the profile it has used is the entry of
    [profiles.yml] under the profile name and, in its [outputs], under
    the target, where [profiles.yml] is the file of that name in the
    directory that the run results it has loaded give as
    [args.profiles_dir].  A
    profile name or target given to the constructor is used as it is;
    one that was left out is taken from the [profile] of the project and
    from the [target] of the profile.  The profile is a snowflake or a
    bigquery profile, its namespace is the dataset namespace of the
    processor, and the job namespace is [OPENLINEAGE_NAMESPACE] when the
    variable is set and the dataset namespace otherwise.  Producer and
    [skip_errors] are as they were. *)
Theorem parse_profile (self self' : Processor) (attrs attrs' : Project)
    (environ : gmap string string) (fs : files) (w w' : world) (ev : DbtEvents) :
  parse self attrs environ fs w = Read (Ok (ev, self', attrs', w')) ->
  (truthy (profile_name attrs) = true -> profile_name attrs' = profile_name attrs) /\
  (truthy (profile_name attrs) = false ->
   getitem (project attrs) "profile" = Ok (profile_name attrs')) /\
  (truthy (target attrs) = true -> target attrs' = target attrs) /\
  (exists target_path run_result args profile_dir profiles profile outputs selected type,
     getitem (project attrs) "target-path" = Ok (JStr target_path) /\
     load_run_results fs (path_join (path_join (dir attrs) target_path) "run_results.json")
       = Read (Ok run_result) /\
     getitem run_result "args" = Ok args /\
     getitem args "profiles_dir" = Ok (JStr profile_dir) /\
     fs (path_join profile_dir "profiles.yml") = Some profiles /\
     subscript profiles (profile_name attrs') = Ok profile /\
     (truthy (target attrs) = false -> getitem profile "target" = Ok (target attrs')) /\
     getitem profile "outputs" = Ok outputs /\
     subscript outputs (target attrs') = Ok selected /\
     getitem selected "type" = Ok type /\
     (type = JStr "snowflake" \/ type = JStr "bigquery") /\
     extract_namespace selected = Ok (dataset_namespace self')) /\
  job_namespace self'
  = match environ !! "OPENLINEAGE_NAMESPACE" with
    | Some override => override
    | None => dataset_namespace self'
    end /\
  producer self' = producer self /\ skip_errors self' = skip_errors self.
Proof.
  intros H. apply parse_stages in H
    as (target_path & manifest & run_result & catalog & args & profile_dir & profiles &
        profile & outputs & selected & manifest_nodes & items & which &
        Htp & _ & Hrun & _ & Hargs & Hpd & Hname & Hprofiles & Hprofile & Htarget & Houtputs &
        Hselected & _ & _ & Hns & Hjob & Hprod & Hskip & _).
  split; [intros Ht; rewrite Ht in Hname; cbn in Hname; congruence |].
  split; [intros Ht; rewrite Ht in Hname; exact Hname |].
  split; [intros Ht; rewrite Ht in Htarget; cbn in Htarget; congruence |].
  split; [| split; [rewrite Hjob; destruct (environ !! _); reflexivity | auto]].
  pose proof Hns as Hns'. unfold extract_namespace in Hns'. bind_inv Hns'.
  exists target_path, run_result, args, profile_dir, profiles, profile, outputs, selected, a.
  repeat (split; [first [assumption | reflexivity] |]).
  split; [intros Ht; rewrite Ht in Htarget; exact Htarget |].
  repeat (split; [first [assumption | reflexivity] |]). split; [| exact Hns].
  destruct (eq_str a "snowflake") eqn:Hs; [left; apply eq_str_true; exact Hs |].
  destruct (eq_str a "bigquery") eqn:Hb; [right; apply eq_str_true; exact Hb | discriminate].
Qed.

Lemma parse_profile_witness :
  exists ev self' attrs' w',
    parse (__init__ "https://github.com/OpenLineage" None) project_attrs
      {["OPENLINEAGE_NAMESPACE" := "staging"]} project_files w0
      = Read (Ok (ev, self', attrs', w')) /\
    profile_name attrs' = JStr "acme" /\ target attrs' = JStr "dev" /\
    dataset_namespace self' = "snowflake://acme.eu-west-1" /\ job_namespace self' = "staging".
Proof.
  destruct (parse (__init__ "https://github.com/OpenLineage" None) project_attrs
              {["OPENLINEAGE_NAMESPACE" := "staging"]} project_files w0)
    as [[[[[ev self'] attrs'] w'] | e |] |] eqn:E; [| vm_compute in E; discriminate..].
  exists ev, self', attrs', w'. split; [reflexivity |].
  destruct (parse_profile _ _ _ _ _ _ _ _ _ E) as (_ & Hname & _ & _ & Hjob & _).
  specialize (Hname eq_refl). vm_compute in Hname. injection Hname as Hname.
  vm_compute in E. injection E as <- <- <- <-. repeat split; reflexivity.
Defined.

(** The directory counts: with the profiles somewhere else than the run
    results say, [parse] does not find them. *)
Example parse_profile_elsewhere :
  parse acme project_attrs ∅
    (fun path =>
       if String.eqb path "/proj/target/manifest.json" then Some project_manifest
       else if String.eqb path "/proj/target/run_results.json" then Some (project_run_results "run")
       else if String.eqb path "/etc/dbt/profiles.yml" then Some project_profiles
       else None) w0
  = FileNotFoundError.
Proof. vm_compute. reflexivity. Qed.

(** X18.  The files [parse] cannot do without.  With a target path in
    the project, a missing manifest ends [parse] with
    [FileNotFoundError] before anything else is read.  When [parse] ends
    with [FileNotFoundError], the file that is missing is the manifest,
    or the run results, or the [profiles.yml] of the directory that the
    run results name.  So when these three are there [parse] does not end
    with [FileNotFoundError], with or without a catalog: a missing
    catalog never ends a parse.  A project without a target path ends it
    with the error of the lookup, whatever the files. *)
Theorem parse_missing_files (self : Processor) (attrs : Project)
    (environ : gmap string string) (fs : files) (w : world) :
  (forall target_path,
     getitem (project attrs) "target-path" = Ok (JStr target_path) ->
     fs (path_join (path_join (dir attrs) target_path) "manifest.json") = None ->
     parse self attrs environ fs w = FileNotFoundError) /\
  (parse self attrs environ fs w = FileNotFoundError ->
   exists target_path,
     getitem (project attrs) "target-path" = Ok (JStr target_path) /\
     (fs (path_join (path_join (dir attrs) target_path) "manifest.json") = None \/
      fs (path_join (path_join (dir attrs) target_path) "run_results.json") = None \/
      exists run_result args profile_dir,
        load_run_results fs (path_join (path_join (dir attrs) target_path) "run_results.json")
          = Read (Ok run_result) /\
        getitem run_result "args" = Ok args /\
        getitem args "profiles_dir" = Ok (JStr profile_dir) /\
        fs (path_join profile_dir "profiles.yml") = None)) /\
  (forall target_path manifest run_result args profile_dir profiles,
     getitem (project attrs) "target-path" = Ok (JStr target_path) ->
     fs (path_join (path_join (dir attrs) target_path) "manifest.json") = Some manifest ->
     load_run_results fs (path_join (path_join (dir attrs) target_path) "run_results.json")
       = Read (Ok run_result) ->
     getitem run_result "args" = Ok args ->
     getitem args "profiles_dir" = Ok (JStr profile_dir) ->
     fs (path_join profile_dir "profiles.yml") = Some profiles ->
     parse self attrs environ fs w <> FileNotFoundError) /\
  (forall e, getitem (project attrs) "target-path" = Raise e ->
     parse self attrs environ fs w = Read (Raise e)).
Proof.
  assert (Hmissing :
    parse self attrs environ fs w = FileNotFoundError ->
    exists target_path,
      getitem (project attrs) "target-path" = Ok (JStr target_path) /\
      (fs (path_join (path_join (dir attrs) target_path) "manifest.json") = None \/
       fs (path_join (path_join (dir attrs) target_path) "run_results.json") = None \/
       exists run_result args profile_dir,
         load_run_results fs (path_join (path_join (dir attrs) target_path) "run_results.json")
           = Read (Ok run_result) /\
         getitem run_result "args" = Ok args /\
         getitem args "profiles_dir" = Ok (JStr profile_dir) /\
         fs (path_join profile_dir "profiles.yml") = None)).
  { unfold parse. intros H.
    apply bind_opened_missing in H as [H | (tp0 & Htp & H)]; [discriminate |].
    injection Htp as Htp.
    apply bind_opened_missing in H as [H | (target_path & Hpath & H)]; [discriminate |].
    injection Hpath as Hpath. apply as_path_Ok in Hpath as ->.
    exists target_path. split; [exact Htp |].
    apply bind_opened_missing in H as [H | (manifest & _ & H)].
    { left. unfold load_manifest, load_metadata in H.
      destruct (fs _) as [doc |]; [| reflexivity].
      destruct (negb _); discriminate. }
    apply bind_opened_missing in H as [H | (run_result & Hrun & H)].
    { right. left. unfold load_run_results, load_metadata in H.
      destruct (fs _) as [doc |]; [| reflexivity].
      destruct (negb _); discriminate. }
    apply bind_opened_missing in H as [H | (catalog & _ & H)].
    { exfalso. unfold load_catalog in H.
      destruct (load_metadata fs _ _) as [r |]; discriminate. }
    right. right.
    apply bind_opened_missing in H as [H | (args & Hargs & H)]; [discriminate |].
    injection Hargs as Hargs.
    apply bind_opened_missing in H as [H | (pd0 & Hpd & H)]; [discriminate |].
    injection Hpd as Hpd.
    apply bind_opened_missing in H as [H | (pname & _ & H)]; [discriminate |].
    apply bind_opened_missing in H as [H | (profile_dir & Hdir & H)]; [discriminate |].
    injection Hdir as Hdir. apply as_path_Ok in Hdir as ->.
    apply bind_opened_missing in H as [H | (profiles & _ & H)].
    { exists run_result, args, profile_dir. repeat (split; [assumption |]).
      unfold load_yaml in H. destruct (fs _); [discriminate | reflexivity]. }
    exfalso.
    do 9 (apply bind_opened_missing in H as [H | (? & _ & H)]; [discriminate |]).
    destruct (eq_str _ "run"); [| destruct (eq_str _ "test")].
    + apply bind_opened_missing in H as [H | ([? ?] & _ & H)]; discriminate.
    + apply bind_opened_missing in H as [H | ([? ?] & _ & H)]; discriminate.
    + discriminate. }
  split; [| split; [exact Hmissing | split]].
  - intros target_path Htp Hnone. unfold parse. rewrite Htp. cbn [bind_opened as_path].
    unfold load_manifest, load_metadata. rewrite Hnone. reflexivity.
  - intros target_path manifest run_result args profile_dir profiles
      Htp Hm Hrun Hargs Hpd Hprofiles H.
    apply Hmissing in H as (tp & Htp' & H).
    rewrite Htp in Htp'. injection Htp' as <-.
    destruct H as [H | [H | (rr & args' & pd & Hrun' & Hargs' & Hpd' & H)]].
    + rewrite Hm in H. discriminate.
    + unfold load_run_results, load_metadata in Hrun. rewrite H in Hrun. discriminate.
    + rewrite Hrun in Hrun'. injection Hrun' as <-.
      rewrite Hargs in Hargs'. injection Hargs' as <-.
      rewrite Hpd in Hpd'. injection Hpd' as <-.
      rewrite Hprofiles in H. discriminate.
  - intros e He. unfold parse. rewrite He. reflexivity.
Qed.

Lemma parse_missing_files_witness :
  parse acme (mkProject "/elsewhere" (project project_attrs) JNull JNull) ∅ project_files w0
  = FileNotFoundError /\
  parse acme (mkProject "/proj" (JObj [("name", JStr "proj")]) JNull JNull) ∅ project_files w0
  = Read (Raise KeyError) /\
  parse acme project_attrs ∅ project_files w0 <> FileNotFoundError.
Proof.
  destruct (parse_missing_files acme (mkProject "/elsewhere" (project project_attrs) JNull JNull)
              ∅ project_files w0) as (H1 & _ & _).
  destruct (parse_missing_files acme (mkProject "/proj" (JObj [("name", JStr "proj")]) JNull JNull)
              ∅ project_files w0) as (_ & _ & _ & H3).
  destruct (parse_missing_files acme project_attrs ∅ project_files w0) as (_ & _ & H2 & _).
  split; [exact (H1 "target" eq_refl eq_refl) |]. split; [exact (H3 KeyError eq_refl) |].
  exact (H2 "target" project_manifest (project_run_results "run")
           (JObj [("which", JStr "run"); ("profiles_dir", JStr "/home/dbt/.dbt")])
           "/home/dbt/.dbt" project_profiles eq_refl eq_refl eq_refl eq_refl eq_refl eq_refl).
Defined.

(** ** Successful runs *)

Lemma described_output (self : Processor) (node : ModelNode) :
  node_described node = true ->
  (negb (truthy (catalog_node node)) || counts_coercible (catalog_node node)) = true ->
  (exists o, node_to_output_dataset self node false = Ok o) /\
  (exists o, node_to_output_dataset self node true = Ok o).
Proof.
  intros Hd Hc. destruct (node_described_full self node Hd) as [[d0 H0] [d1 H1]].
  unfold node_to_dataset in H0, H1.
  bind_inv H0. destruct a as [[ns0 nm0] f0]. bind_inv H1. destruct a as [[ns1 nm1] f1].
  unfold node_to_output_dataset. rewrite E, E0. cbn [bind andb]. split; [eauto |].
  destruct (truthy (catalog_node node)); cbn [negb orb] in Hc; [| cbn; eauto].
  unfold counts_coercible in Hc. apply andb_prop in Hc as [Hb Hr].
  destruct (coerce_count _) as [size | |]; [| discriminate..]. cbn [bind].
  destruct (truthy (get_from_multiple_chains (catalog_node node) rows_chains));
    cbn [negb orb] in Hr; [| cbn; eauto].
  destruct (py_int _) as [n | |]; [| discriminate..]. cbn. eauto.
Qed.

(** The events of a successful run with its data in place. *)
Lemma success_run_built (self : Processor) (run : DbtRun) :
  status run = JStr "success" ->
  success_run_data run = true ->
  exists out sql ins o0 fins o,
    output run = Some out /\
    traverse (fun node => node_to_dataset self node true) (run_inputs run) = Ok fins /\
    node_to_output_dataset self out true = Ok o /\
    _to_openlineage_events self run
    = Ok (Some (mkDbtRunResult
            (mkRunEvent START (started_at run) (run_run_id run)
               (mkJob (job_namespace self) (job_name run) ∅) (producer self) ins [o0])
            (Some (mkRunEvent COMPLETE (completed_at run) (run_run_id run)
                     (mkJob (job_namespace self) (job_name run) {["sql" := SqlJobFacet sql]})
                     (producer self) fins [o]))
            None)).
Proof.
  intros Hstatus Hdata. unfold success_run_data in Hdata.
  apply andb_prop in Hdata as [Hins Hout].
  destruct (output run) as [out |] eqn:Houtput; [| discriminate].
  apply andb_prop in Hout as [Hout Hcounts]. apply andb_prop in Hout as [Hdesc Hsql].
  destruct (getitem (metadata_node out) "compiled_sql") as [sql | |] eqn:Esql; [| discriminate..].
  destruct (described_inputs self _ Hins) as [[ins Eins] [fins Efins]].
  destruct (described_output self out Hdesc Hcounts) as [[o0 Eo0] [o Eo]].
  exists out, sql, ins, o0, fins, o.
  split; [reflexivity |]. split; [exact Efins |]. split; [exact Eo |].
  unfold _to_openlineage_events. rewrite Hstatus. cbn [eq_str].
  change (String.eqb "success" "skipped") with false.
  change (String.eqb "success" "success") with true. cbv iota.
  rewrite Eins. cbn [bind]. rewrite Houtput, Eo0. cbn [bind deref].
  rewrite Esql. cbn [bind]. rewrite Efins. cbn [bind]. rewrite Eo. reflexivity.
Qed.

(** X19.  A run with status "success" whose data is in place is
    translated: the event builder gives a start and a complete event
    with the run id of the run, the error handler passes them on, and the
    complete event has one input dataset for each input node and one
    output dataset, which carries the data source and the schema of the
    output node. *)
Theorem success_run_translated (self : Processor) (run : DbtRun) :
  status run = JStr "success" ->
  success_run_data run = true ->
  exists r c o,
    _to_openlineage_events self run = Ok (Some r) /\
    to_openlineage_events self run = Ok (Some r) /\
    complete r = Some c /\ fail r = None /\
    runId (start r) = run_run_id run /\ runId c = run_run_id run /\
    length (inputs c) = length (run_inputs run) /\
    outputs c = [o] /\
    described (dataset_namespace self) (out_facets o).
Proof.
  intros Hstatus Hdata.
  destruct (success_run_built self run Hstatus Hdata)
    as (out & sql & ins & o0 & fins & o & _ & Efins & Eo & Hr).
  eexists _, _, o. split; [exact Hr |].
  split; [unfold to_openlineage_events; rewrite Hr; reflexivity |]. cbn.
  repeat (split; [reflexivity |]).
  split; [exact (traverse_length _ _ _ Efins) |]. split; [reflexivity |].
  unfold node_to_output_dataset in Eo. bind_inv Eo. destruct a as [[ns nm] fs].
  bind_inv Eo. injection Eo as <-. cbn.
  apply extract_dataset_data_full in E. tauto.
Qed.

Lemma success_run_translated_witness :
  exists r c o,
    _to_openlineage_events acme (customers_run (JStr "success") (Some rows_only_node))
      = Ok (Some r) /\
    complete r = Some c /\ outputs c = [o] /\ described "snowflake://acme" (out_facets o).
Proof.
  destruct (success_run_translated acme (customers_run (JStr "success") (Some rows_only_node))
              eq_refl eq_refl) as (r & c & o & Hr & _ & Hc & _ & _ & _ & _ & Ho & Hd).
  exists r, c, o. auto.
Defined.

(** C5.  For a run with status "success" the event builder gives one
    start event and one complete event and no fail event; both carry the
    run id of the run; and the output dataset list of each of them is
    non-empty if and only if the run has an output node.  The events are
    produced whenever the data of the run is in place, and the error
    handler then passes them on.  (The SQL text of the complete event is
    read from the output node, so a run that is translated has one, as
    every run that [parse_run] assembles does.) *)
Theorem success_run_start_and_complete (self : Processor) (run : DbtRun) :
  status run = JStr "success" ->
  (forall o, _to_openlineage_events self run = Ok o ->
     exists r c,
       o = Some r /\ complete r = Some c /\ fail r = None /\
       eventType (start r) = START /\ eventType c = COMPLETE /\
       runId (start r) = run_run_id run /\ runId c = run_run_id run /\
       (outputs (start r) <> [] <-> output run <> None) /\
       (outputs c <> [] <-> output run <> None)) /\
  (forall r, to_openlineage_events self run = Ok (Some r) ->
     _to_openlineage_events self run = Ok (Some r)) /\
  (success_run_data run = true ->
     exists r, _to_openlineage_events self run = Ok (Some r) /\
               to_openlineage_events self run = Ok (Some r)).
Proof.
  intros Hstatus. split; [| split].
  - intros o H.
    destruct (success_run_events self run o Hstatus H)
      as (r & c & out & -> & Hc & Hf & Hts & Htc & Hrs & Hrc & Hout & Hls & Hlc).
    exists r, c. repeat (split; [first [reflexivity | assumption] |]).
    rewrite Hout. split; split; intros _; try discriminate.
    + destruct (outputs (start r)); [discriminate Hls | discriminate].
    + destruct (outputs c); [discriminate Hlc | discriminate].
  - intros r. apply to_openlineage_events_Some.
  - intros Hdata.
    destruct (success_run_built self run Hstatus Hdata)
      as (out & sql & ins & o0 & fins & o & _ & _ & _ & Hr).
    eexists. split; [exact Hr |]. unfold to_openlineage_events. rewrite Hr. reflexivity.
Qed.

(** The successful run of [customers]. *)
Lemma success_run_start_and_complete_witness :
  exists r c,
    _to_openlineage_events acme (customers_run (JStr "success") (Some rows_only_node))
      = Ok (Some r) /\
    complete r = Some c /\ fail r = None /\ runId (start r) = runId c /\
    outputs (start r) <> [] /\ outputs c <> [].
Proof.
  destruct (success_run_start_and_complete acme
              (customers_run (JStr "success") (Some rows_only_node)) eq_refl)
    as (Hshape & _ & Htotal).
  destruct (Htotal eq_refl) as (r & Hr & _).
  destruct (Hshape _ Hr) as (r0 & c & Heq & Hc & Hf & _ & _ & Hs & Hrc & Hso & Hco).
  injection Heq as <-. exists r, c.
  split; [exact Hr |]. split; [exact Hc |]. split; [exact Hf |].
  split; [rewrite Hs, Hrc; reflexivity |].
  split; [apply Hso; discriminate | apply Hco; discriminate].
Defined.
